(** * Commit-job orchestration and HA convergence of the PAN-OS deployment scripts

    A shallow embedding of [pa_deployment_ha.py] (class [PaloAltoFirewall_HA])
    and [pa_deployment_config.py] (class [PaloAltoFirewall_config]).

    Python methods are functions in a state-and-exception monad.  The state
    holds the object's attributes, the local variables that outlive a
    [try] block, and the chronological list of effects on the outside
    world (HTTP requests, sleeps, log records, progress-bar updates).  The
    firewalls are an oracle: the k-th request of a run is answered by
    [net k request].  [while] loops take fuel; running out of it is a
    result of its own, distinct from returning and from raising. *)

From Stdlib Require Import ZArith List String Ascii Bool Lia.
From stdpp Require Import base option list strings gmap.
Import ListNotations.
Open Scope string_scope.
Open Scope list_scope.

(** ** Python values used by the scripts *)

(** The exception classes that the modelled code can meet; all of them
    derive from [Exception]. *)
Inductive exn :=
| RequestException
| ParseError
| IndexError
| KeyError
| AttributeError
| UnboundLocalError.

Definition exn_eqb (a b : exn) : bool :=
  match a, b with
  | RequestException, RequestException
  | ParseError, ParseError
  | IndexError, IndexError
  | KeyError, KeyError
  | AttributeError, AttributeError
  | UnboundLocalError, UnboundLocalError => true
  | _, _ => false
  end.

(** [str(x)] inside an f-string, for a value that may be [None]. *)
Definition str_opt (o : option string) : string :=
  match o with
  | Some s => s
  | None => "None"
  end.

(** [x == "literal"] where [x] may be [None]. *)
Definition opt_eqb (o : option string) (s : string) : bool :=
  match o with
  | Some t => String.eqb t s
  | None => false
  end.

(** Truthiness of an optional string: [None] and [""] are falsy. *)
Definition truthy (o : option string) : bool :=
  match o with
  | Some EmptyString => false
  | Some _ => true
  | None => false
  end.

(** *** [str.split(sep)] for a non-empty separator

    [split_from sep skip cur s] scans [s] from the left; [cur] is the piece
    read so far and [skip] the number of characters of a separator that was
    just matched and is still to be passed over. *)
Fixpoint split_from (sep : string) (skip : nat) (cur : string) (s : string)
  : list string :=
  match s with
  | EmptyString => [cur]
  | String c s' =>
      match skip with
      | S k => split_from sep k cur s'
      | O =>
          if String.prefix sep s
          then cur :: split_from sep (Nat.pred (String.length sep)) "" s'
          else split_from sep 0 (cur +:+ String c "") s'
      end
  end.

Definition split (sep s : string) : list string := split_from sep 0 "" s.

(** *** Python dictionaries

    A [dict] keeps its keys in insertion order; assigning to a key that is
    present replaces the value where it stands. *)
Definition dict (V : Type) := list (string * V).

Fixpoint dict_set {V} (k : string) (v : V) (d : dict V) : dict V :=
  match d with
  | [] => [(k, v)]
  | (k', v') :: d' =>
      if String.eqb k' k then (k', v) :: d' else (k', v') :: dict_set k v d'
  end.

Fixpoint dict_get {V} (k : string) (d : dict V) : option V :=
  match d with
  | [] => None
  | (k', v') :: d' => if String.eqb k' k then Some v' else dict_get k d'
  end.

Fixpoint dict_del {V} (k : string) (d : dict V) : dict V :=
  match d with
  | [] => []
  | (k', v') :: d' =>
      if String.eqb k' k then d' else (k', v') :: dict_del k d'
  end.

Definition dict_keys {V} (d : dict V) : list string := map fst d.

(** ** [xml.etree.ElementTree] *)

(** An element: its tag, its text ([None] when it has none) and its
    children, in document order. *)
#[warnings="-register-all"]
Inductive Element :=
| Elem (tag : string) (text : option string) (children : list Element).

Definition tag_of (e : Element) : string :=
  match e with Elem t _ _ => t end.
Definition text_of (e : Element) : option string :=
  match e with Elem _ t _ => t end.
Definition children_of (e : Element) : list Element :=
  match e with Elem _ _ cs => cs end.

(** All elements below [e], in document order, [e] itself left out: what
    the path step [.//] ranges over. *)
Fixpoint descendants (e : Element) : list Element :=
  match e with
  | Elem _ _ cs =>
      (fix below (l : list Element) : list Element :=
         match l with
         | [] => []
         | c :: l' => c :: descendants c ++ below l'
         end) cs
  end.

Definition has_tag (t : string) (e : Element) : bool := String.eqb (tag_of e) t.

(** [e.find(".//t")] *)
Definition find_desc (t : string) (e : Element) : option Element :=
  head (filter (fun x => has_tag t x = true) (descendants e)).

(** [e.find("t")]: the first child with that tag. *)
Definition find_child (t : string) (e : Element) : option Element :=
  head (filter (fun x => has_tag t x = true) (children_of e)).

(** The text that [findtext] reports for a matched element: an element
    without text counts as the empty string. *)
Definition text_or_empty (e : Element) : string :=
  match text_of e with Some s => s | None => "" end.

(** [e.findtext("t", default)] *)
Definition findtext (t : string) (default : option string) (e : Element)
  : option string :=
  match find_child t e with
  | Some c => Some (text_or_empty c)
  | None => default
  end.

(** [e.findtext(".//a/b")]: the first [b] child of an [a] below [e]. *)
Definition findtext_desc_child (a b : string) (e : Element) : option string :=
  match
    head (flat_map (fun g => filter (fun x => has_tag b x = true) (children_of g))
            (filter (fun x => has_tag a x = true) (descendants e)))
  with
  | Some c => Some (text_or_empty c)
  | None => None
  end.

(** ** The outside world *)

Record Device := { host : string; username : string; password : string }.

Record Headers := { content_type : string; x_pan_key : string }.

(** The API operations that the scripts send. *)
Inductive api_op :=
| Keygen (user pass : string)
| ConfigSet (xpath element : string) (override : bool)
| CommitCmd
| ShowJob (jobid : option string)
| ShowHAState
| SyncToRemote.

Record request := {
  rq_host : string;
  rq_key : option string;
  rq_op : api_op;
  rq_timeout : option Z
}.

(** An HTTP response.  [xml] is what [ET.fromstring] makes of the body, or
    [None] when it raises [ParseError]. *)
Record response := {
  status_code : Z;
  text : string;
  xml : option Element
}.

(** [requests.get] returns a response or raises. *)
Inductive reply :=
| Replies (r : response)
| Fails (e : exn).

(** The firewalls: the answer to the [k]-th request of a run. *)
Definition network := nat -> request -> reply.

Inductive level := DEBUG | INFO | ERROR.

(** A value interpolated in a log message. *)
Inductive arg :=
| AStr (s : string)
| AOpt (o : option string)
| AInt (z : Z)
| ANat (n : nat)
| AExn (e : exn)
| AKeys (ks : list string)
| ADevices (ds : list Device).

(** The progress bars of the two classes. *)
Inductive bar :=
| get_api_keys | config_int | commit_interfaces | enable_ha | commit_ha
| get_act_fw | conf_act_fw_int | act_fw_zone | act_fw_route | act_fw_policy
| act_fw_nat | act_fw_commit | act_fw_check_sync.

(** One effect.  A log record keeps the message template as the source
    writes it, and the values it interpolates. *)
Inductive event :=
| Request (r : request)
| Sleep (secs : Z)
| Log (lvl : level) (template : string) (args : list arg)
| Update (b : bar) (n : Z).

Definition is_request (e : event) : bool :=
  match e with Request _ => true | _ => false end.

(** The number of requests sent so far. *)
Definition requests_sent (tr : list event) : nat :=
  length (filter (fun e => is_request e = true) tr).

Definition sleep_of (e : event) : Z :=
  match e with Sleep z => z | _ => 0%Z end.

(** The time spent sleeping so far. *)
Definition slept (tr : list event) : Z :=
  fold_right (fun e acc => (sleep_of e + acc)%Z) 0%Z tr.

(** ** The monad: state, exceptions, fuel *)

Inductive result (A : Type) :=
| Ok (a : A)
| Raised (e : exn)
| OutOfFuel.
Arguments Ok {A} a.
Arguments Raised {A} e.
Arguments OutOfFuel {A}.

(** The machine state: the variables of the running object ([vars], a
    record given by each class below) and the effects so far. *)
Record machine (V : Type) := Machine { vars : V; out : list event }.
Arguments Machine {V} vars out.
Arguments vars {V} m.
Arguments out {V} m.

Definition M (V A : Type) := machine V -> result A * machine V.

Section Monad.
Context {V : Type}.

Definition ret {A} (a : A) : M V A := fun s => (Ok a, s).

Definition bind {A B} (m : M V A) (k : A -> M V B) : M V B :=
  fun s =>
    match m s with
    | (Ok a, s') => k a s'
    | (Raised e, s') => (Raised e, s')
    | (OutOfFuel, s') => (OutOfFuel, s')
    end.

Definition raise {A} (e : exn) : M V A := fun s => (Raised e, s).

Definition out_of_fuel {A} : M V A := fun s => (OutOfFuel, s).

(** Reading and assigning variables. *)
Definition read : M V V := fun s => (Ok (vars s), s).

Definition assign (f : V -> V) : M V unit :=
  fun s => (Ok tt, Machine (f (vars s)) (out s)).

Definition emit (e : event) : M V unit :=
  fun s => (Ok tt, Machine (vars s) (out s ++ [e])).

(** [logger.debug], [logger.info], [logger.error] *)
Definition log (lvl : level) (template : string) (args : list arg) : M V unit :=
  emit (Log lvl template args).

(** [bar.update(1)] *)
Definition update (b : bar) : M V unit := emit (Update b 1).

(** [time.sleep(secs)] *)
Definition sleep (secs : Z) : M V unit := emit (Sleep secs).

(** [requests.get(...)]: the request goes out, then the network answers
    or the call raises. *)
Definition http_get (net : network) (r : request) : M V response :=
  fun s =>
    let s' := Machine (vars s) (out s ++ [Request r]) in
    match net (requests_sent (out s)) r with
    | Replies resp => (Ok resp, s')
    | Fails e => (Raised e, s')
    end.

(** [ET.fromstring(response.text)] *)
Definition fromstring (r : response) : M V Element :=
  match xml r with
  | Some e => ret e
  | None => raise ParseError
  end.

(** [try: m  except <the classes that catches accepts> as e: h e] *)
Definition try_except {A} (catches : exn -> bool) (m : M V A)
  (h : exn -> M V A) : M V A :=
  fun s =>
    match m s with
    | (Raised e, s') => if catches e then h e s' else (Raised e, s')
    | r => r
    end.

(** [for x in l: body x] *)
Fixpoint for_each {A} (l : list A) (body : A -> M V unit) : M V unit :=
  match l with
  | [] => ret tt
  | x :: l' => bind (body x) (fun _ => for_each l' body)
  end.

(** [l[0]] *)
Definition index0 {A} (l : list A) : M V A :=
  match l with
  | x :: _ => ret x
  | [] => raise IndexError
  end.
End Monad.

Notation "x <-- m ;; k" := (bind m (fun x => k))
  (at level 100, m at next level, right associativity).
Notation "m ;;; k" := (bind m (fun _ => k))
  (at level 100, right associativity).

(** [except Exception] *)
Definition any_exception (e : exn) : bool := true.
(** [except requests.exceptions.RequestException] *)
Definition request_exception (e : exn) : bool := exn_eqb e RequestException.

(** ** [pa_deployment_ha.py]: class [PaloAltoFirewall_HA] *)

Module HA.

(** A value of [jobid_dict]. *)
Record job_info := {
  ji_device : Device;
  ji_headers : Headers;
  ji_host : string;
  ji_jobid : option string
}.

(** The attributes of the object, then the local variables of
    [commit_changes]. *)
Record state := {
  pa_credentials : list Device;
  api_keys_list : list Headers;
  rest_api_keys_list : list Headers;
  jobid_dict : dict job_info;
  ready_devices : gmap string (list string);
  completed_jobs : list string;
  device : option Device
}.

Definition set_api_keys_list (v : list Headers) (s : state) : state :=
  {| pa_credentials := pa_credentials s; api_keys_list := v;
     rest_api_keys_list := rest_api_keys_list s; jobid_dict := jobid_dict s;
     ready_devices := ready_devices s; completed_jobs := completed_jobs s;
     device := device s |}.

Definition set_rest_api_keys_list (v : list Headers) (s : state) : state :=
  {| pa_credentials := pa_credentials s; api_keys_list := api_keys_list s;
     rest_api_keys_list := v; jobid_dict := jobid_dict s;
     ready_devices := ready_devices s; completed_jobs := completed_jobs s;
     device := device s |}.

Definition set_jobid_dict (v : dict job_info) (s : state) : state :=
  {| pa_credentials := pa_credentials s; api_keys_list := api_keys_list s;
     rest_api_keys_list := rest_api_keys_list s; jobid_dict := v;
     ready_devices := ready_devices s; completed_jobs := completed_jobs s;
     device := device s |}.

Definition set_ready_devices (v : gmap string (list string)) (s : state) : state :=
  {| pa_credentials := pa_credentials s; api_keys_list := api_keys_list s;
     rest_api_keys_list := rest_api_keys_list s; jobid_dict := jobid_dict s;
     ready_devices := v; completed_jobs := completed_jobs s;
     device := device s |}.

Definition set_completed_jobs (v : list string) (s : state) : state :=
  {| pa_credentials := pa_credentials s; api_keys_list := api_keys_list s;
     rest_api_keys_list := rest_api_keys_list s; jobid_dict := jobid_dict s;
     ready_devices := ready_devices s; completed_jobs := v;
     device := device s |}.

Definition set_device (v : option Device) (s : state) : state :=
  {| pa_credentials := pa_credentials s; api_keys_list := api_keys_list s;
     rest_api_keys_list := rest_api_keys_list s; jobid_dict := jobid_dict s;
     ready_devices := ready_devices s; completed_jobs := completed_jobs s;
     device := v |}.

(** [__init__]: the key lists start empty. *)
Definition init (creds : list Device) : machine state :=
  Machine {| pa_credentials := creds; api_keys_list := [];
             rest_api_keys_list := []; jobid_dict := [];
             ready_devices := ∅; completed_jobs := []; device := None |} [].

Section Methods.
Variable net : network.

Definition keygen_request (d : Device) : request :=
  {| rq_host := host d; rq_key := None;
     rq_op := Keygen (username d) (password d); rq_timeout := None |}.

(** [xml_response.split("<key>")[1].split("</key>")[0]] *)
Definition extract_key (body : string) : option string :=
  match nth_error (split "<key>" body) 1 with
  | Some rest => head (split "</key>" rest)
  | None => None
  end.

Definition rest_headers (k : string) : Headers :=
  {| content_type := "application/json"; x_pan_key := k |}.
Definition xml_headers (k : string) : Headers :=
  {| content_type := "application/xml"; x_pan_key := k |}.

(** The body of the loop of [get_api_key], for one device. *)
Definition get_api_key_device (d : Device) : M state unit :=
  try_except request_exception
    (response_api_key <-- http_get net (keygen_request d) ;;
     if (status_code response_api_key =? 200)%Z then
       match extract_key (text response_api_key) with
       | Some PA_api_key =>
           assign (fun s => set_rest_api_keys_list
                      (rest_api_keys_list s ++ [rest_headers PA_api_key]) s) ;;;
           assign (fun s => set_api_keys_list
                      (api_keys_list s ++ [xml_headers PA_api_key]) s) ;;;
           update get_api_keys
       | None => raise IndexError
       end
     else
       log INFO "Failed to get API key. Status code:"
         [AInt (status_code response_api_key)])
    (fun e =>
       log ERROR "Error occurred while making the API request:" [AExn e]).

Definition get_api_key : M state (list Headers) :=
  s <-- read ;;
  for_each (pa_credentials s) get_api_key_device ;;;
  s' <-- read ;;
  ret (api_keys_list s').

(** *** [commit_changes] *)

Definition commit_request (d : Device) (headers : Headers) : request :=
  {| rq_host := host d; rq_key := Some (x_pan_key headers);
     rq_op := CommitCmd; rq_timeout := Some 60%Z |}.

(** [f"{device['host']}_{jobid}"] *)
Definition unique_key_of (d : Device) (jobid : option string) : string :=
  host d +:+ "_" +:+ str_opt jobid.

(** Step 1, for one pair of the [zip]: start the commit and record the
    job. *)
Definition start_commit (dh : Device * Headers) : M state unit :=
  let d := fst dh in
  let headers := snd dh in
  assign (set_device (Some d)) ;;;
  try_except any_exception
    (response <-- http_get net (commit_request d headers) ;;
     if (status_code response =? 200)%Z then
       root <-- fromstring response ;;
       match find_desc "result" root with
       | Some result =>
           let jobid := findtext "job" None result in
           let unique_key := unique_key_of d jobid in
           assign (fun s =>
             set_jobid_dict
               (dict_set unique_key
                  {| ji_device := d; ji_headers := headers;
                     ji_host := host d; ji_jobid := jobid |}
                  (jobid_dict s)) s) ;;;
           log INFO "Commit job ID for {device['host']}: {jobid}"
             [AStr (host d); AOpt jobid]
       | None => ret tt
       end
     else ret tt)
    (fun e =>
       log DEBUG "Error committing changes for {device['host']}: {e}"
         [AStr (host d); AExn e]).

Definition job_request (ji : job_info) : request :=
  {| rq_host := ji_host ji; rq_key := Some (x_pan_key (ji_headers ji));
     rq_op := ShowJob (ji_jobid ji); rq_timeout := Some 30%Z |}.

(** Step 2, for one item of [jobid_dict.items()]: query the job and
    act on its status. *)
Definition poll_job (progress_bar : bar) (item : string * job_info)
  : M state unit :=
  let unique_key := fst item in
  let ji := snd item in
  let host := ji_host ji in
  let jobid := ji_jobid ji in
  assign (set_device (Some (ji_device ji))) ;;;
  job_response <-- http_get net (job_request ji) ;;
  if (status_code job_response =? 200)%Z then
    root <-- fromstring job_response ;;
    match find_desc "job" root with
    | Some job =>
        let job_status := findtext "status" None job in
        let job_progress := findtext "progress" (Some "0") job in
        let job_result := findtext "result" (Some "") job in
        if opt_eqb job_status "ACT" then
          log INFO "Commit running for {host}, progress {job_progress}% - job ID: {jobid}"
            [AStr host; AOpt job_progress; AOpt jobid] ;;;
          log INFO "logging job XML response for {host}: {job_xml_response}"
            [AStr host; AStr (text job_response)] ;;;
          sleep 15
        else if opt_eqb job_status "FIN" then
          (if opt_eqb job_result "OK" then
             log INFO "Commit completed successfully for {host} - job ID: {jobid}"
               [AStr host; AOpt jobid] ;;;
             log INFO "logging job XML response for {host}: {job_xml_response}"
               [AStr host; AStr (text job_response)] ;;;
             assign (fun s =>
               set_ready_devices (<[host := [host]]> (ready_devices s)) s) ;;;
             update progress_bar
           else
             log ERROR "Job {jobid} failed on {host}: {job_result}"
               [AOpt jobid; AStr host; AOpt job_result] ;;;
             log ERROR "logging job XML response for {host}: {job_xml_response}"
               [AStr host; AStr (text job_response)]) ;;;
          assign (fun s =>
            set_completed_jobs (completed_jobs s ++ [unique_key]) s)
        else ret tt
    | None => ret tt
    end
  else ret tt.

(** The removal loop, for one key of [completed_jobs]. *)
Definition remove_completed (unique_key : string) : M state unit :=
  s <-- read ;;
  match dict_get unique_key (jobid_dict s) with
  | Some ji =>
      log INFO "Removing completed job {unique_key} for {host} from monitoring"
        [AStr unique_key; AStr (ji_host ji)] ;;;
      assign (fun s => set_jobid_dict (dict_del unique_key (jobid_dict s)) s)
  | None => ret tt
  end.

(** [while jobid_dict: ...]; one unit of fuel per round. *)
Fixpoint monitor (fuel : nat) (progress_bar : bar) : M state unit :=
  s <-- read ;;
  match jobid_dict s with
  | [] => ret tt
  | _ :: _ =>
      match fuel with
      | O => out_of_fuel
      | S fuel' =>
          assign (set_completed_jobs []) ;;;
          for_each (jobid_dict s) (poll_job progress_bar) ;;;
          s1 <-- read ;;
          for_each (completed_jobs s1) remove_completed ;;;
          s2 <-- read ;;
          if Nat.eqb (size (ready_devices s2)) (length (pa_credentials s2))
          then log INFO "All commits completed successfully!" []
          else
            log INFO "{len(ready_devices)}/{len(self.pa_credentials)} commits completed"
              [ANat (size (ready_devices s2)); ANat (length (pa_credentials s2))] ;;;
            monitor fuel' progress_bar
      end
  end.

(** The handler of the [try] around the [while] loop; it reads the
    local [device]. *)
Definition monitor_failed (e : exn) : M state unit :=
  s <-- read ;;
  match device s with
  | Some d =>
      log ERROR "Error committing changes for {device['host']}: {e}"
        [AStr (host d); AExn e]
  | None => raise UnboundLocalError
  end.

(** Step 1.  A call starts with a fresh frame: [jobid_dict = {}],
    [ready_devices = {}], the other locals unbound. *)
Definition start_commits : M state unit :=
  assign (set_device None) ;;;
  assign (set_completed_jobs []) ;;;
  assign (set_jobid_dict []) ;;;
  assign (set_ready_devices ∅) ;;;
  s <-- read ;;
  for_each (zip (pa_credentials s) (api_keys_list s)) start_commit.

(** Step 2, with the check that precedes it. *)
Definition monitor_jobs (fuel : nat) (progress_bar : bar) : M state unit :=
  s1 <-- read ;;
  match jobid_dict s1 with
  | [] => log ERROR "No commit jobs started" []
  | _ :: _ =>
      log INFO "{jobid_dict}" [AKeys (dict_keys (jobid_dict s1))] ;;;
      try_except any_exception (monitor fuel progress_bar) monitor_failed
  end.

(** The method has no [return] with a value: its result is [None] on
    every path. *)
Definition commit_changes (fuel : nat) (progress_bar : bar) : M state unit :=
  start_commits ;;;
  monitor_jobs fuel progress_bar.

(** *** [enable_HA_interfaces] *)

Definition interface_request (d : Device) (headers : Headers)
  (interface : string) : request :=
  {| rq_host := host d; rq_key := Some (x_pan_key headers);
     rq_op :=
       ConfigSet
         ("/config/devices/entry[@name='localhost.localdomain']/network/interface/ethernet/entry[@name='"
          +:+ interface +:+ "']")
         "<ha/>" true;
     rq_timeout := Some 30%Z |}.

(** The body of the loop, for one pair of the [zip].  The inner loop
    runs over the two interfaces; the status that is checked after it
    is that of the last response. *)
Definition enable_HA_interfaces_device (dh : Device * Headers) : M state unit :=
  let d := fst dh in
  let headers := snd dh in
  try_except any_exception
    (_ <-- http_get net (interface_request d headers "ethernet1/4") ;;
     response_control <-- http_get net (interface_request d headers "ethernet1/5") ;;
     (if (status_code response_control =? 200)%Z then
        log INFO "{xml_response_control}" [AStr (text response_control)]
      else
        log ERROR "Failed to enable HA interfaces on {device['host']}: {response_control.status_code}"
          [AStr (host d); AInt (status_code response_control)]) ;;;
     update config_int)
    (fun e =>
       log ERROR "Error in HA configuration for {device['host']}: {e}"
         [AStr (host d); AExn e]).

Definition enable_HA_interfaces (fuel : nat) : M state unit :=
  s <-- read ;;
  for_each (zip (pa_credentials s) (api_keys_list s)) enable_HA_interfaces_device ;;;
  commit_changes fuel commit_interfaces.

End Methods.

(** *** [ha_configuration]

    The two templates are attributes that no method assigns; [format] is
    [str.format] called with keyword arguments: the formatted text, or
    the exception that it raises on a template those fields do not
    fit. *)
Section Configuration.
Variable net : network.
Variable format : string -> list (string * string) -> string + exn.
Variable pa_ha_config_tmp : string.
Variable pa_ha_int_tmp : string.

(** An entry of [ha_configs]. *)
Record ha_config := {
  device_priority : string;
  preemptive : string;
  peer_ip : string
}.

Definition ha_configs : list ha_config :=
  [ {| device_priority := "100"; preemptive := "yes"; peer_ip := "1.1.1.2" |};
    {| device_priority := "110"; preemptive := "no"; peer_ip := "1.1.1.1" |} ].

(** [interface_configs], by its only field [ha1_ip]. *)
Definition interface_configs : list string := [ "1.1.1.1"; "1.1.1.2" ].

(** [l[i]] *)
Definition index {A} (l : list A) (i : nat) : M state A :=
  match nth_error l i with
  | Some x => ret x
  | None => raise IndexError
  end.

(** [template.format(name=value, ...)] *)
Definition formatted (template : string) (fields : list (string * string))
  : M state string :=
  match format template fields with
  | inl s => ret s
  | inr e => raise e
  end.

Definition ha_request (d : Device) (headers : Headers)
  (xpath element : string) (override : bool) : request :=
  {| rq_host := host d; rq_key := Some (x_pan_key headers);
     rq_op := ConfigSet xpath element override; rq_timeout := Some 30%Z |}.

(** The body of the loop, for the [i]-th pair of the [zip]; a
    [continue] ends it. *)
Definition ha_configuration_device (idh : nat * (Device * Headers))
  : M state unit :=
  let i := fst idh in
  let d := fst (snd idh) in
  let headers := snd (snd idh) in
  try_except any_exception
    (response_basic <-- http_get net
       (ha_request d headers
          "/config/devices/entry[@name='localhost.localdomain']/deviceconfig/high-availability"
          "<enabled>yes</enabled>" false) ;;
     if (status_code response_basic =? 200)%Z then
       log INFO "Basic HA enabled on {device['host']}" [AStr (host d)] ;;;
       log INFO "{response_basic.text}" [AStr (text response_basic)] ;;;
       ha_config <-- index ha_configs i ;;
       group_xml <-- formatted pa_ha_config_tmp
         [("device_priority", device_priority ha_config);
          ("preemptive", preemptive ha_config);
          ("peer_ip", peer_ip ha_config)] ;;
       response_group <-- http_get net
         (ha_request d headers
            "/config/devices/entry[@name='localhost.localdomain']/deviceconfig/high-availability/group"
            group_xml true) ;;
       if (status_code response_group =? 200)%Z then
         log INFO "HA group configured on {device['host']}" [AStr (host d)] ;;;
         log INFO "{response_group.text}" [AStr (text response_group)] ;;;
         ha1_ip <-- index interface_configs i ;;
         interface_xml <-- formatted pa_ha_int_tmp [("ha1_ip", ha1_ip)] ;;
         response_int <-- http_get net
           (ha_request d headers
              "/config/devices/entry[@name='localhost.localdomain']/deviceconfig/high-availability/interface"
              interface_xml true) ;;
         (if (status_code response_int =? 200)%Z then
            log INFO "HA interfaces configured on {device['host']}" [AStr (host d)] ;;;
            log INFO "{response_int.text}" [AStr (text response_int)]
          else
            log ERROR "Failed to configure HA interfaces on {device['host']}: {response_int.status_code}"
              [AStr (host d); AInt (status_code response_int)]) ;;;
         update enable_ha
       else
         log ERROR "Failed to configure HA group on {device['host']}: {response_group.status_code}"
           [AStr (host d); AInt (status_code response_group)]
     else
       log ERROR "Failed to enable basic HA on {device['host']}: {response_basic.status_code}"
         [AStr (host d); AInt (status_code response_basic)])
    (fun e =>
       log ERROR "Error configuring HA for {device['host']}: {e}"
         [AStr (host d); AExn e]).

(** [enumerate(zip(self.pa_credentials, self.api_keys_list))] *)
Definition enumerate {A} (l : list A) : list (nat * A) :=
  zip (seq 0 (length l)) l.

Definition ha_configuration (fuel : nat) : M state unit :=
  s <-- read ;;
  for_each (enumerate (zip (pa_credentials s) (api_keys_list s)))
    ha_configuration_device ;;;
  commit_changes net fuel commit_ha.

End Configuration.
End HA.

(** ** [pa_deployment_config.py]: class [PaloAltoFirewall_config] *)

Module Config.

(** The attributes of the object, then the local [jobid] of
    [commit_changes]: [None] while the name is unbound, [Some v] once it
    is assigned ([v] may be Python's [None]). *)
Record state := {
  pa_credentials : list Device;
  api_keys_list : list Headers;
  pa_interface_tmp : string;
  pa_zones_tmp : string;
  pa_route_settings_tmp : string;
  pa_static_routes_tmp : string;
  pa_security_policy_tmp : string;
  pa_source_nat_tmp : string;
  active_fw_list : list Device;
  active_fw_headers : list Headers;
  jobid : option (option string)
}.

Definition set_active_fw_list (v : list Device) (s : state) : state :=
  {| pa_credentials := pa_credentials s; api_keys_list := api_keys_list s;
     pa_interface_tmp := pa_interface_tmp s; pa_zones_tmp := pa_zones_tmp s;
     pa_route_settings_tmp := pa_route_settings_tmp s;
     pa_static_routes_tmp := pa_static_routes_tmp s;
     pa_security_policy_tmp := pa_security_policy_tmp s;
     pa_source_nat_tmp := pa_source_nat_tmp s;
     active_fw_list := v; active_fw_headers := active_fw_headers s;
     jobid := jobid s |}.

Definition set_active_fw_headers (v : list Headers) (s : state) : state :=
  {| pa_credentials := pa_credentials s; api_keys_list := api_keys_list s;
     pa_interface_tmp := pa_interface_tmp s; pa_zones_tmp := pa_zones_tmp s;
     pa_route_settings_tmp := pa_route_settings_tmp s;
     pa_static_routes_tmp := pa_static_routes_tmp s;
     pa_security_policy_tmp := pa_security_policy_tmp s;
     pa_source_nat_tmp := pa_source_nat_tmp s;
     active_fw_list := active_fw_list s; active_fw_headers := v;
     jobid := jobid s |}.

Definition set_jobid (v : option (option string)) (s : state) : state :=
  {| pa_credentials := pa_credentials s; api_keys_list := api_keys_list s;
     pa_interface_tmp := pa_interface_tmp s; pa_zones_tmp := pa_zones_tmp s;
     pa_route_settings_tmp := pa_route_settings_tmp s;
     pa_static_routes_tmp := pa_static_routes_tmp s;
     pa_security_policy_tmp := pa_security_policy_tmp s;
     pa_source_nat_tmp := pa_source_nat_tmp s;
     active_fw_list := active_fw_list s;
     active_fw_headers := active_fw_headers s; jobid := v |}.

(** [__init__]: no active firewall is known yet. *)
Definition init (creds : list Device) (keys : list Headers)
  (interface zones route_settings static_routes security_policy source_nat : string)
  : machine state :=
  Machine {| pa_credentials := creds; api_keys_list := keys;
             pa_interface_tmp := interface; pa_zones_tmp := zones;
             pa_route_settings_tmp := route_settings;
             pa_static_routes_tmp := static_routes;
             pa_security_policy_tmp := security_policy;
             pa_source_nat_tmp := source_nat;
             active_fw_list := []; active_fw_headers := [];
             jobid := None |} [].

(** Whether a block ran to its end or left the method by [return]. *)
Inductive flow := Next | Return.

Section Methods.
Variable net : network.

Definition ha_state_request (d : Device) (headers : Headers)
  (timeout : option Z) : request :=
  {| rq_host := host d; rq_key := Some (x_pan_key headers);
     rq_op := ShowHAState; rq_timeout := timeout |}.

(** *** [get_active_fw] *)

(** The [for] loop; finding an active device ends it ([break]). *)
Fixpoint find_active (pairs : list (Device * Headers)) : M state unit :=
  match pairs with
  | [] => ret tt
  | (device, headers) :: rest =>
      response_ha_state <-- http_get net (ha_state_request device headers None) ;;
      if (status_code response_ha_state =? 200)%Z then
        root <-- fromstring response_ha_state ;;
        match find_desc "state" root with
        | Some st =>
            if opt_eqb (text_of st) "active" then
              assign (fun s => set_active_fw_list (active_fw_list s ++ [device]) s) ;;;
              assign (fun s => set_active_fw_headers (active_fw_headers s ++ [headers]) s) ;;;
              update get_act_fw
            else find_active rest
        | None => raise AttributeError
        end
      else
        log ERROR "Failed to get HA state for {device['host']}: {response_ha_state.status_code}"
          [AStr (host device); AInt (status_code response_ha_state)] ;;;
        find_active rest
  end.

(** The result is the pair of lists, or [None] when the handler ran. *)
Definition get_active_fw : M state (option (list Device * list Headers)) :=
  try_except request_exception
    (s <-- read ;;
     find_active (zip (pa_credentials s) (api_keys_list s)) ;;;
     s' <-- read ;;
     log INFO "Active firewall: {self.active_fw_list}" [ADevices (active_fw_list s')] ;;;
     ret (Some (active_fw_list s', active_fw_headers s')))
    (fun e =>
       log ERROR "KeyError: {e} - 'active_fw' not found in credentials." [AExn e] ;;;
       ret None).

(** *** The configuration methods *)

Definition config_request (d : Device) (headers : Headers)
  (xpath element : string) : request :=
  {| rq_host := host d; rq_key := Some (x_pan_key headers);
     rq_op := ConfigSet xpath element false; rq_timeout := None |}.

(** [self.active_fw_list[0]] and [self.active_fw_headers[0]], read in
    this order when a URL and then its parameters are built. *)
Definition active_fw : M state (Device * Headers) :=
  s <-- read ;;
  d <-- index0 (active_fw_list s) ;;
  h <-- index0 (active_fw_headers s) ;;
  ret (d, h).

Definition act_fw_int_config : M state unit :=
  try_except any_exception
    (dh <-- active_fw ;;
     s <-- read ;;
     response_interface <-- http_get net
       (config_request (fst dh) (snd dh)
          "/config/devices/entry[@name='localhost.localdomain']/network/interface/ethernet"
          (pa_interface_tmp s)) ;;
     (if (status_code response_interface =? 200)%Z then
        log INFO "Interfaces configured successfully on {self.active_fw_list[0]['host']}"
          [AStr (host (fst dh))] ;;;
        log INFO "Response: {response_interface.text}" [AStr (text response_interface)]
      else
        log ERROR "Failed to configure interfaces on {self.active_fw_list[0]['host']}: {response_interface.status_code}"
          [AStr (host (fst dh)); AInt (status_code response_interface)] ;;;
        log ERROR "Response: {response_interface.text}" [AStr (text response_interface)]) ;;;
     update conf_act_fw_int)
    (fun e => log ERROR "Error in interface configuration process: {e}" [AExn e]).

Definition act_fw_zone_config : M state unit :=
  try_except any_exception
    (dh <-- active_fw ;;
     s <-- read ;;
     response_zone <-- http_get net
       (config_request (fst dh) (snd dh)
          "/config/devices/entry[@name='localhost.localdomain']/vsys/entry[@name='vsys1']/zone"
          (pa_zones_tmp s)) ;;
     if (status_code response_zone =? 200)%Z then
       log INFO "Zones configured successfully on {self.active_fw_list[0]['host']}"
         [AStr (host (fst dh))] ;;;
       log INFO "Response: {response_zone.text}" [AStr (text response_zone)] ;;;
       update act_fw_zone
     else
       log ERROR "Failed to configure zones on {self.active_fw_list[0]['host']}: {response_zone.status_code}"
         [AStr (host (fst dh)); AInt (status_code response_zone)] ;;;
       log ERROR "Response: {response_zone.text}" [AStr (text response_zone)])
    (fun e => log ERROR "Error configuring zones: {e}" [AExn e]).

(** The handler of [act_fw_route_config] formats
    [self.active_fw_list[0]['host']] into its message. *)
Definition act_fw_route_config : M state unit :=
  try_except any_exception
    (dh <-- active_fw ;;
     s <-- read ;;
     response_route <-- http_get net
       (config_request (fst dh) (snd dh)
          "/config/devices/entry[@name='localhost.localdomain']/network/virtual-router/entry[@name='default']"
          (pa_route_settings_tmp s)) ;;
     (if (status_code response_route =? 200)%Z then
        log INFO "Route settings configured successfully on {self.active_fw_list[0]['host']}"
          [AStr (host (fst dh))] ;;;
        log INFO "Response: {response_route.text}" [AStr (text response_route)]
      else
        log ERROR "Failed to configure route settings on {self.active_fw_list[0]['host']}: {response_route.status_code}"
          [AStr (host (fst dh)); AInt (status_code response_route)] ;;;
        log ERROR "Response: {response_route.text}" [AStr (text response_route)]) ;;;
     dh' <-- active_fw ;;
     response_default_route <-- http_get net
       (config_request (fst dh') (snd dh')
          "/config/devices/entry[@name='localhost.localdomain']/network/virtual-router/entry[@name='default']/routing-table/ip/static-route/entry[@name='default_route']"
          (pa_static_routes_tmp s)) ;;
     if (status_code response_default_route =? 200)%Z then
       log INFO "Default route configured successfully on {self.active_fw_list[0]['host']}"
         [AStr (host (fst dh'))] ;;;
       log INFO "Response: {response_default_route.text}" [AStr (text response_default_route)] ;;;
       update act_fw_route
     else
       log ERROR "Failed to configure default route on {self.active_fw_list[0]['host']}: {response_default_route.status_code}"
         [AStr (host (fst dh')); AInt (status_code response_default_route)] ;;;
       log ERROR "Response: {response_default_route.text}" [AStr (text response_default_route)])
    (fun e =>
       s <-- read ;;
       d <-- index0 (active_fw_list s) ;;
       log ERROR "Error configuring routes {self.active_fw_list[0]['host']}: {e}"
         [AStr (host d); AExn e]).

Definition act_fw_security_policy_config : M state unit :=
  try_except any_exception
    (dh <-- active_fw ;;
     s <-- read ;;
     response_security_policy <-- http_get net
       (config_request (fst dh) (snd dh)
          "/config/devices/entry[@name='localhost.localdomain']/vsys/entry[@name='vsys1']/rulebase/security/rules"
          (pa_security_policy_tmp s)) ;;
     if (status_code response_security_policy =? 200)%Z then
       log INFO "Security policies configured successfully on {self.active_fw_list[0]['host']}"
         [AStr (host (fst dh))] ;;;
       log INFO "Response: {response_security_policy.text}"
         [AStr (text response_security_policy)] ;;;
       update act_fw_policy
     else
       log ERROR "Failed to configure security policies on {self.active_fw_list[0]['host']}: {response_security_policy.status_code}"
         [AStr (host (fst dh)); AInt (status_code response_security_policy)] ;;;
       log ERROR "Response: {response_security_policy.text}"
         [AStr (text response_security_policy)])
    (fun e => log ERROR "Error configuring security policies: {e}" [AExn e]).

Definition act_fw_source_nat_config : M state unit :=
  try_except any_exception
    (dh <-- active_fw ;;
     s <-- read ;;
     response_source_nat <-- http_get net
       (config_request (fst dh) (snd dh)
          "/config/devices/entry[@name='localhost.localdomain']/vsys/entry[@name='vsys1']/rulebase/nat/rules"
          (pa_source_nat_tmp s)) ;;
     if (status_code response_source_nat =? 200)%Z then
       log INFO "Source NAT configured successfully on {self.active_fw_list[0]['host']}"
         [AStr (host (fst dh))] ;;;
       log INFO "Response: {response_source_nat.text}" [AStr (text response_source_nat)] ;;;
       update act_fw_nat
     else
       log ERROR "Failed to configure source NAT on {self.active_fw_list[0]['host']}: {response_source_nat.status_code}"
         [AStr (host (fst dh)); AInt (status_code response_source_nat)] ;;;
       log ERROR "Response: {response_source_nat.text}" [AStr (text response_source_nat)])
    (fun e => log ERROR "Error configuring source NAT: {e}" [AExn e]).

(** *** [commit_changes] *)

Definition commit_request (d : Device) (headers : Headers) : request :=
  {| rq_host := host d; rq_key := Some (x_pan_key headers);
     rq_op := CommitCmd; rq_timeout := Some 60%Z |}.

Definition job_request (d : Device) (headers : Headers)
  (j : option string) : request :=
  {| rq_host := host d; rq_key := Some (x_pan_key headers);
     rq_op := ShowJob j; rq_timeout := Some 30%Z |}.

(** Reading the local [jobid]. *)
Definition read_jobid : M state (option string) :=
  s <-- read ;;
  match jobid s with
  | Some j => ret j
  | None => raise UnboundLocalError
  end.

(** The handlers of both [try] blocks format
    [self.active_fw_list[0]['host']] into their message. *)
Definition commit_failed (lvl : level) (e : exn) : M state unit :=
  s <-- read ;;
  d <-- index0 (active_fw_list s) ;;
  log lvl "Error committing changes for {self.active_fw_list[0]['host']}: {e}"
    [AStr (host d); AExn e].

(** Step 1: the first [try] block with its handler. *)
Definition start_commit : M state flow :=
  try_except any_exception
    (dh <-- active_fw ;;
     response_commit <-- http_get net (commit_request (fst dh) (snd dh)) ;;
     if (status_code response_commit =? 200)%Z then
       root <-- fromstring response_commit ;;
       match find_desc "result" root with
       | Some result =>
           let j := findtext "job" None result in
           assign (set_jobid (Some j)) ;;;
           if truthy j then
             log INFO "Commit job ID for {self.active_fw_list[0]['host']}: {jobid}"
               [AStr (host (fst dh)); AOpt j] ;;;
             ret Next
           else
             log ERROR "No job ID found in commit response for {self.active_fw_list[0]['host']}"
               [AStr (host (fst dh))] ;;;
             ret Return
       | None =>
           log ERROR "Invalid commit response for {self.active_fw_list[0]['host']}: {xml_response_commit}"
             [AStr (host (fst dh)); AStr (text response_commit)] ;;;
           ret Return
       end
     else
       log ERROR "Failed to start commit for {self.active_fw_list[0]['host']}: {response_commit.status_code}"
         [AStr (host (fst dh)); AInt (status_code response_commit)] ;;;
       ret Return)
    (fun e => commit_failed DEBUG e ;;; ret Next).

(** Step 2: [while jobid: ...]; one unit of fuel per query. *)
Fixpoint poll (fuel : nat) : M state unit :=
  j <-- read_jobid ;;
  if truthy j then
    match fuel with
    | O => out_of_fuel
    | S fuel' =>
        dh <-- active_fw ;;
        let host := host (fst dh) in
        job_response <-- http_get net (job_request (fst dh) (snd dh) j) ;;
        if (status_code job_response =? 200)%Z then
          root <-- fromstring job_response ;;
          match find_desc "job" root with
          | Some job =>
              let job_status := findtext "status" None job in
              let job_progress := findtext "progress" (Some "0") job in
              let job_result := findtext "result" (Some "") job in
              if opt_eqb job_status "ACT" then
                log INFO "Commit running for {self.active_fw_list[0]['host']}, progress {job_progress}% - job ID: {jobid}"
                  [AStr host; AOpt job_progress; AOpt j] ;;;
                log INFO "logging job XML response for {self.active_fw_list[0]['host']}: {job_xml_response}"
                  [AStr host; AStr (text job_response)] ;;;
                sleep 15 ;;;
                poll fuel'
              else if opt_eqb job_status "FIN" then
                if opt_eqb job_result "OK" then
                  log INFO "Commit completed successfully for {self.active_fw_list[0]['host']} - job ID: {jobid}"
                    [AStr host; AOpt j] ;;;
                  log INFO "logging job XML response for {self.active_fw_list[0]['host']}: {job_xml_response}"
                    [AStr host; AStr (text job_response)] ;;;
                  update act_fw_commit
                else
                  log ERROR "Job {jobid} failed on {self.active_fw_list[0]['host']}: {job_result}"
                    [AOpt j; AStr host; AOpt job_result] ;;;
                  log ERROR "logging job XML response for {self.active_fw_list[0]['host']}: {job_xml_response}"
                    [AStr host; AStr (text job_response)] ;;;
                  poll fuel'
              else poll fuel'
          | None => poll fuel'
          end
        else poll fuel'
    end
  else ret tt.

(** A call starts with [jobid] unbound. *)
Definition commit_changes (fuel : nat) : M state unit :=
  assign (set_jobid None) ;;;
  f <-- start_commit ;;
  match f with
  | Return => ret tt
  | Next =>
      j <-- read_jobid ;;
      if negb (truthy j) then log ERROR "No commit jobs started" []
      else try_except any_exception (poll fuel) (commit_failed ERROR)
  end.

(** *** [wait_for_sync_completion] and [force_sync_config] *)

(** [current_state in ["synchronization in progress", "sync in progress", "syncing"]] *)
Definition still_syncing (current_state : option string) : bool :=
  opt_eqb current_state "synchronization in progress"
  || opt_eqb current_state "sync in progress"
  || opt_eqb current_state "syncing".

(** [for check in range(max_checks): ...] over the checks left. *)
Fixpoint wait_loop (max_checks : nat) (d : Device) (checks : list nat)
  : M state unit :=
  match checks with
  | [] => ret tt
  | check :: rest =>
      sleep 15 ;;;
      s <-- read ;;
      h <-- index0 (active_fw_headers s) ;;
      response <-- http_get net (ha_state_request d h None) ;;
      if (status_code response =? 200)%Z then
        root <-- fromstring response ;;
        let current_state := findtext_desc_child "group" "running-sync" root in
        log INFO " Sync check {check + 1}/{max_checks}: Status = {current_state}"
          [ANat (check + 1); ANat max_checks; AOpt current_state] ;;;
        if opt_eqb current_state "synchronized" then
          log INFO "Running Config synchronization completed successfully!" []
        else if still_syncing current_state then wait_loop max_checks d rest
        else wait_loop max_checks d rest
      else wait_loop max_checks d rest
  end.

Definition max_checks : nat := 8.

Definition wait_for_sync_completion : M state unit :=
  try_except any_exception
    (s <-- read ;;
     d <-- index0 (active_fw_list s) ;;
     wait_loop max_checks d (seq 0 max_checks))
    (fun e => log ERROR "Error monitoring sync completion: {e}" [AExn e]).

Definition sync_request (d : Device) (headers : Headers) : request :=
  {| rq_host := host d; rq_key := Some (x_pan_key headers);
     rq_op := SyncToRemote; rq_timeout := Some 30%Z |}.

Definition force_sync_config : M state unit :=
  try_except any_exception
    (dh <-- active_fw ;;
     let host := host (fst dh) in
     response_sync <-- http_get net (ha_state_request (fst dh) (snd dh) (Some 30%Z)) ;;
     log INFO "Response: {response_sync.status_code}" [AInt (status_code response_sync)] ;;;
     if (status_code response_sync =? 200)%Z then
       root <-- fromstring response_sync ;;
       let config_state := findtext_desc_child "group" "running-sync" root in
       (if opt_eqb config_state "synchronized" then
          log INFO "Configuration is already synced on {self.active_fw_list[0]['host']}"
            [AStr host]
        else if opt_eqb config_state "synchronization in progress" then
          wait_for_sync_completion
        else if opt_eqb config_state "not synchronized" then
          s <-- read ;;
          h <-- index0 (active_fw_headers s) ;;
          response_sync <-- http_get net (sync_request (fst dh) h) ;;
          if (status_code response_sync =? 200)%Z then
            log INFO "Configuration sync initiated on {self.active_fw_list[0]['host']}"
              [AStr host] ;;;
            log INFO "Response: {response_sync.text}" [AStr (text response_sync)] ;;;
            wait_for_sync_completion
          else
            log ERROR "Failed to initiate configuration sync on {self.active_fw_list[0]['host']}: {response_sync.status_code}"
              [AStr host; AInt (status_code response_sync)] ;;;
            log ERROR "Response: {response_sync.text}" [AStr (text response_sync)]
        else ret tt) ;;;
       update act_fw_check_sync
     else
       log ERROR "Failed to sync configuration on {self.active_fw_list[0]['host']}: {response_sync.status_code}"
         [AStr host; AInt (status_code response_sync)])
    (fun e => log ERROR "Error during configuration sync: {e}" [AExn e]).

End Methods.
End Config.

(** ** [main_pa.py]: [main]

    [file_path], [color_text] and [banner] read files and print; they run
    first, inside the [try] of [main].  The model starts from the tuple
    that [file_path] returned. *)

Module Main.

(** The tuple that [file_path] returns. *)
Record loaded := {
  pa_credentials : list Device;
  pa_ha_config_tmp : string;
  pa_ha_int_tmp : string;
  pa_interface_tmp : string;
  pa_zones_tmp : string;
  pa_route_settings_tmp : string;
  pa_static_routes_tmp : string;
  pa_security_policy_tmp : string;
  pa_source_nat_tmp : string
}.

Section Main.
Variable net : network.
Variable format : string -> list (string * string) -> string + exn.

(** Step 3: the calls on the HA object; the value is the list that
    [get_api_key] returned. *)
Definition configure_ha (fuel : nat) (f : loaded)
  : M HA.state (list Headers) :=
  api_keys_list <-- HA.get_api_key net ;;
  HA.enable_HA_interfaces net fuel ;;;
  HA.ha_configuration net format (pa_ha_config_tmp f) (pa_ha_int_tmp f) fuel ;;;
  ret api_keys_list.

(** Step 5: the calls on the configuration object. *)
Definition apply_configuration (fuel : nat) : M Config.state unit :=
  Config.get_active_fw net ;;;
  Config.act_fw_int_config net ;;;
  Config.act_fw_zone_config net ;;;
  Config.act_fw_route_config net ;;;
  Config.act_fw_security_policy_config net ;;;
  Config.act_fw_source_nat_config net ;;;
  Config.commit_changes net fuel ;;;
  Config.force_sync_config net.

(** [except Exception as e: logging.error(...)] *)
Definition unexpected (e : exn) : event :=
  Log ERROR "An unexpected error occurred: {e}" [AExn e].

(** The configuration object is built from the credentials, the list
    of keys and the templates; the effects go on from those of the HA
    object.  The result is that of [main] with the effects of the
    run. *)
Definition main (fuel : nat) (f : loaded) : result unit * list event :=
  match configure_ha fuel f (HA.init (pa_credentials f)) with
  | (Ok api_keys_list, m) =>
      match
        apply_configuration fuel
          (Machine
             (vars (Config.init (pa_credentials f) api_keys_list
                      (pa_interface_tmp f) (pa_zones_tmp f)
                      (pa_route_settings_tmp f) (pa_static_routes_tmp f)
                      (pa_security_policy_tmp f) (pa_source_nat_tmp f)))
             (out m))
      with
      | (Ok _, m') => (Ok tt, out m')
      | (Raised e, m') => (Ok tt, out m' ++ [unexpected e])
      | (OutOfFuel, m') => (OutOfFuel, out m')
      end
  | (Raised e, m) => (Ok tt, out m ++ [unexpected e])
  | (OutOfFuel, m) => (OutOfFuel, out m)
  end.

End Main.
End Main.

(** ** Vocabulary of the statements *)

(** [wp m Q s]: running [m] from [s] ends in a result and a state that
    satisfy [Q]. *)
Definition wp {V A} (m : M V A) (Q : result A -> machine V -> Prop)
  (s : machine V) : Prop :=
  Q (fst (m s)) (snd (m s)).

(** The postcondition "[I] holds however the run ends". *)
Definition always {V A} (I : machine V -> Prop) : result A -> machine V -> Prop :=
  fun _ s => I s.

(** The postcondition "does not raise, and [I] holds however the run
    ends". *)
Definition never_raises {V A} (I : machine V -> Prop) : result A -> machine V -> Prop :=
  fun r s => match r with Raised _ => False | _ => I s end.

(** How one key request of [get_api_key] ends: a key is appended, nothing
    is appended and the loop goes on, or the method is left by an exception
    that its handler does not catch. *)
Inductive keygen_outcome :=
| KeyGranted (k : string)
| KeyRefused
| KeyAborts (e : exn).

Definition keygen_outcome_at (net : network) (n : nat) (d : Device)
  : keygen_outcome :=
  match net n (HA.keygen_request d) with
  | Replies r =>
      if (status_code r =? 200)%Z then
        match HA.extract_key (text r) with
        | Some k => KeyGranted k
        | None => KeyAborts IndexError
        end
      else KeyRefused
  | Fails e => if request_exception e then KeyRefused else KeyAborts e
  end.

Definition key_granted (net : network) (n : nat) (d : Device) : Prop :=
  exists k, keygen_outcome_at net n d = KeyGranted k.

(** The devices that are granted a key, by index, with their key: device
    [i + q] is the [q]-th of [devs] and its request is the [n + q]-th. *)
Fixpoint granted (net : network) (n i : nat) (devs : list Device)
  : list (nat * string) :=
  match devs with
  | [] => []
  | d :: ds =>
      match keygen_outcome_at net n d with
      | KeyGranted k => (i, k) :: granted net (S n) (S i) ds
      | _ => granted net (S n) (S i) ds
      end
  end.

(** The job document of a PAN-OS reply to [show jobs id]. *)
Definition job_doc (status progress result : string) : Element :=
  Elem "response" None
    [Elem "result" None
       [Elem "job" None
          [Elem "status" (Some status) [];
           Elem "progress" (Some progress) [];
           Elem "result" (Some result) []]]].

(** The document of a reply to a commit that was queued as job [j]. *)
Definition commit_doc (j : string) : Element :=
  Elem "response" None
    [Elem "result" None
       [Elem "msg" None [Elem "line" (Some "Commit job enqueued") []];
        Elem "job" (Some j) []]].

(** The document of a reply to [show high-availability state]. *)
Definition ha_doc (local_state running_sync : string) : Element :=
  Elem "response" None
    [Elem "result" None
       [Elem "enabled" (Some "yes") [];
        Elem "group" None
          [Elem "local-info" None [Elem "state" (Some local_state) []];
           Elem "running-sync" (Some running_sync) []]]].

Definition ok200 (body : string) (e : Element) : reply :=
  Replies {| status_code := 200; text := body; xml := Some e |}.

Definition status_only (code : Z) : reply :=
  Replies {| status_code := code; text := ""; xml := None |}.

(** A reply to a job query that shows the job running. *)
Definition job_running (r : response) : Prop :=
  status_code r = 200%Z /\
  exists root job,
    xml r = Some root /\ find_desc "job" root = Some job /\
    findtext "status" None job = Some "ACT".

(** A network on which every job query finds the job running. *)
Definition always_running (net : network) : Prop :=
  forall k rq j, rq_op rq = ShowJob j ->
    exists r, net k rq = Replies r /\ job_running r.



(** The record that [poll_job] writes when a job has finished with
    result OK, for host [h]. *)
Definition completed_log (h : string) (e : event) : Prop :=
  exists j,
    e = Log INFO "Commit completed successfully for {host} - job ID: {jobid}"
          [AStr h; AOpt j].

(** What holds of every state that [commit_changes] goes through, for
    the devices [creds] of the object: the keys of the registry are
    distinct, every job in it belongs to a device of [creds], and a host
    is in [ready_devices] only if it is the host of a device of [creds]
    whose job was seen finished with result OK. *)
Record commit_inv (creds : list Device) (s : machine HA.state) : Prop := {
  inv_creds : HA.pa_credentials (vars s) = creds;
  inv_keys : NoDup (dict_keys (HA.jobid_dict (vars s)));
  inv_jobs :
    forall item, In item (HA.jobid_dict (vars s)) ->
      exists d, In d creds /\ host d = HA.ji_host (snd item);
  inv_ready :
    forall h v, HA.ready_devices (vars s) !! h = Some v ->
      v = [h] /\
      (exists d, In d creds /\ host d = h) /\
      (exists e, In e (out s) /\ completed_log h e)
}.


(** The state in which [poll_job] leaves the machine when it changes no
    variable but the local [device]: the query went out, then the effects
    [tr]. *)
Definition polled (item : string * HA.job_info) (m : machine HA.state)
  (tr : list event) : machine HA.state :=
  Machine (HA.set_device (Some (HA.ji_device (snd item))) (vars m))
    (out m ++ Request (HA.job_request (snd item)) :: tr).


(** The requests that trigger a synchronisation to the peer. *)
Definition is_sync_trigger (e : event) : bool :=
  match e with
  | Request {| rq_op := SyncToRemote |} => true
  | _ => false
  end.

Definition triggers_sent (tr : list event) : nat :=
  length (filter (fun e => is_sync_trigger e = true) tr).

(** A reply to a synchronisation check that lets [wait_for_sync_completion]
    go on to its next check: a status other than 200, or a document whose
    [running-sync] is not "synchronized". *)
Definition sync_pending (r : reply) : Prop :=
  match r with
  | Replies resp =>
      status_code resp <> 200%Z \/
      exists root, xml resp = Some root /\
        opt_eqb (findtext_desc_child "group" "running-sync" root) "synchronized" = false
  | Fails _ => False
  end.

(** The effects of a check that goes on: the sleep, the query, and the
    record of the state that was read. *)
Definition check_event (d : Device) (h : Headers) (e : event) : Prop :=
  e = Sleep 15 \/
  e = Request (Config.ha_state_request d h None) \/
  exists args,
    e = Log INFO " Sync check {check + 1}/{max_checks}: Status = {current_state}" args.

(** What [get_active_fw] may do to the two lists of the active firewall:
    append at most one device, and as many headers as devices. *)
Definition appended_at_most_one (s s' : machine Config.state) : Prop :=
  exists ds hs,
    Config.active_fw_list (vars s') = Config.active_fw_list (vars s) ++ ds /\
    Config.active_fw_headers (vars s') = Config.active_fw_headers (vars s) ++ hs /\
    length ds = length hs /\ (length ds <= 1)%nat.

(** The object when [get_active_fw] has found no active device. *)
Definition without_active_fw (v : Config.state) (tr : list event)
  : machine Config.state :=
  Machine (Config.set_active_fw_list [] (Config.set_active_fw_headers [] v)) tr.

(** *** Scenarios *)

Definition fw1 : Device :=
  {| host := "192.168.1.1"; username := "admin"; password := "admin" |}.
Definition fw2 : Device :=
  {| host := "192.168.1.2"; username := "admin"; password := "admin" |}.

Definition key1 : Headers := HA.xml_headers "KEY-OF-FW1".
Definition key2 : Headers := HA.xml_headers "KEY-OF-FW2".

(** An object of class [PaloAltoFirewall_HA] that holds a key for each of
    its devices. *)
Definition ha_with (creds : list Device) (keys : list Headers)
  : machine HA.state :=
  Machine {| HA.pa_credentials := creds; HA.api_keys_list := keys;
             HA.rest_api_keys_list := []; HA.jobid_dict := [];
             HA.ready_devices := ∅; HA.completed_jobs := [];
             HA.device := None |} [].

(** An object of class [PaloAltoFirewall_config] after [get_active_fw]. *)
Definition config_with (active : list Device) (headers : list Headers)
  : machine Config.state :=
  Machine {| Config.pa_credentials := [fw1; fw2];
             Config.api_keys_list := [key1; key2];
             Config.pa_interface_tmp := "<entry name='ethernet1/1'/>";
             Config.pa_zones_tmp := "<entry name='trust'/>";
             Config.pa_route_settings_tmp := "<ecmp/>";
             Config.pa_static_routes_tmp := "<nexthop/>";
             Config.pa_security_policy_tmp := "<entry name='allow'/>";
             Config.pa_source_nat_tmp := "<entry name='snat'/>";
             Config.active_fw_list := active;
             Config.active_fw_headers := headers;
             Config.jobid := None |} [].

(** The first key request is refused, the second one is granted. *)
Definition net_first_keygen_refused : network :=
  fun k rq =>
    match rq_op rq with
    | Keygen _ _ =>
        if String.eqb (rq_host rq) "192.168.1.1" then status_only 403
        else Replies {| status_code := 200;
                        text := "<response status = 'success'><result><key>KEY-OF-FW2</key></result></response>";
                        xml := None |}
    | _ => Fails RequestException
    end.

(** A second entry of the credentials file for the host of [fw1]. *)
Definition fw1_again : Device :=
  {| host := "192.168.1.1"; username := "operator"; password := "secret" |}.

(** Every commit is queued as job 7 and every job query finds the job
    running at 55%. *)
Definition net_stuck : network :=
  fun k rq =>
    match rq_op rq with
    | CommitCmd => ok200 "<response status='success' code='19'>...</response>" (commit_doc "7")
    | ShowJob _ => ok200 "<response status='success'>...</response>" (job_doc "ACT" "55" "PEND")
    | _ => Fails RequestException
    end.

(** Every commit is queued as job 7; the first job query (the request
    after the two commits) times out, every other one finds the job
    finished with result OK. *)
Definition net_poll_times_out : network :=
  fun k rq =>
    match rq_op rq with
    | CommitCmd => ok200 "<response status='success' code='19'>...</response>" (commit_doc "7")
    | ShowJob _ =>
        if Nat.eqb k 2 then Fails RequestException
        else ok200 "<response status='success'>...</response>" (job_doc "FIN" "100" "OK")
    | _ => Fails RequestException
    end.

(** The commit of [fw1] is queued and its job finishes with result OK; the
    commit request to [fw2] is answered with HTTP 500. *)
Definition net_second_commit_refused : network :=
  fun k rq =>
    match rq_op rq with
    | CommitCmd =>
        if String.eqb (rq_host rq) "192.168.1.2" then status_only 500
        else ok200 "<response status='success' code='19'>...</response>" (commit_doc "7")
    | ShowJob _ => ok200 "<response status='success'>...</response>" (job_doc "FIN" "100" "OK")
    | _ => Fails RequestException
    end.

(** The registry entries of [fw1] and [fw2] once their commits are queued
    as job 7. *)
Definition job1 : string * HA.job_info :=
  ("192.168.1.1_7",
   {| HA.ji_device := fw1; HA.ji_headers := key1;
      HA.ji_host := "192.168.1.1"; HA.ji_jobid := Some "7" |}).
Definition job2 : string * HA.job_info :=
  ("192.168.1.2_7",
   {| HA.ji_device := fw2; HA.ji_headers := key2;
      HA.ji_host := "192.168.1.2"; HA.ji_jobid := Some "7" |}).

(** The state of [commit_changes] between its two steps, for the given
    network and devices. *)
Definition after_step1 (net : network) (creds : list Device)
  (keys : list Headers) : machine HA.state :=
  snd (HA.start_commits net (ha_with creds keys)).

(** The credentials file lists the host of [fw1] twice; the state is the
    one in which step 1 has queued the commit of the first of the two
    entries. *)
Definition listed_twice : machine HA.state :=
  snd (HA.start_commit net_stuck (fw1, key1)
         (ha_with [fw1; fw1_again] [key1; key2])).

Definition job1_again : HA.job_info :=
  {| HA.ji_device := fw1_again; HA.ji_headers := key2;
     HA.ji_host := "192.168.1.1"; HA.ji_jobid := Some "7" |}.

(** The commit request times out. *)
Definition net_commit_times_out : network :=
  fun k rq =>
    match rq_op rq with
    | CommitCmd => Fails RequestException
    | _ => status_only 200
    end.


(** The synchronisation never completes. *)
Definition net_sync_pending : network :=
  fun k rq =>
    match rq_op rq with
    | ShowHAState =>
        ok200 "<response status='success'>...</response>"
          (ha_doc "active" "synchronization in progress")
    | _ => Fails RequestException
    end.

(** The synchronisation never completes, and the first check times out. *)
Definition net_sync_check_times_out : network :=
  fun k rq =>
    match rq_op rq with
    | ShowHAState =>
        if Nat.eqb k 0 then Fails RequestException
        else ok200 "<response status='success'>...</response>"
               (ha_doc "active" "synchronization in progress")
    | _ => Fails RequestException
    end.

(** ** Vocabulary of the further statements *)

(** [sep.join(l)] *)
Fixpoint join (sep : string) (l : list string) : string :=
  match l with
  | [] => ""
  | x :: rest =>
      match rest with
      | [] => x
      | _ :: _ => x +:+ sep +:+ join sep rest
      end
  end.

(** A key request whose outcome lets the loop of [get_api_key] go on. *)
Definition keygen_goes_on (net : network) (n : nat) (d : Device) : Prop :=
  forall e, keygen_outcome_at net n d <> KeyAborts e.

(** A network that accepts no commit: every commit request is answered
    with a status other than 200, or raises. *)
Definition commit_refused (net : network) : Prop :=
  forall k rq, rq_op rq = CommitCmd ->
    match net k rq with
    | Replies r => status_code r <> 200%Z
    | Fails _ => True
    end.

(** A reply to a job query that shows the job finished, with any
    result. *)
Definition job_finished (r : response) : Prop :=
  status_code r = 200%Z /\
  exists root job,
    xml r = Some root /\ find_desc "job" root = Some job /\
    findtext "status" None job = Some "FIN".

(** A network on which every job query finds the job finished. *)
Definition always_finished (net : network) : Prop :=
  forall k rq j, rq_op rq = ShowJob j ->
    exists r, net k rq = Replies r /\ job_finished r.

(** A reply to a job query that shows the job finished with a result
    other than OK. *)
Definition job_failed (r : response) : Prop :=
  status_code r = 200%Z /\
  exists root job,
    xml r = Some root /\ find_desc "job" root = Some job /\
    findtext "status" None job = Some "FIN" /\
    opt_eqb (findtext "result" (Some "") job) "OK" = false.

(** A reply to a job query that shows the job finished with result OK. *)
Definition job_succeeded (r : response) : Prop :=
  status_code r = 200%Z /\
  exists root job,
    xml r = Some root /\ find_desc "job" root = Some job /\
    findtext "status" None job = Some "FIN" /\
    findtext "result" (Some "") job = Some "OK".

(** A reply to the state query of [get_active_fw] after which its loop
    goes on to the next device: a status other than 200, or a document
    whose first [state] is not "active". *)
Definition not_active (r : reply) : Prop :=
  match r with
  | Replies resp =>
      status_code resp <> 200%Z \/
      exists root st,
        status_code resp = 200%Z /\ xml resp = Some root /\
        find_desc "state" root = Some st /\
        opt_eqb (text_of st) "active" = false
  | Fails _ => False
  end.

(** A reply to the state query of [get_active_fw] that shows the device
    active. *)
Definition active (r : reply) : Prop :=
  match r with
  | Replies resp =>
      status_code resp = 200%Z /\
      exists root st,
        xml resp = Some root /\ find_desc "state" root = Some st /\
        text_of st = Some "active"
  | Fails _ => False
  end.

(** The updates of a progress bar in a trace. *)
Definition is_update (b : bar) (e : event) : bool :=
  match e with
  | Update b' _ =>
      match b, b' with
      | get_api_keys, get_api_keys | config_int, config_int
      | commit_interfaces, commit_interfaces | enable_ha, enable_ha
      | commit_ha, commit_ha | get_act_fw, get_act_fw
      | conf_act_fw_int, conf_act_fw_int | act_fw_zone, act_fw_zone
      | act_fw_route, act_fw_route | act_fw_policy, act_fw_policy
      | act_fw_nat, act_fw_nat | act_fw_commit, act_fw_commit
      | act_fw_check_sync, act_fw_check_sync => true
      | _, _ => false
      end
  | _ => false
  end.

Definition updates_of (b : bar) (tr : list event) : nat :=
  length (filter (fun e => is_update b e = true) tr).

(** What the loop has done to the object when it ends, however it
    ends: [ks] are the keys that it appended. *)
Definition keys_appended (n : nat) (m m' : machine HA.state)
  (ks : list string) : Prop :=
  HA.api_keys_list (vars m') = HA.api_keys_list (vars m) ++ map HA.xml_headers ks /\
  HA.rest_api_keys_list (vars m') =
    HA.rest_api_keys_list (vars m) ++ map HA.rest_headers ks /\
  (length ks <= n)%nat /\
  updates_of get_api_keys (out m') =
    (updates_of get_api_keys (out m) + length ks)%nat /\
  (requests_sent (out m') <= requests_sent (out m) + n)%nat.




(** A reply to a commit request after which [commit_changes] of the
    configuration class returns at once: a status other than 200, a
    document without [result], or a result without a job id. *)
Definition commit_not_queued (r : response) : Prop :=
  status_code r <> 200%Z \/
  (status_code r = 200%Z /\
   exists root, xml r = Some root /\
     match find_desc "result" root with
     | Some result => truthy (findtext "job" None result) = false
     | None => True
     end).

(** The configuration object while job [j] of the active firewall [d]
    is polled. *)
Definition polling (d : Device) (ds : list Device) (h : Headers)
  (hs : list Headers) (j : option string) (m : machine Config.state) : Prop :=
  Config.active_fw_list (vars m) = d :: ds /\
  Config.active_fw_headers (vars m) = h :: hs /\
  Config.jobid (vars m) = Some j /\ truthy j = true.

(** A reply to a commit request that queues the commit as job [j]. *)
Definition commit_queued (r : response) (j : option string) : Prop :=
  status_code r = 200%Z /\
  exists root result,
    xml r = Some root /\ find_desc "result" root = Some result /\
    findtext "job" None result = j /\ truthy j = true.

(** What a run of at most [n] synchronisation checks has done when it
    ends, however it ends: it has assigned nothing, sent at most [n]
    requests, slept 15 before each of them and at most 15 per check, and
    triggered no synchronisation. *)
Definition checks_bounded (n : nat) (m m' : machine Config.state) : Prop :=
  vars m' = vars m /\
  (requests_sent (out m) <= requests_sent (out m') <= requests_sent (out m) + n)%nat /\
  (slept (out m') <= slept (out m) + 15 * Z.of_nat n)%Z /\
  (slept (out m) + 15 * Z.of_nat (requests_sent (out m'))
   <= slept (out m') + 15 * Z.of_nat (requests_sent (out m)))%Z /\
  triggers_sent (out m') = triggers_sent (out m).

(** A reply to a synchronisation check that shows the pair
    synchronised. *)
Definition synchronized (r : reply) : Prop :=
  match r with
  | Replies resp =>
      status_code resp = 200%Z /\
      exists root, xml resp = Some root /\
        findtext_desc_child "group" "running-sync" root = Some "synchronized"
  | Fails _ => False
  end.

(** What a configuration method that catches its exceptions has done
    when it ends: it returned, assigned nothing, and sent at most [n]
    requests. *)
Definition returned_after (n : nat) (m : machine Config.state)
  : result unit -> machine Config.state -> Prop :=
  fun r m' =>
    r = Ok tt /\ vars m' = vars m /\
    (requests_sent (out m') <= requests_sent (out m) + n)%nat.

(** *** Further scenarios *)

(** Every key request is answered with status 200 and a body that holds
    no key. *)
Definition net_keygen_without_key : network :=
  fun k rq =>
    match rq_op rq with
    | Keygen _ _ =>
        Replies {| status_code := 200;
                   text := "<response status = 'error'><result><msg>Invalid credentials.</msg></result></response>";
                   xml := None |}
    | _ => Fails RequestException
    end.

(** Every commit is queued as job 7 and every job query finds the job
    finished with a result other than OK. *)
Definition net_jobs_failed : network :=
  fun k rq =>
    match rq_op rq with
    | CommitCmd => ok200 "<response status='success' code='19'>...</response>" (commit_doc "7")
    | ShowJob _ => ok200 "<response status='success'>...</response>" (job_doc "FIN" "100" "FAIL")
    | _ => Fails RequestException
    end.

(** The firewalls accept every setting but that of interface
    ethernet1/4, which they answer with HTTP 500. *)
Definition net_first_interface_refused : network :=
  fun k rq =>
    match rq_op rq with
    | ConfigSet xpath _ _ =>
        if String.eqb xpath
             "/config/devices/entry[@name='localhost.localdomain']/network/interface/ethernet/entry[@name='ethernet1/4']"
        then status_only 500
        else Replies {| status_code := 200;
                        text := "<response status='success' code='20'><msg>command succeeded</msg></response>";
                        xml := None |}
    | _ => Fails RequestException
    end.

(** [str.format] on a template that has no replacement field. *)
Definition format_verbatim (template : string) (fields : list (string * string))
  : string + exn :=
  inl template.

(** A third device. *)
Definition fw3 : Device :=
  {| host := "192.168.1.3"; username := "admin"; password := "admin" |}.
Definition key3 : Headers := HA.xml_headers "KEY-OF-FW3".

(** [fw1] is passive and [fw2] is active. *)
Definition net_second_active : network :=
  fun k rq =>
    match rq_op rq with
    | ShowHAState =>
        if String.eqb (rq_host rq) "192.168.1.2"
        then ok200 "<response status='success'>...</response>" (ha_doc "active" "synchronized")
        else ok200 "<response status='success'>...</response>" (ha_doc "passive" "synchronized")
    | _ => Fails RequestException
    end.

(** Both devices are passive. *)
Definition net_both_passive : network :=
  fun k rq =>
    match rq_op rq with
    | ShowHAState =>
        ok200 "<response status='success'>...</response>" (ha_doc "passive" "synchronized")
    | _ => Fails RequestException
    end.

(** HA is not enabled: the state document has no [state] element. *)
Definition net_ha_disabled : network :=
  fun k rq =>
    match rq_op rq with
    | ShowHAState =>
        ok200 "<response status='success'><result><enabled>no</enabled></result></response>"
          (Elem "response" None [Elem "result" None [Elem "enabled" (Some "no") []]])
    | _ => Fails RequestException
    end.

(** The commit is queued as job 7; the first two job queries (the
    requests after the commit) find it running, the later ones find it
    finished with result OK. *)
Definition net_job_runs_twice : network :=
  fun k rq =>
    match rq_op rq with
    | CommitCmd => ok200 "<response status='success' code='19'>...</response>" (commit_doc "7")
    | ShowJob _ =>
        if (k <=? 2)%nat
        then ok200 "<response status='success'>...</response>" (job_doc "ACT" "40" "PEND")
        else ok200 "<response status='success'>...</response>" (job_doc "FIN" "100" "OK")
    | _ => Fails RequestException
    end.

(** The first two synchronisation checks find the synchronisation in
    progress, the later ones find the pair synchronised. *)
Definition net_synced_at_third_check : network :=
  fun k rq =>
    match rq_op rq with
    | ShowHAState =>
        if (k <? 2)%nat
        then ok200 "<response status='success'>...</response>"
               (ha_doc "active" "synchronization in progress")
        else ok200 "<response status='success'>...</response>"
               (ha_doc "active" "synchronized")
    | _ => Fails RequestException
    end.

(** The pair is not synchronised and the firewall refuses to start the
    synchronisation. *)
Definition net_sync_refused : network :=
  fun k rq =>
    match rq_op rq with
    | ShowHAState =>
        ok200 "<response status='success'>...</response>"
          (ha_doc "active" "not synchronized")
    | SyncToRemote =>
        Replies {| status_code := 403; text := "<response status='error'/>"; xml := None |}
    | _ => Fails RequestException
    end.

(** A deployment on which every request is accepted and every commit
    completes, but both devices report the state "passive". *)
Definition net_deploy_passive : network :=
  fun k rq =>
    match rq_op rq with
    | Keygen _ _ =>
        Replies {| status_code := 200;
                   text := "<response status = 'success'><result><key>KEY-OF-"
                           +:+ rq_host rq +:+ "</key></result></response>";
                   xml := None |}
    | ConfigSet _ _ _ =>
        Replies {| status_code := 200;
                   text := "<response status='success' code='20'><msg>command succeeded</msg></response>";
                   xml := None |}
    | CommitCmd => ok200 "<response status='success' code='19'>...</response>" (commit_doc "7")
    | ShowJob _ => ok200 "<response status='success'>...</response>" (job_doc "FIN" "100" "OK")
    | ShowHAState =>
        ok200 "<response status='success'>...</response>" (ha_doc "passive" "synchronized")
    | SyncToRemote => Fails RequestException
    end.

(** What [file_path] returns for the two devices, with templates that
    have no replacement field. *)
Definition loaded_pair : Main.loaded :=
  {| Main.pa_credentials := [fw1; fw2];
     Main.pa_ha_config_tmp := "<group/>";
     Main.pa_ha_int_tmp := "<interface/>";
     Main.pa_interface_tmp := "<entry name='ethernet1/1'/>";
     Main.pa_zones_tmp := "<entry name='trust'/>";
     Main.pa_route_settings_tmp := "<ecmp/>";
     Main.pa_static_routes_tmp := "<nexthop/>";
     Main.pa_security_policy_tmp := "<entry name='allow'/>";
     Main.pa_source_nat_tmp := "<entry name='snat'/>" |}.

(** ** Reasoning rules *)

Lemma requests_sent_app (tr1 tr2 : list event) :
  requests_sent (tr1 ++ tr2) = (requests_sent tr1 + requests_sent tr2)%nat.
Proof. unfold requests_sent. rewrite filter_app, length_app. reflexivity. Qed.

Lemma slept_app (tr1 tr2 : list event) :
  slept (tr1 ++ tr2) = (slept tr1 + slept tr2)%Z.
Proof.
  unfold slept. induction tr1 as [|e tr1 IH]; simpl; [reflexivity|].
  rewrite IH. lia.
Qed.


Section Rules.
Context {V : Type}.
Implicit Types s : machine V.

Lemma wp_mono {A} (m : M V A) (Q Q' : result A -> machine V -> Prop) s :
  (forall r s', Q r s' -> Q' r s') -> wp m Q s -> wp m Q' s.
Proof. unfold wp. auto. Qed.

Lemma wp_ret {A} (a : A) (Q : result A -> machine V -> Prop) s :
  Q (Ok a) s -> wp (ret a) Q s.
Proof. auto. Qed.

Lemma wp_raise {A} e (Q : result A -> machine V -> Prop) s :
  Q (Raised e) s -> wp (raise e) Q s.
Proof. auto. Qed.

Lemma wp_out_of_fuel {A} (Q : result A -> machine V -> Prop) s :
  Q OutOfFuel s -> wp out_of_fuel Q s.
Proof. auto. Qed.

Lemma wp_bind {A B} (m : M V A) (k : A -> M V B)
  (Q : result B -> machine V -> Prop) s :
  wp m (fun r s' =>
          match r with
          | Ok a => wp (k a) Q s'
          | Raised e => Q (Raised e) s'
          | OutOfFuel => Q OutOfFuel s'
          end) s ->
  wp (bind m k) Q s.
Proof. unfold wp, bind. destruct (m s) as [[a|e|] s']; simpl; auto. Qed.

Lemma wp_read (Q : result V -> machine V -> Prop) s :
  Q (Ok (vars s)) s -> wp read Q s.
Proof. auto. Qed.

Lemma wp_assign (f : V -> V) (Q : result unit -> machine V -> Prop) s :
  Q (Ok tt) (Machine (f (vars s)) (out s)) -> wp (assign f) Q s.
Proof. auto. Qed.

Lemma wp_emit (e : event) (Q : result unit -> machine V -> Prop) s :
  Q (Ok tt) (Machine (vars s) (out s ++ [e])) -> wp (emit e) Q s.
Proof. auto. Qed.

Lemma wp_http_get net rq (Q : result response -> machine V -> Prop) s :
  (forall r, net (requests_sent (out s)) rq = Replies r ->
             Q (Ok r) (Machine (vars s) (out s ++ [Request rq]))) ->
  (forall e, net (requests_sent (out s)) rq = Fails e ->
             Q (Raised e) (Machine (vars s) (out s ++ [Request rq]))) ->
  wp (http_get net rq) Q s.
Proof.
  unfold wp, http_get. intros Hr He.
  destruct (net (requests_sent (out s)) rq); simpl; auto.
Qed.

Lemma wp_fromstring r (Q : result Element -> machine V -> Prop) s :
  (forall root, xml r = Some root -> Q (Ok root) s) ->
  (xml r = None -> Q (Raised ParseError) s) ->
  wp (fromstring r) Q s.
Proof. unfold wp, fromstring. destruct (xml r); simpl; auto. Qed.

Lemma wp_index0 {A} (l : list A) (Q : result A -> machine V -> Prop) s :
  (forall x l', l = x :: l' -> Q (Ok x) s) ->
  (l = [] -> Q (Raised IndexError) s) ->
  wp (index0 l) Q s.
Proof. unfold wp, index0. destruct l; simpl; eauto. Qed.

Lemma wp_try_except {A} (catches : exn -> bool) (m : M V A) (h : exn -> M V A)
  (Q : result A -> machine V -> Prop) s :
  wp m (fun r s' =>
          match r with
          | Raised e => if catches e then wp (h e) Q s' else Q (Raised e) s'
          | _ => Q r s'
          end) s ->
  wp (try_except catches m h) Q s.
Proof.
  unfold wp, try_except. destruct (m s) as [[a|e|] s']; simpl; auto.
  destruct (catches e); auto.
Qed.

(** A loop invariant for [for]: the body keeps it when it returns; what
    holds when the body raises or runs out of fuel holds of the loop. *)
Lemma wp_for_each {A} (l : list A) (body : A -> M V unit)
  (I : machine V -> Prop) (Q : result unit -> machine V -> Prop) s :
  I s ->
  (forall x s1, In x l -> I s1 ->
     wp (body x) (fun r s2 => match r with Ok _ => I s2 | _ => Q r s2 end) s1) ->
  (forall s2, I s2 -> Q (Ok tt) s2) ->
  wp (for_each l body) Q s.
Proof.
  intros HI Hbody Hend. revert s HI.
  induction l as [|x l IH]; intros s HI; simpl.
  - apply wp_ret. auto.
  - apply wp_bind. eapply wp_mono; [|apply (Hbody x s); simpl; auto].
    intros [[]|e|] s2; simpl; auto.
    intros HI2. apply IH; auto. intros y s1 Hy. apply Hbody. simpl; auto.
Qed.




Lemma bind_read {B} (k : V -> M V B) s : bind read k s = k (vars s) s.
Proof. reflexivity. Qed.
End Rules.

(** ** [get_api_key]: which key ends at which position *)

Section GetApiKey.
Variable net : network.

(** One turn of the loop, by the outcome of its request. *)
Lemma get_api_key_device_run (d : Device) (m : machine HA.state) :
  match keygen_outcome_at net (requests_sent (out m)) d with
  | KeyGranted k =>
      HA.get_api_key_device net d m =
      (Ok tt,
       Machine
         (HA.set_api_keys_list (HA.api_keys_list (vars m) ++ [HA.xml_headers k])
            (HA.set_rest_api_keys_list
               (HA.rest_api_keys_list (vars m) ++ [HA.rest_headers k]) (vars m)))
         (out m ++ [Request (HA.keygen_request d); Update get_api_keys 1]))
  | KeyRefused =>
      exists lvl t args,
        HA.get_api_key_device net d m =
        (Ok tt, Machine (vars m)
                  (out m ++ [Request (HA.keygen_request d); Log lvl t args]))
  | KeyAborts e =>
      HA.get_api_key_device net d m =
      (Raised e, Machine (vars m) (out m ++ [Request (HA.keygen_request d)]))
  end.
Proof.
  unfold keygen_outcome_at, HA.get_api_key_device, try_except, bind, http_get.
  destruct (net (requests_sent (out m)) (HA.keygen_request d)) as [r|e]; simpl.
  - destruct (status_code r =? 200)%Z; simpl.
    + destruct (HA.extract_key (text r)); simpl.
      * rewrite <- app_assoc. reflexivity.
      * reflexivity.
    + do 3 eexists. unfold log, emit. simpl. rewrite <- app_assoc. reflexivity.
  - destruct (request_exception e); simpl.
    + do 3 eexists. unfold log, emit. simpl. rewrite <- app_assoc. reflexivity.
    + reflexivity.
Qed.

(** The loop appends the keys of the granted devices, in order. *)
Lemma get_api_key_loop (devs : list Device) :
  forall (m m' : machine HA.state) (i : nat),
    for_each devs (HA.get_api_key_device net) m = (Ok tt, m') ->
    HA.api_keys_list (vars m') =
      HA.api_keys_list (vars m) ++
      map (fun jk => HA.xml_headers (snd jk))
        (granted net (requests_sent (out m)) i devs)
    /\ HA.pa_credentials (vars m') = HA.pa_credentials (vars m).
Proof.
  induction devs as [|d devs IH]; intros m m' i Hrun; simpl in *.
  - injection Hrun as <-. rewrite app_nil_r. auto.
  - unfold bind in Hrun.
    pose proof (get_api_key_device_run d m) as Hd.
    destruct (keygen_outcome_at net (requests_sent (out m)) d) as [k| |e].
    + rewrite Hd in Hrun. apply (IH _ _ (S i)) in Hrun. simpl in Hrun.
      rewrite requests_sent_app in Hrun. simpl in Hrun.
      rewrite Nat.add_1_r in Hrun.
      destruct Hrun as [-> ->]. simpl. rewrite <- app_assoc. auto.
    + destruct Hd as (lvl & t & args & Hd). rewrite Hd in Hrun.
      apply (IH _ _ (S i)) in Hrun. simpl in Hrun.
      rewrite requests_sent_app in Hrun. simpl in Hrun.
      rewrite Nat.add_1_r in Hrun. exact Hrun.
    + rewrite Hd in Hrun. discriminate.
Qed.

(** The [p]-th granted device is the device of some index [j] at or
    after [i + p], and [k] is the key that its request returned. *)
Lemma granted_lookup (devs : list Device) :
  forall (n i p j : nat) (k : string),
    granted net n i devs !! p = Some (j, k) ->
    (i + p <= j)%nat /\
    exists d, devs !! (j - i)%nat = Some d /\
              keygen_outcome_at net (n + (j - i)) d = KeyGranted k.
Proof.
  induction devs as [|d devs IH]; intros n i p j k Hp; simpl in Hp.
  - discriminate.
  - assert (forall p', granted net (S n) (S i) devs !! p' = Some (j, k) ->
              (S i + p' <= j)%nat /\
              exists d', (d :: devs) !! (j - i)%nat = Some d' /\
                keygen_outcome_at net (n + (j - i)) d' = KeyGranted k) as Htail.
    { intros p' Hp'. apply IH in Hp' as (Hle & d' & Hd' & Hk).
      split; [lia|]. exists d'.
      replace (j - i)%nat with (S (j - S i)) by lia. simpl.
      replace (n + S (j - S i))%nat with (S n + (j - S i))%nat by lia. auto. }
    destruct (keygen_outcome_at net n d) as [k0| |e] eqn:Hd.
    + destruct p as [|p]; simpl in Hp.
      * injection Hp as <- <-. split; [lia|]. exists d.
        rewrite Nat.sub_diag, Nat.add_0_r. auto.
      * apply Htail in Hp as (Hle & Hex). split; [lia|exact Hex].
    + apply Htail in Hp as (Hle & Hex). split; [lia|exact Hex].
    + apply Htail in Hp as (Hle & Hex). split; [lia|exact Hex].
Qed.

(** The [p]-th granted device is device [i + p] exactly when the first
    [p + 1] devices were all granted a key. *)
Lemma granted_aligned (devs : list Device) :
  forall (n i p j : nat) (k : string),
    granted net n i devs !! p = Some (j, k) ->
    (j = (i + p)%nat <->
     forall q d, (q <= p)%nat -> devs !! q = Some d -> key_granted net (n + q) d).
Proof.
  induction devs as [|d devs IH]; intros n i p j k Hp; simpl in Hp.
  - discriminate.
  - destruct (keygen_outcome_at net n d) as [k0| |e] eqn:Hd.
    + destruct p as [|p]; simpl in Hp.
      * injection Hp as <- <-. split; [|lia].
        intros _ q d' Hq Hd'. assert (q = 0%nat) as -> by lia.
        simpl in Hd'. injection Hd' as <-. rewrite Nat.add_0_r. exists k0. exact Hd.
      * specialize (IH (S n) (S i) p j k Hp). split.
        -- intros Hj q d' Hq Hd'. destruct q as [|q]; simpl in Hd'.
           ++ injection Hd' as <-. rewrite Nat.add_0_r. exists k0. exact Hd.
           ++ replace (n + S q)%nat with (S n + q)%nat by lia.
              apply IH; [lia|lia|exact Hd'].
        -- intros Hall. enough (j = (S i + p)%nat) by lia. apply IH.
           intros q d' Hq Hd'. replace (S n + q)%nat with (n + S q)%nat by lia.
           apply Hall; [lia|exact Hd'].
    + apply granted_lookup in Hp as (Hle & _). split; [lia|].
      intros Hall. destruct (Hall 0%nat d) as [k' Hk']; [lia|reflexivity|].
      rewrite Nat.add_0_r in Hk'. congruence.
    + apply granted_lookup in Hp as (Hle & _). split; [lia|].
      intros Hall. destruct (Hall 0%nat d) as [k' Hk']; [lia|reflexivity|].
      rewrite Nat.add_0_r in Hk'. congruence.
Qed.

Lemma granted_length (devs : list Device) :
  forall n i, (length (granted net n i devs) <= length devs)%nat.
Proof.
  induction devs as [|d devs IH]; intros n i; simpl; [lia|].
  destruct (keygen_outcome_at net n d); simpl; specialize (IH (S n) (S i)); lia.
Qed.
End GetApiKey.

(** C9, as amended.  [get_api_key] appends a header entry only for the
    devices whose key request succeeds.  So, when it returns, the key at
    position [p] of [api_keys_list] is the key of the [p]-th device that
    was granted one: in [zip(pa_credentials, api_keys_list)] the device at
    index [p] is paired with the key of a device of index [j >= p] (itself
    or a later device, never an earlier one), [j = p] holds exactly when
    the requests of all devices [0..p] succeeded, and the zip is as long as
    the list of granted keys, so the trailing devices are not iterated. *)
Theorem get_api_key_pairs_device_with_later_key
  (net : network) (creds : list Device) (keys : list Headers)
  (m' : machine HA.state) :
  HA.get_api_key net (HA.init creds) = (Ok keys, m') ->
  keys = map (fun jk => HA.xml_headers (snd jk)) (granted net 0 0 creds) /\
  length (zip creds keys) = length (granted net 0 0 creds) /\
  (length (granted net 0 0 creds) <= length creds)%nat /\
  forall p d h, zip creds keys !! p = Some (d, h) ->
    creds !! p = Some d /\
    exists j dj k,
      granted net 0 0 creds !! p = Some (j, k) /\ h = HA.xml_headers k /\
      creds !! j = Some dj /\ keygen_outcome_at net j dj = KeyGranted k /\
      (p <= j)%nat /\
      (j = p <->
       forall q dq, (q <= p)%nat -> creds !! q = Some dq -> key_granted net q dq).
Proof.
  unfold HA.get_api_key, bind, read. simpl.
  destruct (for_each creds (HA.get_api_key_device net) (HA.init creds))
    as [[[]|e|] m1] eqn:Hloop; simpl; try discriminate.
  intros Hret. injection Hret as <- <-.
  apply (get_api_key_loop net creds _ _ 0%nat) in Hloop as [Hkeys _].
  simpl in Hkeys. rewrite Hkeys.
  pose proof (granted_length net creds 0 0) as Hlen.
  split; [reflexivity|]. split.
  { change (requests_sent []) with 0%nat. rewrite length_zip_with, length_map. lia. }
  split; [exact Hlen|].
  change (requests_sent []) with 0%nat in *. intros p d h Hp.
  apply lookup_zip_with_Some in Hp as (d' & h' & Heq & Hd & Hh).
  injection Heq as -> ->. split; [exact Hd|].
  change (map ?f ?l) with (f <$> l) in Hh. rewrite list_lookup_fmap in Hh.
  destruct (granted net 0 0 creds !! p) as [[j k]|] eqn:Hg; [|discriminate].
  simpl in Hh. injection Hh as <-.
  exists j.
  destruct (granted_lookup net creds _ _ _ _ _ Hg) as (Hle & dj & Hdj & Hk).
  rewrite Nat.sub_0_r in Hdj, Hk. simpl in Hk, Hle.
  exists dj, k. repeat split; auto.
  - intros ->. apply (granted_aligned net creds 0 0 p p k Hg). reflexivity.
  - intros Hall. apply (granted_aligned net creds 0 0 p j k Hg). exact Hall.
Qed.

Lemma get_api_key_pairs_device_with_later_key_witness :
  HA.get_api_key net_first_keygen_refused (HA.init [fw1; fw2])
  = (Ok [key2],
     snd (HA.get_api_key net_first_keygen_refused (HA.init [fw1; fw2])))
  /\ zip [fw1; fw2] [key2] !! 0%nat = Some (fw1, key2)
  /\ exists j dj k,
      granted net_first_keygen_refused 0 0 [fw1; fw2] !! 0%nat = Some (j, k) /\
      key2 = HA.xml_headers k /\
      [fw1; fw2] !! j = Some dj /\
      keygen_outcome_at net_first_keygen_refused j dj = KeyGranted k /\
      (0 <= j)%nat /\
      (j = 0%nat <->
       forall q dq, (q <= 0)%nat -> [fw1; fw2] !! q = Some dq ->
                    key_granted net_first_keygen_refused q dq).
Proof.
  assert (HA.get_api_key net_first_keygen_refused (HA.init [fw1; fw2])
          = (Ok [key2],
             snd (HA.get_api_key net_first_keygen_refused (HA.init [fw1; fw2]))))
    as Hrun by (vm_compute; reflexivity).
  split; [exact Hrun|]. split; [reflexivity|].
  exact (proj2 (proj2 (proj2 (proj2
           (get_api_key_pairs_device_with_later_key
              net_first_keygen_refused [fw1; fw2] [key2] _ Hrun)))
           0%nat fw1 key2 eq_refl)).
Defined.

(** C9, as stated, fails.  The first of two devices is refused a key (HTTP
    403) and the second is granted one.  The zip then pairs the device at
    index 0 with the key of the device at index 1, a later device ([enable_HA_interfaces] and
    its commit address the first device with the key of the second); no position of the zip holds the key of an earlier device. *)
Lemma get_api_key_never_pairs_with_earlier_key :
  fst (HA.get_api_key net_first_keygen_refused (HA.init [fw1; fw2])) = Ok [key2]
  /\ zip [fw1; fw2] [key2] = [(fw1, key2)]
  /\ granted net_first_keygen_refused 0 0 [fw1; fw2] = [(1%nat, "KEY-OF-FW2")]
  /\ In (Request (HA.interface_request fw1 key2 "ethernet1/4"))
        (out (snd (HA.enable_HA_interfaces net_first_keygen_refused 3
                     (snd (HA.get_api_key net_first_keygen_refused
                             (HA.init [fw1; fw2]))))))
  /\ In (Request (HA.commit_request fw1 key2))
        (out (snd (HA.enable_HA_interfaces net_first_keygen_refused 3
                     (snd (HA.get_api_key net_first_keygen_refused
                             (HA.init [fw1; fw2]))))))
  /\ ~ (exists p j k,
          granted net_first_keygen_refused 0 0 [fw1; fw2] !! p = Some (j, k)
          /\ (j < p)%nat).
Proof.
  split; [vm_compute; reflexivity|].
  split; [reflexivity|].
  assert (granted net_first_keygen_refused 0 0 [fw1; fw2] = [(1%nat, "KEY-OF-FW2")])
    as Hg by (vm_compute; reflexivity).
  split; [exact Hg|].
  split; [vm_compute; auto 10|].
  split; [vm_compute; auto 10|].
  rewrite Hg. intros (p & j & k & Hp & Hlt).
  destruct p as [|p]; simpl in Hp; [|discriminate].
  injection Hp as <- <-. lia.
Qed.

(** ** Dictionaries *)

Section Dict.
Context {V : Type}.
Implicit Types d : dict V.

Lemma dict_get_In k d v : dict_get k d = Some v -> In (k, v) d.
Proof.
  induction d as [|[k' v'] d IH]; simpl; [discriminate|].
  destruct (String.eqb k' k) eqn:Hk.
  - apply String.eqb_eq in Hk as ->. intros [= ->]. auto.
  - auto.
Qed.

Lemma dict_get_None k d : dict_get k d = None <-> ~ In k (dict_keys d).
Proof.
  induction d as [|[k' v'] d IH]; simpl; [tauto|].
  destruct (String.eqb k' k) eqn:Hk.
  - apply String.eqb_eq in Hk as ->. split; [discriminate|tauto].
  - apply String.eqb_neq in Hk. rewrite IH. tauto.
Qed.

(** Assigning to a key that is present keeps the keys as they are. *)
Lemma dict_set_keys_present k v d :
  In k (dict_keys d) -> dict_keys (dict_set k v d) = dict_keys d.
Proof.
  induction d as [|[k' v'] d IH]; simpl; [tauto|].
  destruct (String.eqb k' k) eqn:Hk; simpl; [reflexivity|].
  apply String.eqb_neq in Hk. intros [?|Hin]; [congruence|].
  rewrite IH; auto.
Qed.

(** Assigning to a new key appends it. *)
Lemma dict_set_keys_absent k v d :
  ~ In k (dict_keys d) -> dict_keys (dict_set k v d) = dict_keys d ++ [k].
Proof.
  induction d as [|[k' v'] d IH]; simpl; [reflexivity|].
  destruct (String.eqb k' k) eqn:Hk; simpl.
  - apply String.eqb_eq in Hk. tauto.
  - intros Hn. rewrite IH; tauto.
Qed.

Lemma dict_get_set k v d : dict_get k (dict_set k v d) = Some v.
Proof.
  induction d as [|[k' v'] d IH]; simpl.
  - rewrite String.eqb_refl. reflexivity.
  - destruct (String.eqb k' k) eqn:Hk; simpl; rewrite Hk; auto.
Qed.

Lemma dict_set_length_present k v d :
  In k (dict_keys d) -> length (dict_set k v d) = length d.
Proof.
  intros Hin. rewrite <- (length_map fst (dict_set k v d)), <- (length_map fst d).
  fold (dict_keys (dict_set k v d)). fold (dict_keys d).
  rewrite dict_set_keys_present; auto.
Qed.

Lemma dict_set_NoDup k v d :
  NoDup (dict_keys d) -> NoDup (dict_keys (dict_set k v d)).
Proof.
  intros Hnd. destruct (in_dec string_dec k (dict_keys d)) as [Hin|Hn].
  - rewrite dict_set_keys_present; auto.
  - rewrite dict_set_keys_absent; auto.
    apply NoDup_app. split; [exact Hnd|]. split.
    + intros x Hx [->|[]]%list_elem_of_In. apply Hn, list_elem_of_In, Hx.
    + apply NoDup_singleton.
Qed.

Lemma dict_set_In k v d x :
  In x (dict_set k v d) -> x = (k, v) \/ In x d.
Proof.
  induction d as [|[k' v'] d IH]; simpl; [intuition (subst; auto)|].
  destruct (String.eqb k' k) eqn:Hk; simpl.
  - apply String.eqb_eq in Hk as ->. intuition (subst; auto).
  - intros [?|Hin]; [tauto|]. apply IH in Hin. tauto.
Qed.

Lemma dict_del_In k d x : In x (dict_del k d) -> In x d.
Proof.
  induction d as [|[k' v'] d IH]; simpl; [tauto|].
  destruct (String.eqb k' k); simpl; tauto.
Qed.

Lemma dict_del_NoDup k d :
  NoDup (dict_keys d) -> NoDup (dict_keys (dict_del k d)).
Proof.
  induction d as [|[k' v'] d IH]; simpl; [auto|].
  intros [Hn Hnd]%NoDup_cons. destruct (String.eqb k' k); simpl; [exact Hnd|].
  apply NoDup_cons. split; [|auto].
  intros Hin%list_elem_of_In. apply Hn, list_elem_of_In.
  unfold dict_keys in *. apply in_map_iff in Hin as (x & Hx & Hin).
  apply in_map_iff. exists x. split; [exact Hx|]. eapply dict_del_In, Hin.
Qed.
End Dict.

(** ** [commit_changes] of the HA class: what every state satisfies *)

Ltac wp_step :=
  lazymatch goal with
  | |- wp (bind _ _) _ _ => apply wp_bind
  | |- wp (ret _) _ _ => apply wp_ret
  | |- wp (raise _) _ _ => apply wp_raise
  | |- wp out_of_fuel _ _ => apply wp_out_of_fuel
  | |- wp read _ _ => apply wp_read
  | |- wp (assign _) _ _ => apply wp_assign
  | |- wp (emit _) _ _ => apply wp_emit
  | |- wp (log _ _ _) _ _ => apply wp_emit
  | |- wp (update _) _ _ => apply wp_emit
  | |- wp (sleep _) _ _ => apply wp_emit
  | |- wp (http_get _ _) _ _ => apply wp_http_get; intros
  | |- wp (fromstring _) _ _ => apply wp_fromstring; intros
  | |- wp (index0 _) _ _ => apply wp_index0; intros
  | |- wp (try_except _ _ _) _ _ => apply wp_try_except
  | |- wp (if ?b then _ else _) _ _ => destruct b eqn:?
  | |- wp (match ?x with _ => _ end) _ _ => destruct x eqn:?
  | |- if any_exception _ then _ else _ => unfold any_exception
  end; cbn beta iota zeta.

Ltac wp_steps := repeat wp_step.

Section CommitInvariant.
Variable net : network.
Variable creds : list Device.
Implicit Types s : machine HA.state.

Lemma commit_inv_out s tr :
  commit_inv creds s -> commit_inv creds (Machine (vars s) (out s ++ tr)).
Proof.
  intros [Hc Hk Hj Hr]. split; simpl; auto.
  intros h v Hv. destruct (Hr h v Hv) as (Hvh & Hd & e & He & Hlog).
  repeat split; auto. exists e. split; [apply in_or_app; auto|exact Hlog].
Qed.

Lemma commit_inv_device s o :
  commit_inv creds s ->
  commit_inv creds (Machine (HA.set_device o (vars s)) (out s)).
Proof. intros [Hc Hk Hj Hr]. split; simpl; auto. Qed.

Lemma commit_inv_completed s l :
  commit_inv creds s ->
  commit_inv creds (Machine (HA.set_completed_jobs l (vars s)) (out s)).
Proof. intros [Hc Hk Hj Hr]. split; simpl; auto. Qed.

Lemma commit_inv_set s k ji :
  (exists d, In d creds /\ host d = HA.ji_host ji) ->
  commit_inv creds s ->
  commit_inv creds
    (Machine (HA.set_jobid_dict (dict_set k ji (HA.jobid_dict (vars s))) (vars s))
       (out s)).
Proof.
  intros Hd [Hc Hk Hj Hr]. split; simpl; auto.
  - apply dict_set_NoDup, Hk.
  - intros item [->|Hin]%dict_set_In; simpl; auto.
Qed.

Lemma commit_inv_del s k :
  commit_inv creds s ->
  commit_inv creds
    (Machine (HA.set_jobid_dict (dict_del k (HA.jobid_dict (vars s))) (vars s))
       (out s)).
Proof.
  intros [Hc Hk Hj Hr]. split; simpl; auto.
  - apply dict_del_NoDup, Hk.
  - intros item Hin%dict_del_In. auto.
Qed.

Lemma commit_inv_ready s h :
  (exists d, In d creds /\ host d = h) ->
  (exists e, In e (out s) /\ completed_log h e) ->
  commit_inv creds s ->
  commit_inv creds
    (Machine (HA.set_ready_devices (<[h := [h]]> (HA.ready_devices (vars s))) (vars s))
       (out s)).
Proof.
  intros Hd He [Hc Hk Hj Hr]. split; simpl; auto.
  intros h' v Hv. destruct (decide (h = h')) as [<-|Hne].
  - rewrite lookup_insert_eq in Hv. injection Hv as <-. auto.
  - rewrite lookup_insert_ne in Hv by exact Hne. auto.
Qed.

(** Step 1 for one pair: it returns, keeps the invariant and binds the
    local [device]. *)
Lemma start_commit_inv (dh : Device * Headers) s :
  In (fst dh) creds -> commit_inv creds s ->
  wp (HA.start_commit net dh)
    (fun r s' => r = Ok tt /\ commit_inv creds s' /\ is_Some (HA.device (vars s')))
    s.
Proof.
  intros Hd Hinv. unfold HA.start_commit.
  apply commit_inv_device with (o := Some (fst dh)) in Hinv.
  wp_steps;
    (split; [reflexivity|split; [|simpl; eexists; reflexivity]]);
    repeat first
      [ apply commit_inv_out
      | apply commit_inv_set; [exists (fst dh); auto|]
      | exact Hinv ].
Qed.

(** Step 2 for one item: however it ends, the invariant holds, the
    registry is as it was and the local [device] is bound. *)
Lemma poll_job_inv (progress_bar : bar) (item : string * HA.job_info) s :
  (exists d, In d creds /\ host d = HA.ji_host (snd item)) ->
  commit_inv creds s ->
  wp (HA.poll_job net progress_bar item)
    (fun r s' =>
       r <> OutOfFuel /\ commit_inv creds s' /\
       is_Some (HA.device (vars s')) /\
       HA.jobid_dict (vars s') = HA.jobid_dict (vars s))
    s.
Proof.
  intros Hd Hinv. unfold HA.poll_job.
  apply commit_inv_device with (o := Some (HA.ji_device (snd item))) in Hinv.
  wp_steps;
    (split; [discriminate|
      split; [|split; [simpl; eexists; reflexivity|reflexivity]]]);
    repeat first
      [ apply commit_inv_out
      | apply commit_inv_completed
      | apply commit_inv_ready;
        [ exact Hd
        | eexists; split; [|eexists; reflexivity];
          simpl; rewrite !in_app_iff; simpl; auto 10
        | ]
      | exact Hinv ].
Qed.

Lemma remove_completed_inv (unique_key : string) s :
  commit_inv creds s ->
  wp (HA.remove_completed unique_key)
    (fun r s' =>
       r = Ok tt /\ commit_inv creds s' /\
       HA.device (vars s') = HA.device (vars s))
    s.
Proof.
  intros Hinv. unfold HA.remove_completed.
  wp_steps; (split; [reflexivity|split; [|reflexivity]]);
    repeat first
      [ apply commit_inv_del
      | apply commit_inv_out
      | exact Hinv ].
Qed.

(** The [while] loop, for any fuel and however it ends. *)
Lemma monitor_inv (progress_bar : bar) (fuel : nat) :
  forall s,
    commit_inv creds s -> is_Some (HA.device (vars s)) ->
    wp (HA.monitor net fuel progress_bar)
      (fun r s' => commit_inv creds s' /\ is_Some (HA.device (vars s')))
      s.
Proof.
  induction fuel as [|fuel IH]; intros s Hinv Hdev; simpl.
  - wp_steps; auto.
  - apply wp_bind, wp_read. cbn beta iota.
    destruct (HA.jobid_dict (vars s)) as [|item0 items] eqn:Hjobs.
    { wp_steps. auto. }
    apply wp_bind, wp_assign. cbn beta iota.
    apply wp_bind.
    apply wp_for_each with
      (I := fun s1 => commit_inv creds s1 /\ is_Some (HA.device (vars s1))).
    { split; [apply (commit_inv_completed s), Hinv|exact Hdev]. }
    { intros x s1 Hx [Hinv1 Hdev1].
      eapply wp_mono; [|apply poll_job_inv; [|exact Hinv1]].
      - intros [[]|e|] s2 (Hr & Hinv2 & Hdev2 & _); auto.
      - apply (inv_jobs _ _ Hinv). rewrite Hjobs. exact Hx. }
    intros s1 [Hinv1 Hdev1]. apply wp_bind, wp_read. cbn beta iota.
    apply wp_bind.
    apply wp_for_each with
      (I := fun s2 => commit_inv creds s2 /\ is_Some (HA.device (vars s2))).
    { auto. }
    { intros x s2 _ [Hinv2 Hdev2].
      eapply wp_mono; [|apply remove_completed_inv; exact Hinv2].
      intros r s3 (-> & Hinv3 & Hdev3). rewrite Hdev3. auto. }
    intros s2 [Hinv2 Hdev2]. apply wp_bind, wp_read. cbn beta iota.
    destruct (size (HA.ready_devices (vars s2)) =? length (HA.pa_credentials (vars s2)))%nat.
    + wp_steps. split; [apply (commit_inv_out s2), Hinv2|exact Hdev2].
    + apply wp_bind, wp_emit. cbn beta iota. apply IH.
      * apply (commit_inv_out s2), Hinv2.
      * exact Hdev2.
Qed.

Lemma in_zip_fst (keys : list Headers) (dh : Device * Headers) :
  In dh (zip creds keys) -> In (fst dh) creds.
Proof.
  intros [i Hi]%list_elem_of_In%list_elem_of_lookup.
  apply lookup_zip_with_Some in Hi as (d & h & -> & Hd & _).
  apply list_elem_of_In. eapply list_elem_of_lookup_2, Hd.
Qed.

(** The whole method: it does not raise, and the invariant holds when
    it ends, whether it returns or is still polling when the fuel runs
    out. *)
Lemma commit_changes_inv (progress_bar : bar) (fuel : nat) s :
  HA.pa_credentials (vars s) = creds ->
  wp (HA.commit_changes net fuel progress_bar)
    (never_raises (commit_inv creds)) s.
Proof.
  intros Hcreds. unfold HA.commit_changes, HA.start_commits, HA.monitor_jobs.
  apply wp_bind.
  do 4 (apply wp_bind, wp_assign; cbn beta iota).
  apply wp_bind, wp_read. cbn beta iota.
  apply wp_for_each with
    (I := fun s1 => commit_inv creds s1 /\
                    (HA.jobid_dict (vars s1) <> [] -> is_Some (HA.device (vars s1)))).
  { split; [|simpl; congruence].
    split; simpl; auto using NoDup_nil_2; [tauto|].
    intros h v Hv. rewrite lookup_empty in Hv. discriminate. }
  { intros x s1 Hx [Hinv1 _].
    eapply wp_mono; [|apply start_commit_inv; [|exact Hinv1]].
    - intros r s2 (-> & Hinv2 & Hdev2). auto.
    - simpl in Hx. rewrite Hcreds in Hx. eapply in_zip_fst, Hx. }
  intros s1 [Hinv1 Hdev1]. apply wp_bind, wp_read. cbn beta iota.
  destruct (HA.jobid_dict (vars s1)) as [|item0 items] eqn:Hjobs.
  { wp_steps. apply (commit_inv_out s1), Hinv1. }
  apply wp_bind, wp_emit. cbn beta iota.
  apply wp_try_except.
  eapply wp_mono; [|apply monitor_inv].
  - intros [[]|e|] s2 [Inv2 Hdev2]; simpl; auto.
    unfold HA.monitor_failed. apply wp_bind, wp_read. cbn beta iota.
    destruct Hdev2 as [d ->]. wp_steps. apply (commit_inv_out s2), Inv2.
  - apply (commit_inv_out s1), Hinv1.
  - simpl. apply Hdev1. congruence.
Qed.
End CommitInvariant.

(** ** One job query, by what the network answers *)

Section PollJob.
Variable net : network.
Variable progress_bar : bar.
Implicit Types m : machine HA.state.

Lemma poll_job_fails item m e :
  net (requests_sent (out m)) (HA.job_request (snd item)) = Fails e ->
  HA.poll_job net progress_bar item m = (Raised e, polled item m []).
Proof.
  intros Hnet. unfold HA.poll_job, bind, assign, http_get. simpl.
  rewrite Hnet. reflexivity.
Qed.

Lemma poll_job_unparsed item m r :
  net (requests_sent (out m)) (HA.job_request (snd item)) = Replies r ->
  status_code r = 200%Z -> xml r = None ->
  HA.poll_job net progress_bar item m = (Raised ParseError, polled item m []).
Proof.
  intros Hnet Hcode Hxml. unfold HA.poll_job, bind, assign, http_get, fromstring. simpl.
  rewrite Hnet, Hcode, Hxml. reflexivity.
Qed.

Lemma poll_job_refused item m r :
  net (requests_sent (out m)) (HA.job_request (snd item)) = Replies r ->
  status_code r <> 200%Z ->
  HA.poll_job net progress_bar item m = (Ok tt, polled item m []).
Proof.
  intros Hnet Hcode. unfold HA.poll_job, bind, assign, http_get. simpl.
  rewrite Hnet. apply Z.eqb_neq in Hcode. rewrite Hcode. reflexivity.
Qed.

(** A reply without a job element, like a reply with a status other
    than 200, leaves the entry where it is and the round goes on. *)
Lemma poll_job_without_job item m r root :
  net (requests_sent (out m)) (HA.job_request (snd item)) = Replies r ->
  status_code r = 200%Z -> xml r = Some root ->
  find_desc "job" root = None ->
  HA.poll_job net progress_bar item m = (Ok tt, polled item m []).
Proof.
  intros Hnet Hcode Hxml Hjob.
  unfold HA.poll_job, bind, assign, http_get, fromstring. simpl.
  rewrite Hnet, Hcode, Hxml. simpl. rewrite Hjob. reflexivity.
Qed.

Lemma poll_job_running item m r :
  net (requests_sent (out m)) (HA.job_request (snd item)) = Replies r ->
  job_running r ->
  exists progress,
    HA.poll_job net progress_bar item m =
    (Ok tt,
     polled item m
       [Log INFO "Commit running for {host}, progress {job_progress}% - job ID: {jobid}"
          [AStr (HA.ji_host (snd item)); AOpt progress; AOpt (HA.ji_jobid (snd item))];
        Log INFO "logging job XML response for {host}: {job_xml_response}"
          [AStr (HA.ji_host (snd item)); AStr (text r)];
        Sleep 15]).
Proof.
  intros Hnet (Hcode & root & job & Hxml & Hjob & Hstatus).
  exists (findtext "progress" (Some "0") job).
  unfold HA.poll_job, bind, assign, http_get, fromstring, log, sleep, emit. simpl.
  rewrite Hnet, Hcode, Hxml. simpl. rewrite Hjob, Hstatus. simpl.
  unfold polled. rewrite <- !app_assoc. reflexivity.
Qed.

Lemma for_each_app {A} (l1 l2 : list A) (body : A -> M HA.state unit) m :
  for_each (l1 ++ l2) body m =
  bind (for_each l1 body) (fun _ => for_each l2 body) m.
Proof.
  revert m. induction l1 as [|x l1 IH]; intros m; simpl.
  - reflexivity.
  - unfold bind. destruct (body x m) as [[[]|e|] m1]; auto.
Qed.

(** A round in which every job is found running: each query is followed
    by a sleep of 15, and nothing but the local [device] changes. *)
Lemma poll_round_running (Hnet : always_running net) items :
  forall m, exists m',
    for_each items (HA.poll_job net progress_bar) m = (Ok tt, m') /\
    HA.pa_credentials (vars m') = HA.pa_credentials (vars m) /\
    HA.jobid_dict (vars m') = HA.jobid_dict (vars m) /\
    HA.ready_devices (vars m') = HA.ready_devices (vars m) /\
    HA.completed_jobs (vars m') = HA.completed_jobs (vars m) /\
    requests_sent (out m') = (requests_sent (out m) + length items)%nat /\
    slept (out m') = (slept (out m) + 15 * Z.of_nat (length items))%Z.
Proof.
  induction items as [|item items IH]; intros m; simpl.
  - exists m. repeat split; auto; lia.
  - destruct (Hnet (requests_sent (out m)) (HA.job_request (snd item))
                (HA.ji_jobid (snd item)) eq_refl) as (r & Hr & Hrun).
    destruct (poll_job_running item m r Hr Hrun) as [progress Hpoll].
    unfold bind. rewrite Hpoll.
    destruct (IH (polled item m
                    [Log INFO "Commit running for {host}, progress {job_progress}% - job ID: {jobid}"
                       [AStr (HA.ji_host (snd item)); AOpt progress; AOpt (HA.ji_jobid (snd item))];
                     Log INFO "logging job XML response for {host}: {job_xml_response}"
                       [AStr (HA.ji_host (snd item)); AStr (text r)];
                     Sleep 15]))
      as (m' & Hrest & Hc & Hj & Hrd & Hcj & Hreq & Hsl).
    exists m'. split; [exact Hrest|].
    unfold polled in Hc, Hj, Hrd, Hcj, Hreq, Hsl.
    cbn [out vars] in Hc, Hj, Hrd, Hcj, Hreq, Hsl.
    rewrite requests_sent_app in Hreq. rewrite slept_app in Hsl.
    change (requests_sent (Request _ :: _)) with 1%nat in Hreq.
    change (slept (Request _ :: _)) with 15%Z in Hsl.
    rewrite Hc, Hj, Hrd, Hcj, Hreq, Hsl. cbn [length].
    repeat split; lia.
Qed.

Lemma bind_run {A B} (c : M HA.state A) (k : A -> M HA.state B) m a m1 :
  c m = (Ok a, m1) -> bind c k m = k a m1.
Proof. unfold bind. intros ->. reflexivity. Qed.

Lemma monitor_S (fuel : nat) :
  HA.monitor net (S fuel) progress_bar =
  (s <-- read ;;
   match HA.jobid_dict s with
   | [] => ret tt
   | _ :: _ =>
       assign (HA.set_completed_jobs []) ;;;
       for_each (HA.jobid_dict s) (HA.poll_job net progress_bar) ;;;
       s1 <-- read ;;
       for_each (HA.completed_jobs s1) HA.remove_completed ;;;
       s2 <-- read ;;
       if Nat.eqb (size (HA.ready_devices s2)) (length (HA.pa_credentials s2))
       then log INFO "All commits completed successfully!" []
       else
         log INFO "{len(ready_devices)}/{len(self.pa_credentials)} commits completed"
           [ANat (size (HA.ready_devices s2)); ANat (length (HA.pa_credentials s2))] ;;;
         HA.monitor net fuel progress_bar
   end).
Proof. reflexivity. Qed.

(** The loop on a network on which jobs stay running: every round polls
    every job and none ends the loop, whatever the fuel. *)
Lemma monitor_stuck (Hnet : always_running net) (fuel : nat) :
  forall m,
    HA.jobid_dict (vars m) <> [] ->
    size (HA.ready_devices (vars m)) <> length (HA.pa_credentials (vars m)) ->
    exists m',
      HA.monitor net fuel progress_bar m = (OutOfFuel, m') /\
      HA.jobid_dict (vars m') = HA.jobid_dict (vars m) /\
      requests_sent (out m') =
        (requests_sent (out m) + fuel * length (HA.jobid_dict (vars m)))%nat /\
      slept (out m') =
        (slept (out m) + 15 * Z.of_nat (fuel * length (HA.jobid_dict (vars m))))%Z.
Proof.
  induction fuel as [|fuel IH]; intros m Hjobs Hready.
  - exists m. simpl. unfold bind, read. simpl.
    destruct (HA.jobid_dict (vars m)); [congruence|].
    repeat split; auto; simpl; lia.
  - destruct (HA.jobid_dict (vars m)) as [|item0 items] eqn:Hd; [congruence|].
    destruct (poll_round_running Hnet (item0 :: items)
                (Machine (HA.set_completed_jobs [] (vars m)) (out m)))
      as (m1 & Hround & Hc & Hj & Hrd & Hcj & Hreq & Hsl).
    cbn [vars out] in Hc, Hj, Hrd, Hcj, Hreq, Hsl.
    change (HA.pa_credentials (HA.set_completed_jobs [] (vars m)))
      with (HA.pa_credentials (vars m)) in Hc.
    change (HA.jobid_dict (HA.set_completed_jobs [] (vars m)))
      with (HA.jobid_dict (vars m)) in Hj.
    change (HA.ready_devices (HA.set_completed_jobs [] (vars m)))
      with (HA.ready_devices (vars m)) in Hrd.
    change (HA.completed_jobs (HA.set_completed_jobs [] (vars m)))
      with (@nil string) in Hcj.
    apply Nat.eqb_neq in Hready.
    set (note := Log INFO "{len(ready_devices)}/{len(self.pa_credentials)} commits completed"
                   [ANat (size (HA.ready_devices (vars m1)));
                    ANat (length (HA.pa_credentials (vars m1)))]).
    destruct (IH (Machine (vars m1) (out m1 ++ [note])))
      as (m' & Hmon & Hj' & Hreq' & Hsl').
    { cbn [vars]. rewrite Hj, Hd. congruence. }
    { cbn [vars]. rewrite Hrd, Hc. apply Nat.eqb_neq, Hready. }
    cbn [vars out] in Hj', Hreq', Hsl'.
    exists m'. split.
    + rewrite monitor_S.
      rewrite (bind_run _ _ _ _ _ (eq_refl : read m = (Ok (vars m), m))).
      cbn beta. rewrite Hd. cbn iota.
      rewrite (bind_run _ _ _ _ _
                 (eq_refl : assign (HA.set_completed_jobs []) m =
                            (Ok tt, Machine (HA.set_completed_jobs [] (vars m)) (out m)))).
      rewrite (bind_run _ _ _ _ _ Hround).
      rewrite (bind_run _ _ _ _ _ (eq_refl : read m1 = (Ok (vars m1), m1))).
      cbn beta. rewrite Hcj.
      rewrite (bind_run _ _ _ _ _
                 (eq_refl : for_each [] HA.remove_completed m1 = (Ok tt, m1))).
      rewrite (bind_run _ _ _ _ _ (eq_refl : read m1 = (Ok (vars m1), m1))).
      cbn beta. rewrite Hrd, Hc, Hready.
      rewrite (bind_run _ _ _ _ _
                 (eq_refl : log INFO "{len(ready_devices)}/{len(self.pa_credentials)} commits completed"
                              [ANat (size (HA.ready_devices (vars m)));
                               ANat (length (HA.pa_credentials (vars m)))] m1
                            = (Ok tt, Machine (vars m1) (out m1 ++
                                 [Log INFO "{len(ready_devices)}/{len(self.pa_credentials)} commits completed"
                                    [ANat (size (HA.ready_devices (vars m)));
                                     ANat (length (HA.pa_credentials (vars m)))]])))).
      subst note. rewrite Hrd, Hc in Hmon. exact Hmon.
    + rewrite Hj', Hreq', Hsl', Hj, Hd.
      rewrite requests_sent_app, slept_app, Hreq, Hsl.
      change (requests_sent [note]) with 0%nat.
      change (slept [note]) with 0%Z.
      repeat split; lia.
Qed.
End PollJob.

(** ** The claims about [commit_changes] of the HA class *)

Lemma net_stuck_running : always_running net_stuck.
Proof.
  intros k rq j Hop. unfold net_stuck. rewrite Hop.
  eexists. split; [reflexivity|]. split; [reflexivity|].
  do 2 eexists. repeat split; reflexivity.
Qed.

Lemma bind_raised {V A B} (c : M V A) (k : A -> M V B) m e m1 :
  c m = (Raised e, m1) -> bind c k m = (Raised e, m1).
Proof. unfold bind. intros ->. reflexivity. Qed.

(** C2, as amended.  The polling loop has no time budget.  On a network
    on which the job queries keep answering "running" (status ACT), with a
    job in the registry and fewer ready hosts than devices, the loop is
    still running after any number of rounds: every round queries every
    job of the registry and sleeps 15 after each query, and the registry
    stays as it is. *)
Theorem monitor_polls_running_jobs_without_bound
  (net : network) (progress_bar : bar) (fuel : nat) (m : machine HA.state) :
  always_running net ->
  HA.jobid_dict (vars m) <> [] ->
  size (HA.ready_devices (vars m)) <> length (HA.pa_credentials (vars m)) ->
  exists m',
    HA.monitor net fuel progress_bar m = (OutOfFuel, m') /\
    HA.jobid_dict (vars m') = HA.jobid_dict (vars m) /\
    requests_sent (out m') =
      (requests_sent (out m) + fuel * length (HA.jobid_dict (vars m)))%nat /\
    slept (out m') =
      (slept (out m) + 15 * Z.of_nat (fuel * length (HA.jobid_dict (vars m))))%Z.
Proof. intros Hnet Hjobs Hready. apply monitor_stuck; assumption. Qed.

Lemma monitor_polls_running_jobs_without_bound_witness :
  always_running net_stuck /\
  exists m',
    HA.monitor net_stuck 3 commit_ha (after_step1 net_stuck [fw1] [key1])
    = (OutOfFuel, m') /\
    HA.jobid_dict (vars m') = HA.jobid_dict (vars (after_step1 net_stuck [fw1] [key1])) /\
    requests_sent (out m') =
      (requests_sent (out (after_step1 net_stuck [fw1] [key1])) +
       3 * length (HA.jobid_dict (vars (after_step1 net_stuck [fw1] [key1]))))%nat /\
    slept (out m') =
      (slept (out (after_step1 net_stuck [fw1] [key1])) +
       15 * Z.of_nat (3 * length (HA.jobid_dict (vars (after_step1 net_stuck [fw1] [key1])))))%Z.
Proof.
  split; [exact net_stuck_running|].
  apply monitor_polls_running_jobs_without_bound.
  - exact net_stuck_running.
  - vm_compute. discriminate.
  - vm_compute. discriminate.
Defined.

(** C2, as stated, fails.  One device, whose commit is queued and whose
    job then stays in status ACT: no amount of fuel lets [commit_changes]
    end; it polls for ever. *)
Lemma commit_changes_polls_for_ever :
  ~ (exists fuel,
       fst (HA.commit_changes net_stuck fuel commit_ha (ha_with [fw1] [key1]))
       <> OutOfFuel).
Proof.
  intros [fuel Hend]. apply Hend. clear Hend.
  unfold HA.commit_changes.
  assert (HA.start_commits net_stuck (ha_with [fw1] [key1])
          = (Ok tt, after_step1 net_stuck [fw1] [key1])) as Hstart
    by (vm_compute; reflexivity).
  rewrite (bind_run _ _ _ _ _ Hstart).
  unfold HA.monitor_jobs.
  rewrite (bind_run _ _ _ _ _
             (eq_refl : read (after_step1 net_stuck [fw1] [key1]) =
                        (Ok (vars (after_step1 net_stuck [fw1] [key1])),
                         after_step1 net_stuck [fw1] [key1]))).
  cbn beta.
  assert (HA.jobid_dict (vars (after_step1 net_stuck [fw1] [key1])) = [job1])
    as Hjobs by (vm_compute; reflexivity).
  rewrite Hjobs. cbn iota.
  set (m1 := after_step1 net_stuck [fw1] [key1]) in *.
  set (note := Log INFO "{jobid_dict}" [AKeys (dict_keys [job1])]).
  rewrite (bind_run _ _ _ _ _
             (eq_refl : log INFO "{jobid_dict}" [AKeys (dict_keys [job1])] m1
                        = (Ok tt, Machine (vars m1) (out m1 ++ [note])))).
  destruct (monitor_stuck net_stuck commit_ha net_stuck_running fuel
              (Machine (vars m1) (out m1 ++ [note])))
    as (m' & Hmon & _).
  - cbn [vars]. rewrite Hjobs. discriminate.
  - vm_compute. discriminate.
  - unfold try_except. rewrite Hmon. reflexivity.
Qed.

(** When the loop does return, the registry is empty or every device is
    ready: nothing else ends it but an exception. *)
Lemma monitor_returns_only_when_done
  (net : network) (progress_bar : bar) (fuel : nat) :
  forall m : machine HA.state,
    wp (HA.monitor net fuel progress_bar)
      (fun r m' =>
         r = Ok tt ->
         HA.jobid_dict (vars m') = [] \/
         size (HA.ready_devices (vars m')) = length (HA.pa_credentials (vars m')))
      m.
Proof.
  induction fuel as [|fuel IH]; intros m; simpl.
  - apply wp_bind, wp_read. cbn beta iota.
    destruct (HA.jobid_dict (vars m)) eqn:Hjobs.
    + apply wp_ret. auto.
    + apply wp_out_of_fuel. discriminate.
  - apply wp_bind, wp_read. cbn beta iota.
    destruct (HA.jobid_dict (vars m)) eqn:Hjobs.
    { apply wp_ret. auto. }
    apply wp_bind, wp_assign. cbn beta iota.
    apply wp_bind.
    apply wp_for_each with (I := fun _ => True); [exact I| |].
    { intros x s1 _ _. unfold wp.
      destruct (HA.poll_job net progress_bar x s1) as [[[]|e|] s2]; simpl; auto;
        discriminate. }
    intros s1 _. apply wp_bind, wp_read. cbn beta iota.
    apply wp_bind.
    apply wp_for_each with (I := fun _ => True); [exact I| |].
    { intros x s2 _ _. unfold wp.
      destruct (HA.remove_completed x s2) as [[[]|e|] s3]; simpl; auto;
        discriminate. }
    intros s2 _. apply wp_bind, wp_read. cbn beta iota.
    destruct (size (HA.ready_devices (vars s2)) =? length (HA.pa_credentials (vars s2)))%nat
      eqn:Heq.
    + apply wp_emit. intros _. right. cbn [vars]. apply Nat.eqb_eq, Heq.
    + apply wp_bind, wp_emit. cbn beta iota. apply IH.
Qed.

Section PollAborts.
Variable net : network.
Variable progress_bar : bar.

(** A query that raises ends the round where it stands. *)
Lemma poll_round_aborts (before after : list (string * HA.job_info))
  (item : string * HA.job_info) (m0 m1 m2 : machine HA.state) (e : exn) :
  for_each before (HA.poll_job net progress_bar) m0 = (Ok tt, m1) ->
  HA.poll_job net progress_bar item m1 = (Raised e, m2) ->
  for_each (before ++ item :: after) (HA.poll_job net progress_bar) m0
  = (Raised e, m2).
Proof.
  intros Hbefore Hitem. rewrite for_each_app.
  rewrite (bind_run _ _ _ _ _ Hbefore). simpl.
  apply bind_raised, Hitem.
Qed.

(** What a query that raises leaves behind. *)
Lemma poll_job_raises (item : string * HA.job_info) (m : machine HA.state)
  (e : exn) :
  net (requests_sent (out m)) (HA.job_request (snd item)) = Fails e \/
  (exists r, net (requests_sent (out m)) (HA.job_request (snd item)) = Replies r /\
             status_code r = 200%Z /\ xml r = None /\ e = ParseError) ->
  HA.poll_job net progress_bar item m = (Raised e, polled item m []).
Proof.
  intros [Hfail|(r & Hr & Hcode & Hxml & ->)].
  - apply poll_job_fails, Hfail.
  - eapply poll_job_unparsed; eassumption.
Qed.
End PollAborts.

(** C3, as amended.  A job query that raises (a transport error of
    [requests.get], or a body that [ET.fromstring] cannot parse) ends the
    polling for all devices: the exception leaves the round and the
    [while] loop, the handler around the loop logs one error, and the
    method returns.  The entries after the failing one are not queried, no
    entry is queried again, and the registry, [ready_devices] and
    [completed_jobs] stay as the jobs queried before had left them: the
    failing entry is not recorded as a failed commit. *)
Theorem poll_failure_ends_monitoring
  (net : network) (progress_bar : bar) (fuel : nat)
  (before after : list (string * HA.job_info)) (item : string * HA.job_info)
  (m m1 : machine HA.state) (e : exn) :
  HA.jobid_dict (vars m) = before ++ item :: after ->
  for_each before (HA.poll_job net progress_bar)
    (Machine (HA.set_completed_jobs [] (vars m)) (out m)) = (Ok tt, m1) ->
  (net (requests_sent (out m1)) (HA.job_request (snd item)) = Fails e \/
   exists r, net (requests_sent (out m1)) (HA.job_request (snd item)) = Replies r /\
             status_code r = 200%Z /\ xml r = None /\ e = ParseError) ->
  try_except any_exception (HA.monitor net (S fuel) progress_bar) HA.monitor_failed m
  = (Ok tt,
     Machine (HA.set_device (Some (HA.ji_device (snd item))) (vars m1))
       (out m1 ++
        [Request (HA.job_request (snd item));
         Log ERROR "Error committing changes for {device['host']}: {e}"
           [AStr (host (HA.ji_device (snd item))); AExn e]])).
Proof.
  intros Hjobs Hbefore Hraise.
  assert (HA.monitor net (S fuel) progress_bar m = (Raised e, polled item m1 []))
    as Hmon.
  { rewrite monitor_S.
    rewrite (bind_run _ _ _ _ _ (eq_refl : read m = (Ok (vars m), m))).
    cbn beta. rewrite Hjobs.
    destruct (before ++ item :: after) as [|x l] eqn:Hl.
    { destruct before; discriminate. }
    rewrite <- Hl.
    rewrite (bind_run _ _ _ _ _
               (eq_refl : assign (HA.set_completed_jobs []) m =
                          (Ok tt, Machine (HA.set_completed_jobs [] (vars m)) (out m)))).
    apply bind_raised.
    eapply poll_round_aborts; [exact Hbefore|].
    apply poll_job_raises, Hraise. }
  unfold try_except. rewrite Hmon. unfold polled. simpl.
  unfold HA.monitor_failed, bind, read, log, emit. simpl.
  rewrite <- app_assoc. reflexivity.
Qed.

Lemma poll_failure_ends_monitoring_witness :
  try_except any_exception (HA.monitor net_poll_times_out 5 commit_ha)
    HA.monitor_failed
    (after_step1 net_poll_times_out [fw1; fw2] [key1; key2])
  = (Ok tt,
     Machine
       (HA.set_device (Some fw1)
          (HA.set_completed_jobs []
             (vars (after_step1 net_poll_times_out [fw1; fw2] [key1; key2]))))
       (out (after_step1 net_poll_times_out [fw1; fw2] [key1; key2]) ++
        [Request (HA.job_request (snd job1));
         Log ERROR "Error committing changes for {device['host']}: {e}"
           [AStr "192.168.1.1"; AExn RequestException]])).
Proof.
  apply (poll_failure_ends_monitoring net_poll_times_out commit_ha 4
           [] [job2] job1
           (after_step1 net_poll_times_out [fw1; fw2] [key1; key2])
           (Machine
              (HA.set_completed_jobs []
                 (vars (after_step1 net_poll_times_out [fw1; fw2] [key1; key2])))
              (out (after_step1 net_poll_times_out [fw1; fw2] [key1; key2])))
           RequestException).
  - vm_compute. reflexivity.
  - reflexivity.
  - left. vm_compute. reflexivity.
Defined.

(** C3, as stated, fails.  Two devices with their commits queued; the
    first job query, to the first device, times out.  [commit_changes]
    then logs one error and returns: the job of the second device is never
    queried, no job is queried again, and both entries are still in the
    registry. *)
Lemma commit_changes_gives_up_after_one_timeout :
  fst (HA.commit_changes net_poll_times_out 5 commit_ha
         (ha_with [fw1; fw2] [key1; key2])) = Ok tt
  /\ out (snd (HA.commit_changes net_poll_times_out 5 commit_ha
                 (ha_with [fw1; fw2] [key1; key2])))
     = [Request (HA.commit_request fw1 key1);
        Log INFO "Commit job ID for {device['host']}: {jobid}"
          [AStr "192.168.1.1"; AOpt (Some "7")];
        Request (HA.commit_request fw2 key2);
        Log INFO "Commit job ID for {device['host']}: {jobid}"
          [AStr "192.168.1.2"; AOpt (Some "7")];
        Log INFO "{jobid_dict}" [AKeys ["192.168.1.1_7"; "192.168.1.2_7"]];
        Request (HA.job_request (snd job1));
        Log ERROR "Error committing changes for {device['host']}: {e}"
          [AStr "192.168.1.1"; AExn RequestException]]
  /\ HA.jobid_dict (vars (snd (HA.commit_changes net_poll_times_out 5 commit_ha
                                 (ha_with [fw1; fw2] [key1; key2]))))
     = [job1; job2]
  /\ ~ In (Request (HA.job_request (snd job2)))
          (out (snd (HA.commit_changes net_poll_times_out 5 commit_ha
                       (ha_with [fw1; fw2] [key1; key2])))).
Proof.
  split; [vm_compute; reflexivity|].
  assert (out (snd (HA.commit_changes net_poll_times_out 5 commit_ha
                      (ha_with [fw1; fw2] [key1; key2])))
          = [Request (HA.commit_request fw1 key1);
             Log INFO "Commit job ID for {device['host']}: {jobid}"
               [AStr "192.168.1.1"; AOpt (Some "7")];
             Request (HA.commit_request fw2 key2);
             Log INFO "Commit job ID for {device['host']}: {jobid}"
               [AStr "192.168.1.2"; AOpt (Some "7")];
             Log INFO "{jobid_dict}" [AKeys ["192.168.1.1_7"; "192.168.1.2_7"]];
             Request (HA.job_request (snd job1));
             Log ERROR "Error committing changes for {device['host']}: {e}"
               [AStr "192.168.1.1"; AExn RequestException]]) as Hout
    by (vm_compute; reflexivity).
  split; [exact Hout|].
  split; [vm_compute; reflexivity|].
  rewrite Hout. simpl. unfold HA.commit_request, HA.job_request. simpl.
  intros [H|[H|[H|[H|[H|[H|[H|[]]]]]]]]; discriminate H.
Qed.

(** ** Where [commit_changes] sleeps *)

Section Sleeps.
Variable net : network.
Variable progress_bar : bar.
Variable c : Z.
Implicit Types s : machine HA.state.










End Sleeps.





(** ** The registry *)

(** C5, as amended.  The registry never holds two entries with the same
    key, and recording a job never fails: when a commit is accepted, the
    entry is stored under [host_jobid]; if that key is already in the
    registry, the entry that was there is overwritten, and the keys and
    the size of the registry stay as they were. *)
Theorem registry_insert_overwrites
  (net : network) (d : Device) (headers : Headers) (m : machine HA.state)
  (r : response) (root result : Element) :
  net (requests_sent (out m)) (HA.commit_request d headers) = Replies r ->
  status_code r = 200%Z ->
  xml r = Some root ->
  find_desc "result" root = Some result ->
  NoDup (dict_keys (HA.jobid_dict (vars m))) ->
  let jobid := findtext "job" None result in
  let unique_key := HA.unique_key_of d jobid in
  let entry := {| HA.ji_device := d; HA.ji_headers := headers;
                  HA.ji_host := host d; HA.ji_jobid := jobid |} in
  exists m',
    HA.start_commit net (d, headers) m = (Ok tt, m') /\
    HA.jobid_dict (vars m') = dict_set unique_key entry (HA.jobid_dict (vars m)) /\
    NoDup (dict_keys (HA.jobid_dict (vars m'))) /\
    dict_get unique_key (HA.jobid_dict (vars m')) = Some entry /\
    (In unique_key (dict_keys (HA.jobid_dict (vars m))) ->
     dict_keys (HA.jobid_dict (vars m')) = dict_keys (HA.jobid_dict (vars m)) /\
     length (HA.jobid_dict (vars m')) = length (HA.jobid_dict (vars m))).
Proof.
  intros Hnet Hcode Hxml Hres Hnd jobid unique_key entry.
  eexists. split.
  { unfold HA.start_commit, try_except, bind, assign, http_get, fromstring, log, emit.
    simpl. rewrite Hnet, Hcode, Hxml. simpl. rewrite Hres. reflexivity. }
  simpl. fold jobid. fold unique_key. fold entry.
  split; [reflexivity|].
  split; [apply dict_set_NoDup, Hnd|].
  split; [apply dict_get_set|].
  intros Hin. split.
  - apply dict_set_keys_present, Hin.
  - apply dict_set_length_present, Hin.
Qed.

Lemma registry_insert_overwrites_witness :
  HA.jobid_dict (vars listed_twice) = [job1]
  /\ exists m',
      HA.start_commit net_stuck (fw1_again, key2) listed_twice = (Ok tt, m') /\
      HA.jobid_dict (vars m') =
        dict_set "192.168.1.1_7" job1_again (HA.jobid_dict (vars listed_twice)) /\
      NoDup (dict_keys (HA.jobid_dict (vars m'))) /\
      dict_get "192.168.1.1_7" (HA.jobid_dict (vars m')) = Some job1_again /\
      (In "192.168.1.1_7" (dict_keys (HA.jobid_dict (vars listed_twice))) ->
       dict_keys (HA.jobid_dict (vars m')) = dict_keys (HA.jobid_dict (vars listed_twice)) /\
       length (HA.jobid_dict (vars m')) = length (HA.jobid_dict (vars listed_twice))).
Proof.
  assert (HA.jobid_dict (vars listed_twice) = [job1]) as Hjobs
    by (vm_compute; reflexivity).
  split; [exact Hjobs|].
  apply (registry_insert_overwrites net_stuck fw1_again key2 listed_twice
           {| status_code := 200;
              text := "<response status='success' code='19'>...</response>";
              xml := Some (commit_doc "7") |}
           (commit_doc "7")
           (Elem "result" None
              [Elem "msg" None [Elem "line" (Some "Commit job enqueued") []];
               Elem "job" (Some "7") []])).
  - vm_compute. reflexivity.
  - reflexivity.
  - reflexivity.
  - vm_compute. reflexivity.
  - rewrite Hjobs. simpl. apply NoDup_singleton.
Defined.

(** C5, as stated, fails.  The credentials file lists one host twice and
    both commits are queued as job 7.  The second insertion meets the key
    of the first: it raises nothing, and the entry of the first is
    overwritten by the entry of the second. *)
Lemma duplicate_key_is_overwritten_silently :
  fst (HA.start_commits net_stuck (ha_with [fw1; fw1_again] [key1; key2])) = Ok tt
  /\ HA.jobid_dict
       (vars (snd (HA.start_commits net_stuck
                     (ha_with [fw1; fw1_again] [key1; key2]))))
     = [("192.168.1.1_7", job1_again)]
  /\ HA.jobid_dict (vars listed_twice) = [job1].
Proof. repeat split; vm_compute; reflexivity. Qed.

(** ** [commit_changes] of the configuration class *)

(** C8.  When the commit request of [commit_changes] raises, the handler
    of the first [try] block logs the error at level DEBUG and falls
    through to [if not jobid:], where [jobid] has never been assigned: the
    method raises [UnboundLocalError].  It returns nothing and logs nothing
    else. *)
Theorem commit_changes_reads_unbound_jobid
  (net : network) (fuel : nat) (m : machine Config.state)
  (d : Device) (ds : list Device) (h : Headers) (hs : list Headers) (e : exn) :
  Config.active_fw_list (vars m) = d :: ds ->
  Config.active_fw_headers (vars m) = h :: hs ->
  net (requests_sent (out m)) (Config.commit_request d h) = Fails e ->
  Config.commit_changes net fuel m
  = (Raised UnboundLocalError,
     Machine (Config.set_jobid None (vars m))
       (out m ++
        [Request (Config.commit_request d h);
         Log DEBUG "Error committing changes for {self.active_fw_list[0]['host']}: {e}"
           [AStr (host d); AExn e]])).
Proof.
  intros Hlist Hheaders Hnet.
  unfold Config.commit_changes, Config.start_commit, Config.active_fw,
    Config.commit_failed, Config.read_jobid.
  unfold try_except, bind, assign, read, index0, http_get, log, emit, ret, raise.
  simpl. rewrite Hlist, Hheaders. simpl. rewrite Hnet. simpl.
  rewrite Hlist. simpl. rewrite <- app_assoc. reflexivity.
Qed.

Lemma commit_changes_reads_unbound_jobid_witness :
  Config.commit_changes net_commit_times_out 10 (config_with [fw1] [key1])
  = (Raised UnboundLocalError,
     Machine (Config.set_jobid None (vars (config_with [fw1] [key1])))
       (out (config_with [fw1] [key1]) ++
        [Request (Config.commit_request fw1 key1);
         Log DEBUG "Error committing changes for {self.active_fw_list[0]['host']}: {e}"
           [AStr (host fw1); AExn RequestException]])).
Proof.
  apply (commit_changes_reads_unbound_jobid net_commit_times_out 10
           (config_with [fw1] [key1]) fw1 [] key1 [] RequestException).
  - reflexivity.
  - reflexivity.
  - reflexivity.
Defined.

(** ** The synchronisation of the configuration class *)

Lemma triggers_sent_app (tr1 tr2 : list event) :
  triggers_sent (tr1 ++ tr2) = (triggers_sent tr1 + triggers_sent tr2)%nat.
Proof. unfold triggers_sent. rewrite filter_app, length_app. reflexivity. Qed.



Ltac check_events :=
  repeat match goal with
         | |- Forall _ [] => constructor
         | |- Forall _ (_ :: _) =>
             constructor;
             [first [ left; reflexivity
                    | right; left; reflexivity
                    | right; right; eexists; reflexivity ]|]
         end.

Section WaitLoop.
Variable net : network.
Variable d : Device.
Variable h : Headers.

(** One check that goes on. *)
Lemma wait_check_pending (n : nat) (check : nat) (rest : list nat)
  (m : machine Config.state) (hs : list Headers) :
  Config.active_fw_headers (vars m) = h :: hs ->
  sync_pending (net (requests_sent (out m)) (Config.ha_state_request d h None)) ->
  exists tr,
    Config.wait_loop net n d (check :: rest) m =
    Config.wait_loop net n d rest (Machine (vars m) (out m ++ tr)) /\
    requests_sent tr = 1%nat /\ slept tr = 15%Z /\
    Forall (check_event d h) tr.
Proof.
  intros Hheaders Hpending. simpl.
  unfold bind at 1. unfold sleep, emit at 1.
  unfold bind at 1. unfold read at 1. cbn [vars out fst snd].
  rewrite Hheaders. unfold bind at 1. unfold index0 at 1, ret at 1.
  unfold bind at 1. unfold http_get. cbn [vars out].
  rewrite requests_sent_app. change (requests_sent [Sleep 15]) with 0%nat.
  rewrite Nat.add_0_r.
  destruct (net (requests_sent (out m)) (Config.ha_state_request d h None))
    as [resp|e]; [|contradiction].
  destruct Hpending as [Hcode|(root & Hxml & Hstate)].
  - apply Z.eqb_neq in Hcode. rewrite Hcode.
    exists [Sleep 15; Request (Config.ha_state_request d h None)].
    rewrite <- app_assoc. split; [reflexivity|].
    repeat split; try reflexivity. check_events.
  - destruct (status_code resp =? 200)%Z.
    + unfold bind at 1. unfold fromstring. rewrite Hxml. unfold ret at 1.
      unfold bind at 1. unfold log, emit at 1. cbn [vars out].
      rewrite Hstate.
      exists [Sleep 15; Request (Config.ha_state_request d h None);
              Log INFO " Sync check {check + 1}/{max_checks}: Status = {current_state}"
                [ANat (check + 1); ANat n;
                 AOpt (findtext_desc_child "group" "running-sync" root)]].
      rewrite <- !app_assoc. split.
      { destruct (Config.still_syncing _); reflexivity. }
      repeat split; try reflexivity. check_events.
    + exists [Sleep 15; Request (Config.ha_state_request d h None)].
      rewrite <- app_assoc. split; [reflexivity|].
      repeat split; try reflexivity. check_events.
Qed.

(** The loop when no check finds the pair synchronised and none
    raises: it makes every check that it was given. *)
Lemma wait_loop_pending (n : nat) (checks : list nat) :
  forall (m : machine Config.state) (hs : list Headers),
    Config.active_fw_headers (vars m) = h :: hs ->
    (forall k, (k < length checks)%nat ->
       sync_pending (net (requests_sent (out m) + k)
                       (Config.ha_state_request d h None))) ->
    exists tr,
      Config.wait_loop net n d checks m = (Ok tt, Machine (vars m) (out m ++ tr)) /\
      requests_sent tr = length checks /\
      slept tr = (15 * Z.of_nat (length checks))%Z /\
      Forall (check_event d h) tr.
Proof.
  induction checks as [|check rest IH]; intros m hs Hheaders Hpending.
  - exists []. rewrite app_nil_r. simpl. destruct m. repeat split. constructor.
  - destruct (wait_check_pending n check rest m hs Hheaders)
      as (tr1 & Hstep & Hreq1 & Hsl1 & Hev1).
    { specialize (Hpending 0%nat). rewrite Nat.add_0_r in Hpending.
      apply Hpending. simpl. lia. }
    destruct (IH (Machine (vars m) (out m ++ tr1)) hs Hheaders)
      as (tr2 & Hrest & Hreq2 & Hsl2 & Hev2).
    { intros k Hk. cbn [out]. rewrite requests_sent_app, Hreq1.
      replace (requests_sent (out m) + 1 + k)%nat
        with (requests_sent (out m) + S k)%nat by lia.
      apply Hpending. simpl. lia. }
    exists (tr1 ++ tr2). rewrite Hstep, Hrest. cbn [vars out].
    rewrite app_assoc. split; [reflexivity|].
    rewrite requests_sent_app, slept_app, Hreq1, Hreq2, Hsl1, Hsl2.
    cbn [length]. repeat split; try lia.
    apply Forall_app. auto.
Qed.
End WaitLoop.

(** C6, as amended.  When no check of [wait_for_sync_completion] raises
    and none finds the pair synchronised, the method makes exactly 8
    checks, each after a sleep of 15 (120 in all), and then returns.  It
    returns no outcome: besides the sleeps and the queries, its only
    effects are the records of the state read by each check; running out
    of checks is not reported, and the variables are left as they were. *)
Theorem wait_for_sync_completion_makes_eight_checks
  (net : network) (m : machine Config.state)
  (d : Device) (ds : list Device) (h : Headers) (hs : list Headers) :
  Config.active_fw_list (vars m) = d :: ds ->
  Config.active_fw_headers (vars m) = h :: hs ->
  (forall k, (k < 8)%nat ->
     sync_pending (net (requests_sent (out m) + k)
                     (Config.ha_state_request d h None))) ->
  exists tr,
    Config.wait_for_sync_completion net m = (Ok tt, Machine (vars m) (out m ++ tr)) /\
    requests_sent tr = 8%nat /\
    slept tr = 120%Z /\
    Forall (check_event d h) tr.
Proof.
  intros Hlist Hheaders Hpending.
  destruct (wait_loop_pending net d h Config.max_checks (seq 0 Config.max_checks)
              m hs Hheaders)
    as (tr & Hloop & Hreq & Hsl & Hev).
  { intros k Hk. apply Hpending. exact Hk. }
  exists tr. split.
  - unfold Config.wait_for_sync_completion, try_except.
    rewrite (bind_read _ m). rewrite Hlist. unfold bind at 1. simpl index0.
    unfold ret at 1. rewrite Hloop. reflexivity.
  - repeat split; assumption.
Qed.

Lemma wait_for_sync_completion_makes_eight_checks_witness :
  exists tr,
    Config.wait_for_sync_completion net_sync_pending (config_with [fw1] [key1])
    = (Ok tt, Machine (vars (config_with [fw1] [key1]))
                (out (config_with [fw1] [key1]) ++ tr)) /\
    requests_sent tr = 8%nat /\
    slept tr = 120%Z /\
    Forall (check_event fw1 key1) tr.
Proof.
  apply (wait_for_sync_completion_makes_eight_checks net_sync_pending
           (config_with [fw1] [key1]) fw1 [] key1 []).
  - reflexivity.
  - reflexivity.
  - intros k _. right. exists (ha_doc "active" "synchronization in progress").
    split; reflexivity.
Defined.

(** C6, as stated, fails.  The pair never reports "synchronized" and the
    first check times out: [wait_for_sync_completion] logs the error and
    returns after that one check, not after eight. *)
Lemma wait_for_sync_completion_stops_at_first_error :
  Config.wait_for_sync_completion net_sync_check_times_out (config_with [fw1] [key1])
  = (Ok tt,
     Machine (vars (config_with [fw1] [key1]))
       [Sleep 15;
        Request (Config.ha_state_request fw1 key1 None);
        Log ERROR "Error monitoring sync completion: {e}" [AExn RequestException]])
  /\ requests_sent
       (out (snd (Config.wait_for_sync_completion net_sync_check_times_out
                    (config_with [fw1] [key1])))) = 1%nat.
Proof. split; vm_compute; reflexivity. Qed.

(** ** The active firewall *)

Section ActiveFirewall.
Variable net : network.

Lemma find_active_appends_at_most_one (pairs : list (Device * Headers)) :
  forall s : machine Config.state,
    wp (Config.find_active net pairs) (fun _ s' => appended_at_most_one s s') s.
Proof.
  induction pairs as [|[device headers] rest IH]; intros s; simpl.
  - apply wp_ret. exists [], []. rewrite !app_nil_r. repeat split; auto.
  - assert (forall s0, vars s0 = vars s ->
              wp (Config.find_active net rest)
                (fun _ s' => appended_at_most_one s s') s0) as Hrest.
    { intros s0 Hs0. eapply wp_mono; [|apply IH].
      intros r s' (ds & hs & Hd & Hh & Hlen & Hle).
      exists ds, hs. rewrite <- Hs0. repeat split; auto. }
    wp_steps;
      try (exists [], []; rewrite !app_nil_r; cbn [vars out];
           repeat split; auto; fail);
      try (apply Hrest; reflexivity).
    exists [device], [headers]. cbn [vars out]. repeat split; auto.
Qed.

(** [get_active_fw] appends at most one device to [active_fw_list],
    whether it returns the lists, returns [None] or raises. *)
Lemma get_active_fw_appends_at_most_one (s : machine Config.state) :
  wp (Config.get_active_fw net) (fun _ s' => appended_at_most_one s s') s.
Proof.
  unfold Config.get_active_fw. apply wp_try_except.
  apply wp_bind, wp_read. cbn beta iota.
  apply wp_bind. eapply wp_mono; [|apply find_active_appends_at_most_one].
  intros [[]|e|] s1 (ds & hs & Hd & Hh & Hlen & Hle).
  - wp_steps. exists ds, hs. cbn [vars out]. repeat split; auto.
  - destruct (request_exception e).
    + wp_steps. exists ds, hs. cbn [vars out]. repeat split; auto.
    + exists ds, hs. repeat split; auto.
  - exists ds, hs. repeat split; auto.
Qed.
End ActiveFirewall.

(** ** The configuration methods when no active firewall was found *)

Section NoActiveFirewall.
Variable net : network.
Variable v : Config.state.
Variable tr : list event.

(** Four of the five configuration methods catch the [IndexError] of
    [self.active_fw_list[0]], log it and return; none sends a request. *)
Lemma act_fw_int_config_without_active_fw :
  Config.act_fw_int_config net (without_active_fw v tr)
  = (Ok tt,
     without_active_fw v
       (tr ++ [Log ERROR "Error in interface configuration process: {e}"
                 [AExn IndexError]])).
Proof. reflexivity. Qed.

Lemma act_fw_zone_config_without_active_fw :
  Config.act_fw_zone_config net (without_active_fw v tr)
  = (Ok tt,
     without_active_fw v
       (tr ++ [Log ERROR "Error configuring zones: {e}" [AExn IndexError]])).
Proof. reflexivity. Qed.

Lemma act_fw_security_policy_config_without_active_fw :
  Config.act_fw_security_policy_config net (without_active_fw v tr)
  = (Ok tt,
     without_active_fw v
       (tr ++ [Log ERROR "Error configuring security policies: {e}"
                 [AExn IndexError]])).
Proof. reflexivity. Qed.

Lemma act_fw_source_nat_config_without_active_fw :
  Config.act_fw_source_nat_config net (without_active_fw v tr)
  = (Ok tt,
     without_active_fw v
       (tr ++ [Log ERROR "Error configuring source NAT: {e}" [AExn IndexError]])).
Proof. reflexivity. Qed.

Lemma force_sync_config_without_active_fw :
  Config.force_sync_config net (without_active_fw v tr)
  = (Ok tt,
     without_active_fw v
       (tr ++ [Log ERROR "Error during configuration sync: {e}" [AExn IndexError]])).
Proof. reflexivity. Qed.

(** The handlers of [commit_changes] have the slip of
    [act_fw_route_config]: the method raises [IndexError]. *)
Lemma commit_changes_without_active_fw (fuel : nat) :
  Config.commit_changes net fuel (without_active_fw v tr)
  = (Raised IndexError,
     Machine (Config.set_jobid None (vars (without_active_fw v tr))) tr).
Proof. reflexivity. Qed.
End NoActiveFirewall.

(** C10, where the code departs from it.  With no active firewall,
    [act_fw_route_config] does not log and return: its handler formats
    [self.active_fw_list[0]['host']] into the message, which raises
    [IndexError] again, outside any [try].  The method raises; it logs
    nothing and sends no request. *)
Theorem act_fw_route_config_raises_without_active_fw
  (net : network) (v : Config.state) (tr : list event) :
  Config.act_fw_route_config net (without_active_fw v tr)
  = (Raised IndexError, without_active_fw v tr).
Proof.
  unfold Config.act_fw_route_config, Config.active_fw, without_active_fw.
  unfold try_except, bind, read, index0, raise. simpl. reflexivity.
Qed.

(** ** Further properties of [get_api_key] *)

(** The pieces of a split are never none. *)
Lemma split_from_not_nil (sep : string) (s : string) :
  forall skip cur, split_from sep skip cur s <> [].
Proof.
  induction s as [|c s IH]; intros skip cur; cbn [split_from]; [easy|].
  destruct skip; [|apply IH].
  destruct (String.prefix sep (String c s)); [easy|apply IH].
Qed.

Lemma append_cons (c : ascii) (a b : string) :
  String c a +:+ b = String c (a +:+ b).
Proof. reflexivity. Qed.

Lemma append_nil_l (b : string) : "" +:+ b = b.
Proof. reflexivity. Qed.

Lemma prefix_split (a s : string) :
  String.prefix a s = true -> exists t, s = a +:+ t.
Proof.
  revert s. induction a as [|c a IH]; intros s Hp.
  - exists s. reflexivity.
  - destruct s as [|c' s]; simpl in Hp; [discriminate|].
    destruct (Ascii.ascii_dec c c') as [->|Hne]; [|discriminate].
    destruct (IH s Hp) as [t ->]. exists t. reflexivity.
Qed.

Lemma string_app_assoc (a b c : string) : (a +:+ b) +:+ c = a +:+ (b +:+ c).
Proof.
  induction a as [|x a IH]; [reflexivity|].
  rewrite !append_cons. f_equal. exact IH.
Qed.

Lemma string_app_nil_r (a : string) : a +:+ "" = a.
Proof.
  induction a as [|x a IH]; [reflexivity|].
  rewrite append_cons. f_equal. exact IH.
Qed.

(** Joining what was split gives the text back: with [skip] characters of
    a separator still to pass over, what is left to join is the text after
    them. *)
Lemma join_split_from (sep : string) (s : string) :
  sep <> "" ->
  forall skip cur u v,
    s = u +:+ v -> String.length u = skip ->
    join sep (split_from sep skip cur s) = cur +:+ v.
Proof.
  intros Hsep. induction s as [|c s IH]; intros skip cur u v Hs Hlen.
  - destruct u; [|discriminate]. rewrite append_nil_l in Hs. subst v.
    cbn [split_from join]. rewrite string_app_nil_r. reflexivity.
  - cbn [split_from]. destruct skip as [|k].
    + destruct u; [|discriminate]. rewrite append_nil_l in Hs. subst v.
      destruct (String.prefix sep (String c s)) eqn:Hp.
      * destruct (prefix_split _ _ Hp) as [t Ht].
        destruct sep as [|c0 sep']; [congruence|].
        rewrite append_cons in Ht. injection Ht as -> ->.
        specialize (IH (String.length sep') "" sep' t eq_refl eq_refl).
        cbn [String.length Nat.pred].
        destruct (split_from (String c0 sep') (String.length sep') "" (sep' +:+ t))
          as [|x rest] eqn:Hsplit.
        { exfalso. eapply split_from_not_nil, Hsplit. }
        change (join (String c0 sep') (cur :: x :: rest))
          with (cur +:+ String c0 sep' +:+ join (String c0 sep') (x :: rest)).
        rewrite IH, append_nil_l, append_cons. reflexivity.
      * rewrite (IH 0%nat (cur +:+ String c "") "" s eq_refl eq_refl).
        rewrite string_app_assoc. reflexivity.
    + destruct u as [|c' u]; [discriminate|]. rewrite append_cons in Hs.
      cbn [String.length] in Hlen.
      injection Hs as -> Hs. injection Hlen as Hlen.
      apply (IH k cur u v Hs Hlen).
Qed.

Lemma join_split (sep s : string) : sep <> "" -> join sep (split sep s) = s.
Proof.
  intros Hsep. unfold split.
  apply (join_split_from sep s Hsep 0%nat "" "" s); reflexivity.
Qed.

(** X1.  The key that [get_api_key] extracts from a response body stands in
    the body right after a "<key>" marker: the body is some text, the
    marker, the key, and some text. *)
Theorem extract_key_stands_after_marker (body k : string) :
  HA.extract_key body = Some k ->
  exists a b, body = a +:+ "<key>" +:+ k +:+ b.
Proof.
  unfold HA.extract_key. intros Hk.
  pose proof (join_split "<key>" body ltac:(discriminate)) as Hbody.
  destruct (split "<key>" body) as [|a [|y rest]]; simpl in Hk; try discriminate.
  pose proof (join_split "</key>" y ltac:(discriminate)) as Hy.
  destruct (split "</key>" y) as [|k' rest']; simpl in Hk; [discriminate|].
  injection Hk as ->.
  exists a.
  change (join "<key>" (a :: y :: rest))
    with (a +:+ "<key>" +:+ join "<key>" (y :: rest)) in Hbody.
  assert (exists b1, y = k +:+ b1) as [b1 Hb1].
  { destruct rest' as [|z rest'].
    - exists "". cbn [join] in Hy. rewrite string_app_nil_r. auto.
    - exists ("</key>" +:+ join "</key>" (z :: rest')). exact (eq_sym Hy). }
  assert (exists b2, join "<key>" (y :: rest) = y +:+ b2) as [b2 Hb2].
  { destruct rest as [|z rest].
    - exists "". cbn [join]. rewrite string_app_nil_r. reflexivity.
    - exists ("<key>" +:+ join "<key>" (z :: rest)). reflexivity. }
  exists (b1 +:+ b2). rewrite <- Hbody, Hb2, Hb1.
  rewrite string_app_assoc. reflexivity.
Qed.

Lemma extract_key_stands_after_marker_witness :
  exists a b,
    "<response status = 'success'><result><key>LUFRPT1=</key></result></response>"
    = a +:+ "<key>" +:+ "LUFRPT1=" +:+ b.
Proof.
  apply (extract_key_stands_after_marker
           "<response status = 'success'><result><key>LUFRPT1=</key></result></response>"
           "LUFRPT1=").
  vm_compute. reflexivity.
Defined.

(** ** Counting in traces *)

Lemma updates_of_app (b : bar) (tr1 tr2 : list event) :
  updates_of b (tr1 ++ tr2) = (updates_of b tr1 + updates_of b tr2)%nat.
Proof. unfold updates_of. rewrite filter_app, length_app. reflexivity. Qed.

(** Evaluates [f] on the traces that are written out. *)
Ltac count_in f :=
  repeat match goal with
  | |- context [f (?a :: ?l)] =>
      let v := eval vm_compute in (f (a :: l)) in
      change (f (a :: l)) with v
  | H : context [f (?a :: ?l)] |- _ =>
      let v := eval vm_compute in (f (a :: l)) in
      change (f (a :: l)) with v in H
  end.

Ltac count :=
  cbn [out vars fst snd] in *;
  rewrite ?requests_sent_app, ?slept_app, ?triggers_sent_app in *;
  count_in requests_sent; count_in slept; count_in triggers_sent.

Ltac count_updates b :=
  cbn [out vars fst snd] in *;
  rewrite ?updates_of_app in *; count_in (updates_of b).

(** ** Further properties of [get_api_key]: its lists and its exits *)

Section GetApiKeyLists.
Variable net : network.

Lemma get_api_key_loop_aligned (devs : list Device) :
  forall m : machine HA.state,
    wp (for_each devs (HA.get_api_key_device net))
      (fun r m' =>
         r <> OutOfFuel /\ exists ks, keys_appended (length devs) m m' ks) m.
Proof.
  unfold wp, keys_appended.
  induction devs as [|d devs IH]; intros m.
  - split; [discriminate|].
    exists []. simpl. rewrite !app_nil_r. repeat split; lia.
  - cbn [for_each]. unfold bind.
    pose proof (get_api_key_device_run net d m) as Hd.
    destruct (keygen_outcome_at net (requests_sent (out m)) d) as [k| |e].
    + rewrite Hd.
      match goal with
      | |- context [for_each devs _ ?m1] =>
          destruct (IH m1) as (Hfuel & ks & Hx & Hr & Hlen & Hup & Hreq)
      end.
      split; [exact Hfuel|].
      exists (k :: ks). cbn [vars out HA.api_keys_list HA.rest_api_keys_list
                             HA.set_api_keys_list HA.set_rest_api_keys_list] in *.
      rewrite Hx, Hr, Hup. rewrite <- !app_assoc.
      rewrite updates_of_app. rewrite requests_sent_app in Hreq.
      change (updates_of get_api_keys
                [Request (HA.keygen_request d); Update get_api_keys 1]) with 1%nat.
      change (requests_sent
                [Request (HA.keygen_request d); Update get_api_keys 1]) with 1%nat in Hreq.
      cbn [length map app]. repeat split; try lia.
    + destruct Hd as (lvl & t & args & Hd). rewrite Hd.
      match goal with
      | |- context [for_each devs _ ?m1] =>
          destruct (IH m1) as (Hfuel & ks & Hx & Hr & Hlen & Hup & Hreq)
      end.
      split; [exact Hfuel|].
      exists ks. cbn [vars out] in *.
      rewrite Hx, Hr, Hup.
      rewrite updates_of_app. rewrite requests_sent_app in Hreq.
      change (updates_of get_api_keys
                [Request (HA.keygen_request d); Log lvl t args]) with 0%nat.
      change (requests_sent
                [Request (HA.keygen_request d); Log lvl t args]) with 1%nat in Hreq.
      cbn [length]. repeat split; try lia.
    + rewrite Hd. split; [discriminate|].
      exists []. cbn [vars out fst snd map length].
      rewrite !app_nil_r, updates_of_app, requests_sent_app.
      change (updates_of get_api_keys [Request (HA.keygen_request d)]) with 0%nat.
      change (requests_sent [Request (HA.keygen_request d)]) with 1%nat.
      repeat split; lia.
Qed.

(** The loop when the request of device [i] ends it: the devices
    before [i] were asked, device [i] was asked, no other one. *)
Lemma get_api_key_loop_aborts (devs : list Device) :
  forall (m : machine HA.state) (i : nat) (d : Device) (e : exn),
    devs !! i = Some d ->
    (forall q d', (q < i)%nat -> devs !! q = Some d' ->
       keygen_goes_on net (requests_sent (out m) + q) d') ->
    keygen_outcome_at net (requests_sent (out m) + i) d = KeyAborts e ->
    fst (for_each devs (HA.get_api_key_device net) m) = Raised e /\
    requests_sent (out (snd (for_each devs (HA.get_api_key_device net) m)))
    = (requests_sent (out m) + S i)%nat.
Proof.
  induction devs as [|d0 devs IH]; intros m i d e Hi Hbefore Hat.
  - discriminate.
  - cbn [for_each]. unfold bind.
    pose proof (get_api_key_device_run net d0 m) as Hd.
    destruct i as [|i].
    + injection Hi as ->. rewrite Nat.add_0_r in Hat. rewrite Hat in Hd.
      rewrite Hd. cbn [fst snd out]. rewrite requests_sent_app.
      split; [reflexivity|]. reflexivity.
    + assert (forall m1,
                requests_sent (out m1) = S (requests_sent (out m)) ->
                fst (for_each devs (HA.get_api_key_device net) m1) = Raised e /\
                requests_sent
                  (out (snd (for_each devs (HA.get_api_key_device net) m1)))
                = (requests_sent (out m) + S (S i))%nat) as Hrest.
      { intros m1 Hm1.
        destruct (IH m1 i d e Hi) as [Hr Hn].
        - intros q d' Hq Hd'. rewrite Hm1.
          replace (S (requests_sent (out m)) + q)%nat
            with (requests_sent (out m) + S q)%nat by lia.
          apply Hbefore; [lia|exact Hd'].
        - rewrite Hm1.
          replace (S (requests_sent (out m)) + i)%nat
            with (requests_sent (out m) + S i)%nat by lia.
          exact Hat.
        - split; [exact Hr|]. rewrite Hn, Hm1. lia. }
      pose proof (Hbefore 0%nat d0 ltac:(lia) eq_refl) as Hgo.
      rewrite Nat.add_0_r in Hgo. unfold keygen_goes_on in Hgo.
      destruct (keygen_outcome_at net (requests_sent (out m)) d0) as [k| |e0].
      * rewrite Hd. apply Hrest. count. lia.
      * destruct Hd as (lvl & t & args & Hd). rewrite Hd.
        apply Hrest. count. lia.
      * exfalso. apply (Hgo e0). reflexivity.
Qed.
End GetApiKeyLists.

(** X2.  [get_api_key] keeps its two lists of headers aligned, whether it
    returns or raises: both have grown by the headers of the same keys, in
    the same order, at most one key per device; the progress bar was
    updated once per key, and at most one request per device went out. *)
Theorem get_api_key_keeps_key_lists_aligned
  (net : network) (m : machine HA.state) :
  wp (HA.get_api_key net)
    (fun r m' =>
       (exists ks,
          keys_appended (length (HA.pa_credentials (vars m))) m m' ks) /\
       match r with
       | Ok keys => keys = HA.api_keys_list (vars m')
       | Raised _ => True
       | OutOfFuel => False
       end) m.
Proof.
  unfold HA.get_api_key. apply wp_bind, wp_read. cbn beta iota.
  apply wp_bind. eapply wp_mono; [|apply get_api_key_loop_aligned].
  intros [[]|e|] m1 [Hfuel Hks]; cbn beta iota; [|auto|congruence].
  apply wp_bind, wp_read. cbn beta iota. apply wp_ret. auto.
Qed.

(** X3.  [get_api_key] catches only [RequestException].  When the request of
    device [i] ends otherwise (another exception, or a reply with status
    200 and no key in its body, which raises [IndexError]) and the requests
    before it let the loop go on, the method raises: device [i] is the last
    one that was asked. *)
Theorem get_api_key_stops_at_first_abort
  (net : network) (creds : list Device) (i : nat) (d : Device) (e : exn) :
  creds !! i = Some d ->
  (forall q d', (q < i)%nat -> creds !! q = Some d' -> keygen_goes_on net q d') ->
  keygen_outcome_at net i d = KeyAborts e ->
  fst (HA.get_api_key net (HA.init creds)) = Raised e /\
  requests_sent (out (snd (HA.get_api_key net (HA.init creds)))) = S i.
Proof.
  intros Hi Hbefore Hat.
  destruct (get_api_key_loop_aborts net creds (HA.init creds) i d e Hi)
    as [Hr Hn]; [exact Hbefore|exact Hat|].
  unfold HA.get_api_key, bind, read. simpl.
  destruct (for_each creds (HA.get_api_key_device net) (HA.init creds))
    as [[[]|e0|] m1]; cbn [fst snd] in *; try discriminate.
  injection Hr as ->. split; [reflexivity|exact Hn].
Qed.

Lemma get_api_key_stops_at_first_abort_witness :
  fst (HA.get_api_key net_keygen_without_key (HA.init [fw1; fw2]))
  = Raised IndexError /\
  requests_sent
    (out (snd (HA.get_api_key net_keygen_without_key (HA.init [fw1; fw2]))))
  = 1%nat.
Proof.
  apply (get_api_key_stops_at_first_abort
           net_keygen_without_key [fw1; fw2] 0%nat fw1 IndexError).
  - reflexivity.
  - intros q d' Hq. lia.
  - vm_compute. reflexivity.
Defined.

(** ** [enable_HA_interfaces] and [ha_configuration] *)

Section HaLoops.
Variable net : network.
Variable format : string -> list (string * string) -> string + exn.
Variable pa_ha_config_tmp : string.
Variable pa_ha_int_tmp : string.

(** The body of the loop of [enable_HA_interfaces] returns whatever
    the replies are, and assigns nothing. *)
Lemma enable_HA_interfaces_device_returns (dh : Device * Headers)
  (m : machine HA.state) :
  wp (HA.enable_HA_interfaces_device net dh)
    (fun r m' => r = Ok tt /\ vars m' = vars m) m.
Proof.
  unfold HA.enable_HA_interfaces_device. wp_steps; auto.
Qed.

(** So does the body of the loop of [ha_configuration]. *)
Lemma ha_configuration_device_returns (idh : nat * (Device * Headers))
  (m : machine HA.state) :
  wp (HA.ha_configuration_device net format pa_ha_config_tmp pa_ha_int_tmp idh)
    (fun r m' => r = Ok tt /\ vars m' = vars m) m.
Proof.
  unfold HA.ha_configuration_device, HA.index, HA.formatted.
  wp_steps; auto.
Qed.

(** Both loops return and leave the object as it is. *)
Lemma interface_loop_returns (pairs : list (Device * Headers))
  (m : machine HA.state) :
  wp (for_each pairs (HA.enable_HA_interfaces_device net))
    (fun r m' => r = Ok tt /\ vars m' = vars m) m.
Proof.
  apply wp_for_each with (I := fun m1 => vars m1 = vars m); auto.
  intros x m1 _ Hm1.
  eapply wp_mono; [|apply enable_HA_interfaces_device_returns].
  intros r m2 [-> Hm2]. congruence.
Qed.

Lemma ha_loop_returns (pairs : list (nat * (Device * Headers)))
  (m : machine HA.state) :
  wp (for_each pairs
        (HA.ha_configuration_device net format pa_ha_config_tmp pa_ha_int_tmp))
    (fun r m' => r = Ok tt /\ vars m' = vars m) m.
Proof.
  apply wp_for_each with (I := fun m1 => vars m1 = vars m); auto.
  intros x m1 _ Hm1.
  eapply wp_mono; [|apply ha_configuration_device_returns].
  intros r m2 [-> Hm2]. congruence.
Qed.
End HaLoops.

Lemma enable_then_commit (net : network) (fuel : nat) (m : machine HA.state) :
  wp (HA.enable_HA_interfaces net fuel) (never_raises (fun _ => True)) m.
Proof.
  unfold HA.enable_HA_interfaces. apply wp_bind, wp_read. cbn beta iota.
  apply wp_bind. eapply wp_mono; [|apply interface_loop_returns].
  intros r m1 [-> Hm1].
  eapply wp_mono; [|apply (commit_changes_inv net _ commit_interfaces fuel m1 eq_refl)].
  intros [[]|e|] m2; cbn; auto.
Qed.

Lemma configure_then_commit
  (net : network) (format : string -> list (string * string) -> string + exn)
  (pa_ha_config_tmp pa_ha_int_tmp : string)
  (fuel : nat) (m : machine HA.state) :
  wp (HA.ha_configuration net format pa_ha_config_tmp pa_ha_int_tmp fuel)
    (never_raises (fun _ => True)) m.
Proof.
  unfold HA.ha_configuration. apply wp_bind, wp_read. cbn beta iota.
  apply wp_bind. eapply wp_mono; [|apply ha_loop_returns].
  intros r m1 [-> Hm1].
  eapply wp_mono; [|apply (commit_changes_inv net _ commit_ha fuel m1 eq_refl)].
  intros [[]|e|] m2; cbn; auto.
Qed.

(** X4.  [enable_HA_interfaces] never raises, whatever the firewalls answer:
    every exception of the interface requests is caught per device, and
    the commit that follows catches its own.  When it ends, what holds of
    every state of [commit_changes] holds. *)
Theorem enable_HA_interfaces_never_raises
  (net : network) (fuel : nat) (m : machine HA.state) :
  wp (HA.enable_HA_interfaces net fuel)
    (never_raises (commit_inv (HA.pa_credentials (vars m)))) m.
Proof.
  unfold HA.enable_HA_interfaces. apply wp_bind, wp_read. cbn beta iota.
  apply wp_bind. eapply wp_mono; [|apply interface_loop_returns].
  intros r m1 [-> Hm1]. apply commit_changes_inv. rewrite Hm1. reflexivity.
Qed.

(** X5.  [ha_configuration] never raises either: an index out of range, a
    template that does not take the fields, a request that fails are all
    caught per device, and the device is left as it is. *)
Theorem ha_configuration_never_raises
  (net : network) (format : string -> list (string * string) -> string + exn)
  (pa_ha_config_tmp pa_ha_int_tmp : string)
  (fuel : nat) (m : machine HA.state) :
  wp (HA.ha_configuration net format pa_ha_config_tmp pa_ha_int_tmp fuel)
    (never_raises (commit_inv (HA.pa_credentials (vars m)))) m.
Proof.
  unfold HA.ha_configuration. apply wp_bind, wp_read. cbn beta iota.
  apply wp_bind. eapply wp_mono; [|apply ha_loop_returns].
  intros r m1 [-> Hm1]. apply commit_changes_inv. rewrite Hm1. reflexivity.
Qed.

(** ** What the HA loops do for one device *)

(** X6.  [enable_HA_interfaces] sets two interfaces per device and looks at
    the status of the second reply only: when interface ethernet1/5 is
    accepted, the device counts as done (its reply is logged at level INFO
    and the progress bar is updated), whatever the status of the reply for
    ethernet1/4. *)
Theorem enable_HA_interfaces_checks_last_reply_only
  (net : network) (d : Device) (headers : Headers) (m : machine HA.state)
  (r4 r5 : response) :
  net (requests_sent (out m)) (HA.interface_request d headers "ethernet1/4")
    = Replies r4 ->
  net (S (requests_sent (out m))) (HA.interface_request d headers "ethernet1/5")
    = Replies r5 ->
  status_code r5 = 200%Z ->
  HA.enable_HA_interfaces_device net (d, headers) m
  = (Ok tt,
     Machine (vars m)
       (out m ++
        [Request (HA.interface_request d headers "ethernet1/4");
         Request (HA.interface_request d headers "ethernet1/5");
         Log INFO "{xml_response_control}" [AStr (text r5)];
         Update config_int 1])).
Proof.
  intros H4 H5 Hcode.
  unfold HA.enable_HA_interfaces_device, try_except, bind, http_get.
  cbn [fst snd vars out]. rewrite H4. cbn [vars out].
  rewrite requests_sent_app. count_in requests_sent.
  rewrite Nat.add_1_r, H5, Hcode. change (200 =? 200)%Z with true.
  unfold log, update, emit. cbn [vars out].
  rewrite <- !app_assoc. reflexivity.
Qed.

Lemma enable_HA_interfaces_checks_last_reply_only_witness :
  HA.enable_HA_interfaces_device net_first_interface_refused (fw1, key1)
    (ha_with [fw1; fw2] [key1; key2])
  = (Ok tt,
     Machine (vars (ha_with [fw1; fw2] [key1; key2]))
       (out (ha_with [fw1; fw2] [key1; key2]) ++
        [Request (HA.interface_request fw1 key1 "ethernet1/4");
         Request (HA.interface_request fw1 key1 "ethernet1/5");
         Log INFO "{xml_response_control}"
           [AStr "<response status='success' code='20'><msg>command succeeded</msg></response>"];
         Update config_int 1])).
Proof.
  apply (enable_HA_interfaces_checks_last_reply_only
           net_first_interface_refused fw1 key1 (ha_with [fw1; fw2] [key1; key2])
           {| status_code := 500; text := ""; xml := None |}
           {| status_code := 200;
              text := "<response status='success' code='20'><msg>command succeeded</msg></response>";
              xml := None |}); reflexivity.
Defined.

(** X7.  [ha_configuration] holds the settings of two devices.  For a device
    at index 2 or more whose basic HA request is accepted, [ha_configs[i]]
    raises [IndexError]: basic HA stays enabled on the device, no group and
    no interface setting is sent, the error is logged and the progress bar
    is not updated. *)
Theorem ha_configuration_leaves_third_device_half_configured
  (net : network) (format : string -> list (string * string) -> string + exn)
  (pa_ha_config_tmp pa_ha_int_tmp : string)
  (i : nat) (d : Device) (headers : Headers) (m : machine HA.state)
  (r : response) :
  (2 <= i)%nat ->
  net (requests_sent (out m))
    (HA.ha_request d headers
       "/config/devices/entry[@name='localhost.localdomain']/deviceconfig/high-availability"
       "<enabled>yes</enabled>" false)
    = Replies r ->
  status_code r = 200%Z ->
  HA.ha_configuration_device net format pa_ha_config_tmp pa_ha_int_tmp
    (i, (d, headers)) m
  = (Ok tt,
     Machine (vars m)
       (out m ++
        [Request
           (HA.ha_request d headers
              "/config/devices/entry[@name='localhost.localdomain']/deviceconfig/high-availability"
              "<enabled>yes</enabled>" false);
         Log INFO "Basic HA enabled on {device['host']}" [AStr (host d)];
         Log INFO "{response_basic.text}" [AStr (text r)];
         Log ERROR "Error configuring HA for {device['host']}: {e}"
           [AStr (host d); AExn IndexError]])).
Proof.
  intros Hi Hr Hcode.
  assert (nth_error HA.ha_configs i = None) as Hnone.
  { apply nth_error_None. cbn. lia. }
  unfold HA.ha_configuration_device, try_except, bind, http_get.
  cbn [fst snd vars out]. rewrite Hr, Hcode. change (200 =? 200)%Z with true.
  unfold log, emit, HA.index. cbn [vars out]. rewrite Hnone.
  unfold raise, any_exception. cbn [vars out].
  rewrite <- !app_assoc. reflexivity.
Qed.

Lemma ha_configuration_leaves_third_device_half_configured_witness :
  HA.ha_configuration_device net_first_interface_refused format_verbatim
    "<group/>" "<interface/>" (2%nat, (fw3, key3))
    (ha_with [fw1; fw2; fw3] [key1; key2; key3])
  = (Ok tt,
     Machine (vars (ha_with [fw1; fw2; fw3] [key1; key2; key3]))
       (out (ha_with [fw1; fw2; fw3] [key1; key2; key3]) ++
        [Request
           (HA.ha_request fw3 key3
              "/config/devices/entry[@name='localhost.localdomain']/deviceconfig/high-availability"
              "<enabled>yes</enabled>" false);
         Log INFO "Basic HA enabled on {device['host']}" [AStr (host fw3)];
         Log INFO "{response_basic.text}"
           [AStr "<response status='success' code='20'><msg>command succeeded</msg></response>"];
         Log ERROR "Error configuring HA for {device['host']}: {e}"
           [AStr (host fw3); AExn IndexError]])).
Proof.
  apply (ha_configuration_leaves_third_device_half_configured
           net_first_interface_refused format_verbatim "<group/>" "<interface/>"
           2 fw3 key3 (ha_with [fw1; fw2; fw3] [key1; key2; key3])
           {| status_code := 200;
              text := "<response status='success' code='20'><msg>command succeeded</msg></response>";
              xml := None |}); [lia|reflexivity|reflexivity].
Defined.

(** ** [commit_changes] of the HA class: rounds that end the monitoring *)

Section FinishedJobs.
Variable net : network.
Variable progress_bar : bar.
Hypothesis Hnet : always_finished net.
Implicit Types m : machine HA.state.

(** One query of a finished job: the key is marked for removal, with
    no sleep, whatever the result of the job. *)
Lemma poll_job_finished (item : string * HA.job_info) m :
  wp (HA.poll_job net progress_bar item)
    (fun r m' =>
       r = Ok tt /\
       HA.jobid_dict (vars m') = HA.jobid_dict (vars m) /\
       HA.completed_jobs (vars m') = HA.completed_jobs (vars m) ++ [fst item] /\
       requests_sent (out m') = S (requests_sent (out m)) /\
       slept (out m') = slept (out m)) m.
Proof.
  destruct (Hnet (requests_sent (out m)) (HA.job_request (snd item))
              (HA.ji_jobid (snd item)) eq_refl)
    as (r & Hr & Hcode & root & job & Hxml & Hjob & Hstatus).
  unfold HA.poll_job. cbn zeta.
  apply wp_bind, wp_assign. cbn beta iota.
  apply wp_bind, wp_http_get; cbn [out vars]; intros r0 Hr0;
    rewrite Hr in Hr0; [injection Hr0 as <-|discriminate].
  rewrite Hcode. cbn beta iota.
  change (200 =? 200)%Z with true. cbn iota.
  apply wp_bind, wp_fromstring; [intros root0 Hroot0|congruence].
  rewrite Hxml in Hroot0. injection Hroot0 as <-.
  cbn beta iota. rewrite Hjob, Hstatus.
  change (opt_eqb (Some "FIN") "ACT") with false.
  change (opt_eqb (Some "FIN") "FIN") with true. cbn iota.
  destruct (opt_eqb (findtext "result" (Some "") job) "OK");
    wp_steps;
    cbn [vars out HA.jobid_dict HA.completed_jobs HA.set_completed_jobs
         HA.set_ready_devices HA.set_device];
    rewrite ?requests_sent_app, ?slept_app;
    count_in requests_sent; count_in slept;
    repeat split; lia.
Qed.

(** A round of queries: every key is marked. *)
Lemma poll_round_finished (items : list (string * HA.job_info)) :
  forall m,
    wp (for_each items (HA.poll_job net progress_bar))
      (fun r m' =>
         r = Ok tt /\
         HA.jobid_dict (vars m') = HA.jobid_dict (vars m) /\
         HA.completed_jobs (vars m') = HA.completed_jobs (vars m) ++ map fst items /\
         requests_sent (out m') = (requests_sent (out m) + length items)%nat /\
         slept (out m') = slept (out m)) m.
Proof.
  induction items as [|item items IH]; intros m; cbn [for_each].
  - apply wp_ret. cbn [map length]. rewrite app_nil_r. repeat split; lia.
  - apply wp_bind. eapply wp_mono; [|apply poll_job_finished].
    intros r m1 (-> & Hj & Hc & Hq & Hs).
    eapply wp_mono; [|apply IH].
    intros r m2 (-> & Hj2 & Hc2 & Hq2 & Hs2).
    rewrite Hj2, Hc2, Hq2, Hs2, Hj, Hc, Hq, Hs. cbn [map length].
    rewrite <- app_assoc. repeat split; lia.
Qed.
End FinishedJobs.

Section Removal.
Implicit Types m : machine HA.state.

(** Removing the keys of the registry, in its order, empties it. *)
Lemma remove_all (d : dict HA.job_info) :
  forall m,
    HA.jobid_dict (vars m) = d ->
    wp (for_each (map fst d) HA.remove_completed)
      (fun r m' =>
         r = Ok tt /\ HA.jobid_dict (vars m') = [] /\
         requests_sent (out m') = requests_sent (out m) /\
         slept (out m') = slept (out m)) m.
Proof.
  induction d as [|[k v] d IH]; intros m Hd; cbn [map for_each fst].
  - apply wp_ret. auto.
  - apply wp_bind. unfold HA.remove_completed.
    apply wp_bind, wp_read. cbn beta iota. rewrite Hd.
    cbn [dict_get]. rewrite String.eqb_refl.
    apply wp_bind, wp_emit. cbn beta iota.
    apply wp_assign. cbn [vars out].
    eapply wp_mono; [|apply IH].
    + intros r m2 (-> & Hj & Hq & Hs). cbn [out] in Hq, Hs.
      rewrite requests_sent_app in Hq. rewrite slept_app in Hs.
      count_in requests_sent. count_in slept.
      repeat split; auto; lia.
    + cbn [vars HA.jobid_dict HA.set_jobid_dict]. rewrite Hd.
      cbn [dict_del]. rewrite String.eqb_refl. reflexivity.
Qed.

(** With an empty registry the loop is not entered, whatever the
    fuel. *)
Lemma monitor_nothing_left (net : network) (progress_bar : bar) (fuel : nat) m :
  HA.jobid_dict (vars m) = [] ->
  HA.monitor net fuel progress_bar m = (Ok tt, m).
Proof.
  intros Hd. destruct fuel; cbn [HA.monitor]; rewrite bind_read, Hd; reflexivity.
Qed.
End Removal.

(** X9.  When every job query finds its job finished, with whatever result,
    the monitoring loop of [commit_changes] makes one round and returns:
    one query per registered job, no sleep, and the registry is empty.
    A failed job ends the monitoring like a successful one. *)
Theorem monitor_finishes_in_one_round
  (net : network) (progress_bar : bar) (fuel : nat) (m : machine HA.state) :
  always_finished net ->
  wp (HA.monitor net (S fuel) progress_bar)
    (fun r m' =>
       r = Ok tt /\ HA.jobid_dict (vars m') = [] /\
       requests_sent (out m') =
         (requests_sent (out m) + length (HA.jobid_dict (vars m)))%nat /\
       slept (out m') = slept (out m)) m.
Proof.
  intros Hnet. rewrite monitor_S.
  apply wp_bind, wp_read. cbn beta iota.
  destruct (HA.jobid_dict (vars m)) as [|item0 items] eqn:Hjobs.
  { apply wp_ret. cbn [length]. repeat split; auto; lia. }
  apply wp_bind, wp_assign. cbn beta iota.
  apply wp_bind. eapply wp_mono; [|apply (poll_round_finished net progress_bar Hnet)].
  intros r m1 (-> & Hj & Hc & Hq & Hs).
  cbn [vars out HA.jobid_dict HA.completed_jobs HA.set_completed_jobs] in Hj, Hc, Hq, Hs.
  apply wp_bind, wp_read. cbn beta iota. rewrite Hc. cbn [app].
  apply wp_bind. eapply wp_mono; [|apply (remove_all (item0 :: items))].
  - intros r m2 (-> & Hj2 & Hq2 & Hs2).
    apply wp_bind, wp_read. cbn beta iota.
    destruct (size (HA.ready_devices (vars m2)) =? length (HA.pa_credentials (vars m2)))%nat.
    + apply wp_emit. cbn [vars out]. rewrite requests_sent_app, slept_app.
      count_in requests_sent. count_in slept.
      rewrite Hq2, Hs2, Hq, Hs. repeat split; auto; lia.
    + apply wp_bind, wp_emit. cbn beta iota.
      unfold wp. rewrite monitor_nothing_left by exact Hj2.
      cbn [fst snd vars out]. rewrite requests_sent_app, slept_app.
      count_in requests_sent. count_in slept.
      rewrite Hq2, Hs2, Hq, Hs. repeat split; auto; lia.
  - rewrite Hj, Hjobs. reflexivity.
Qed.

Lemma net_jobs_failed_finished : always_finished net_jobs_failed.
Proof.
  intros k rq j Hop. unfold net_jobs_failed. rewrite Hop.
  eexists. split; [reflexivity|]. split; [reflexivity|].
  do 2 eexists. repeat split; reflexivity.
Qed.

Lemma monitor_finishes_in_one_round_witness :
  wp (HA.monitor net_jobs_failed 1 commit_ha)
    (fun r m' =>
       r = Ok tt /\ HA.jobid_dict (vars m') = [] /\
       requests_sent (out m') =
         (requests_sent (out (after_step1 net_jobs_failed [fw1; fw2] [key1; key2])) +
          length (HA.jobid_dict
                    (vars (after_step1 net_jobs_failed [fw1; fw2] [key1; key2]))))%nat /\
       slept (out m') =
         slept (out (after_step1 net_jobs_failed [fw1; fw2] [key1; key2])))
    (after_step1 net_jobs_failed [fw1; fw2] [key1; key2]).
Proof.
  apply (monitor_finishes_in_one_round net_jobs_failed commit_ha 0).
  exact net_jobs_failed_finished.
Defined.

(** ** [commit_changes] of the HA class: no commit accepted *)

Section RefusedCommits.
Variable net : network.
Hypothesis Hnet : commit_refused net.
Implicit Types m : machine HA.state.

Lemma start_commit_refused (dh : Device * Headers) m :
  exists tr,
    HA.start_commit net dh m =
    (Ok tt, Machine (HA.set_device (Some (fst dh)) (vars m)) (out m ++ tr)) /\
    requests_sent tr = 1%nat /\ slept tr = 0%Z.
Proof.
  pose proof (Hnet (requests_sent (out m))
                (HA.commit_request (fst dh) (snd dh)) eq_refl) as Hr.
  unfold HA.start_commit, bind, assign, try_except, http_get.
  cbn [vars out fst snd].
  destruct (net (requests_sent (out m)) (HA.commit_request (fst dh) (snd dh)))
    as [r|e].
  - apply Z.eqb_neq in Hr. rewrite Hr.
    exists [Request (HA.commit_request (fst dh) (snd dh))].
    repeat split; reflexivity.
  - exists [Request (HA.commit_request (fst dh) (snd dh));
            Log DEBUG "Error committing changes for {device['host']}: {e}"
              [AStr (host (fst dh)); AExn e]].
    unfold any_exception, log, emit. cbn [vars out].
    rewrite <- app_assoc. repeat split; reflexivity.
Qed.

Lemma start_commits_refused (pairs : list (Device * Headers)) :
  forall m, exists m' tr,
    for_each pairs (HA.start_commit net) m = (Ok tt, m') /\
    HA.jobid_dict (vars m') = HA.jobid_dict (vars m) /\
    out m' = out m ++ tr /\
    requests_sent tr = length pairs /\ slept tr = 0%Z.
Proof.
  induction pairs as [|dh pairs IH]; intros m; cbn [for_each].
  - exists m, []. rewrite app_nil_r. repeat split; reflexivity.
  - destruct (start_commit_refused dh m) as (tr1 & Hrun1 & Hq1 & Hs1).
    unfold bind. rewrite Hrun1.
    match goal with
    | |- context [for_each pairs _ ?m1] =>
        destruct (IH m1) as (m' & tr2 & Hrun2 & Hj & Hout & Hq2 & Hs2)
    end.
    exists m', (tr1 ++ tr2). rewrite Hrun2. cbn [vars out] in Hj, Hout.
    rewrite Hj, Hout, requests_sent_app, slept_app, Hq1, Hq2, Hs1, Hs2.
    rewrite <- app_assoc. cbn [length]. repeat split; reflexivity.
Qed.
End RefusedCommits.

(** X10.  When no commit is accepted (every commit request is answered with a
    status other than 200, or raises), [commit_changes] sends one commit
    request per pair of the zip, records "No commit jobs started" and
    returns: it queries no job and does not sleep, for any fuel. *)
Theorem ha_commit_changes_without_jobs
  (net : network) (fuel : nat) (progress_bar : bar) (m : machine HA.state) :
  commit_refused net ->
  wp (HA.commit_changes net fuel progress_bar)
    (fun r m' =>
       r = Ok tt /\
       exists tr,
         out m' = out m ++ tr ++ [Log ERROR "No commit jobs started" []] /\
         requests_sent tr =
           length (zip (HA.pa_credentials (vars m)) (HA.api_keys_list (vars m))) /\
         slept tr = 0%Z) m.
Proof.
  intros Hnet. unfold HA.commit_changes, HA.start_commits.
  apply wp_bind.
  do 4 (apply wp_bind, wp_assign; cbn beta iota).
  apply wp_bind, wp_read. cbn [vars out].
  match goal with
  | |- wp (for_each ?l _) _ ?m0 =>
      destruct (start_commits_refused net Hnet l m0)
        as (m' & tr & Hrun & Hj & Hout & Hq & Hs)
  end.
  unfold wp at 1. rewrite Hrun. cbn [fst snd].
  unfold HA.monitor_jobs. apply wp_bind, wp_read. cbn beta iota.
  rewrite Hj. cbn [vars HA.jobid_dict HA.set_ready_devices HA.set_jobid_dict].
  apply wp_emit. split; [reflexivity|].
  exists tr. cbn [out] in *. rewrite Hout, <- app_assoc.
  repeat split; auto.
Qed.

Lemma net_commit_times_out_refused : commit_refused net_commit_times_out.
Proof.
  intros k rq Hop. unfold net_commit_times_out. rewrite Hop. exact I.
Qed.

Lemma ha_commit_changes_without_jobs_witness :
  wp (HA.commit_changes net_commit_times_out 0 commit_ha)
    (fun r m' =>
       r = Ok tt /\
       exists tr,
         out m' = out (ha_with [fw1; fw2] [key1; key2]) ++ tr ++
                  [Log ERROR "No commit jobs started" []] /\
         requests_sent tr =
           length (zip (HA.pa_credentials (vars (ha_with [fw1; fw2] [key1; key2])))
                     (HA.api_keys_list (vars (ha_with [fw1; fw2] [key1; key2])))) /\
         slept tr = 0%Z)
    (ha_with [fw1; fw2] [key1; key2]).
Proof.
  apply (ha_commit_changes_without_jobs net_commit_times_out 0 commit_ha).
  exact net_commit_times_out_refused.
Defined.

(** ** [commit_changes] of the HA class: when the progress bar moves *)




Section BarBalance.
Variable net : network.
Variable progress_bar : bar.
Variable c : Z.
Implicit Types s : machine HA.state.





End BarBalance.


(** ** [get_active_fw]: which device it takes *)

Section FindActive.
Variable net : network.
Implicit Types m : machine Config.state.

(** A device that is not active is passed over. *)
Lemma find_active_next (d : Device) (h : Headers)
  (rest : list (Device * Headers)) m :
  not_active (net (requests_sent (out m)) (Config.ha_state_request d h None)) ->
  exists tr,
    Config.find_active net ((d, h) :: rest) m =
    Config.find_active net rest (Machine (vars m) (out m ++ tr)) /\
    requests_sent tr = 1%nat.
Proof.
  intros Hna. cbn [Config.find_active].
  unfold bind, http_get, fromstring, ret, log, emit.
  destruct (net (requests_sent (out m)) (Config.ha_state_request d h None))
    as [resp|e]; [|contradiction].
  destruct Hna as [Hcode|(root & st & Hcode & Hxml & Hst & Htext)].
  - apply Z.eqb_neq in Hcode. rewrite Hcode. cbn [vars out].
    exists [Request (Config.ha_state_request d h None);
            Log ERROR "Failed to get HA state for {device['host']}: {response_ha_state.status_code}"
              [AStr (host d); AInt (status_code resp)]].
    rewrite <- app_assoc. split; reflexivity.
  - rewrite Hcode. change (200 =? 200)%Z with true. cbv iota.
    rewrite Hxml, Hst, Htext.
    exists [Request (Config.ha_state_request d h None)].
    split; reflexivity.
Qed.

(** The devices before the first active one are passed over. *)
Lemma find_active_skips (before rest : list (Device * Headers)) :
  forall m,
    (forall q d h, before !! q = Some (d, h) ->
       not_active (net (requests_sent (out m) + q)
                     (Config.ha_state_request d h None))) ->
    exists tr,
      Config.find_active net (before ++ rest) m =
      Config.find_active net rest (Machine (vars m) (out m ++ tr)) /\
      requests_sent tr = length before.
Proof.
  induction before as [|[d h] before IH]; intros m Hna.
  - exists []. rewrite app_nil_r. destruct m. split; reflexivity.
  - destruct (find_active_next d h (before ++ rest) m) as (tr1 & Hrun1 & Hq1).
    { specialize (Hna 0%nat d h eq_refl). rewrite Nat.add_0_r in Hna. exact Hna. }
    destruct (IH (Machine (vars m) (out m ++ tr1))) as (tr2 & Hrun2 & Hq2).
    { intros q dq hq Hq. cbn [out]. rewrite requests_sent_app, Hq1.
      replace (requests_sent (out m) + 1 + q)%nat
        with (requests_sent (out m) + S q)%nat by lia.
      apply Hna. exact Hq. }
    exists (tr1 ++ tr2). cbn [app]. rewrite Hrun1, Hrun2. cbn [vars out].
    rewrite app_assoc, requests_sent_app, Hq1, Hq2. split; reflexivity.
Qed.

(** An active device is taken, and ends the loop. *)
Lemma find_active_takes (d : Device) (h : Headers)
  (rest : list (Device * Headers)) m :
  active (net (requests_sent (out m)) (Config.ha_state_request d h None)) ->
  Config.find_active net ((d, h) :: rest) m =
  (Ok tt,
   Machine
     (Config.set_active_fw_headers (Config.active_fw_headers (vars m) ++ [h])
        (Config.set_active_fw_list (Config.active_fw_list (vars m) ++ [d])
           (vars m)))
     (out m ++ [Request (Config.ha_state_request d h None); Update get_act_fw 1])).
Proof.
  intros Hact. cbn [Config.find_active].
  unfold bind, http_get, fromstring, ret, assign, update, emit.
  destruct (net (requests_sent (out m)) (Config.ha_state_request d h None))
    as [resp|e]; [|contradiction].
  destruct Hact as (Hcode & root & st & Hxml & Hst & Htext).
  rewrite Hcode. change (200 =? 200)%Z with true. cbv iota.
  rewrite Hxml, Hst, Htext. cbn [vars out opt_eqb].
  change ("active" =? "active")%string with true. cbv iota.
  cbn [vars out]. rewrite <- app_assoc. reflexivity.
Qed.
End FindActive.

(** X13.  [get_active_fw] takes the first device of the zip that reports the
    state "active" and stops there: it appends that device and its headers
    to the two lists, returns them, and does not query the devices after
    it. *)
Theorem get_active_fw_takes_first_active
  (net : network) (m : machine Config.state)
  (before after : list (Device * Headers)) (d : Device) (h : Headers) :
  zip (Config.pa_credentials (vars m)) (Config.api_keys_list (vars m))
    = before ++ (d, h) :: after ->
  (forall q dq hq, before !! q = Some (dq, hq) ->
     not_active (net (requests_sent (out m) + q)
                   (Config.ha_state_request dq hq None))) ->
  active (net (requests_sent (out m) + length before)
            (Config.ha_state_request d h None)) ->
  wp (Config.get_active_fw net)
    (fun r m' =>
       r = Ok (Some (Config.active_fw_list (vars m) ++ [d],
                     Config.active_fw_headers (vars m) ++ [h])) /\
       Config.active_fw_list (vars m') = Config.active_fw_list (vars m) ++ [d] /\
       Config.active_fw_headers (vars m') = Config.active_fw_headers (vars m) ++ [h] /\
       requests_sent (out m') = (requests_sent (out m) + length before + 1)%nat) m.
Proof.
  intros Hzip Hbefore Hact.
  destruct (find_active_skips net before ((d, h) :: after) m Hbefore)
    as (tr & Hskip & Hq).
  pose proof (find_active_takes net d h after (Machine (vars m) (out m ++ tr))) as Htake.
  cbn [vars out] in Htake. rewrite requests_sent_app, Hq in Htake.
  specialize (Htake Hact).
  assert (exists m',
            Config.get_active_fw net m
            = (Ok (Some (Config.active_fw_list (vars m) ++ [d],
                         Config.active_fw_headers (vars m) ++ [h])), m') /\
            Config.active_fw_list (vars m') = Config.active_fw_list (vars m) ++ [d] /\
            Config.active_fw_headers (vars m') = Config.active_fw_headers (vars m) ++ [h] /\
            exists tr', out m' = (out m ++ tr) ++ tr' /\ requests_sent tr' = 1%nat)
    as (m' & Hrun & Hl & Hh & tr' & Hout & Hq').
  { unfold Config.get_active_fw, try_except. rewrite bind_read, Hzip.
    unfold bind at 1. rewrite Hskip, Htake.
    eexists. split; [reflexivity|]. split; [reflexivity|]. split; [reflexivity|].
    cbn [out]. rewrite <- app_assoc. eexists. split; [reflexivity|].
    reflexivity. }
  unfold wp. rewrite Hrun. cbn [fst snd].
  rewrite Hout, !requests_sent_app, Hq, Hq'. auto.
Qed.

Lemma get_active_fw_takes_first_active_witness :
  wp (Config.get_active_fw net_second_active)
    (fun r m' =>
       r = Ok (Some (Config.active_fw_list (vars (config_with [] [])) ++ [fw2],
                     Config.active_fw_headers (vars (config_with [] [])) ++ [key2])) /\
       Config.active_fw_list (vars m') =
         Config.active_fw_list (vars (config_with [] [])) ++ [fw2] /\
       Config.active_fw_headers (vars m') =
         Config.active_fw_headers (vars (config_with [] [])) ++ [key2] /\
       requests_sent (out m') =
         (requests_sent (out (config_with [] [])) + length [(fw1, key1)] + 1)%nat)
    (config_with [] []).
Proof.
  apply (get_active_fw_takes_first_active net_second_active (config_with [] [])
           [(fw1, key1)] [] fw2 key2).
  - reflexivity.
  - intros [|q] dq hq Hq; [|destruct q; discriminate].
    injection Hq as <- <-. right.
    do 2 eexists. repeat split; reflexivity.
  - split; [reflexivity|]. do 2 eexists. repeat split; reflexivity.
Defined.

(** X14.  When no device reports "active" (every reply has a status other
    than 200 or names another state), [get_active_fw] queries every pair
    of the zip, leaves the two lists as they were and returns them: it
    returns normally with no active firewall. *)
Theorem get_active_fw_finds_none
  (net : network) (m : machine Config.state) :
  (forall q d h,
     zip (Config.pa_credentials (vars m)) (Config.api_keys_list (vars m)) !! q
       = Some (d, h) ->
     not_active (net (requests_sent (out m) + q)
                   (Config.ha_state_request d h None))) ->
  wp (Config.get_active_fw net)
    (fun r m' =>
       r = Ok (Some (Config.active_fw_list (vars m),
                     Config.active_fw_headers (vars m))) /\
       vars m' = vars m /\
       requests_sent (out m') =
         (requests_sent (out m) +
          length (zip (Config.pa_credentials (vars m))
                    (Config.api_keys_list (vars m))))%nat) m.
Proof.
  intros Hnone.
  destruct (find_active_skips net _ [] m Hnone) as (tr & Hskip & Hq).
  rewrite app_nil_r in Hskip.
  assert (exists m',
            Config.get_active_fw net m
            = (Ok (Some (Config.active_fw_list (vars m),
                         Config.active_fw_headers (vars m))), m') /\
            vars m' = vars m /\
            exists tr', out m' = (out m ++ tr) ++ tr' /\ requests_sent tr' = 0%nat)
    as (m' & Hrun & Hv & tr' & Hout & Hq').
  { unfold Config.get_active_fw, try_except. rewrite bind_read.
    unfold bind at 1. rewrite Hskip. cbn [Config.find_active].
    eexists. split; [reflexivity|]. split; [reflexivity|].
    cbn [out]. eexists. split; [reflexivity|]. reflexivity. }
  unfold wp. rewrite Hrun. cbn [fst snd].
  rewrite Hout, !requests_sent_app, Hq, Hq'. repeat split; auto; lia.
Qed.

Lemma get_active_fw_finds_none_witness :
  wp (Config.get_active_fw net_both_passive)
    (fun r m' =>
       r = Ok (Some (Config.active_fw_list (vars (config_with [] [])),
                     Config.active_fw_headers (vars (config_with [] [])))) /\
       vars m' = vars (config_with [] []) /\
       requests_sent (out m') =
         (requests_sent (out (config_with [] [])) +
          length (zip (Config.pa_credentials (vars (config_with [] [])))
                    (Config.api_keys_list (vars (config_with [] [])))))%nat)
    (config_with [] []).
Proof.
  apply (get_active_fw_finds_none net_both_passive (config_with [] [])).
  intros q d h Hq. right. do 2 eexists. repeat split; reflexivity.
Defined.

(** X15.  [get_active_fw] catches only [RequestException].  A reply with
    status 200 whose body is not XML, or whose document has no [state]
    element, makes the method raise ([ParseError], [AttributeError]) at
    the first device that sends it. *)
Theorem get_active_fw_raises_on_unreadable_state
  (net : network) (m : machine Config.state)
  (d : Device) (h : Headers) (rest : list (Device * Headers))
  (r : response) (e : exn) :
  zip (Config.pa_credentials (vars m)) (Config.api_keys_list (vars m))
    = (d, h) :: rest ->
  net (requests_sent (out m)) (Config.ha_state_request d h None) = Replies r ->
  status_code r = 200%Z ->
  (xml r = None /\ e = ParseError) \/
  (exists root, xml r = Some root /\ find_desc "state" root = None /\
                e = AttributeError) ->
  Config.get_active_fw net m
  = (Raised e,
     Machine (vars m) (out m ++ [Request (Config.ha_state_request d h None)])).
Proof.
  intros Hzip Hr Hcode Hdoc.
  unfold Config.get_active_fw, try_except. rewrite bind_read, Hzip.
  cbn [Config.find_active].
  unfold bind, http_get, fromstring, ret, raise.
  rewrite Hr, Hcode. change (200 =? 200)%Z with true. cbv iota.
  destruct Hdoc as [[Hxml ->]|(root & Hxml & Hst & ->)]; rewrite Hxml.
  - reflexivity.
  - rewrite Hst. reflexivity.
Qed.

Lemma get_active_fw_raises_on_unreadable_state_witness :
  Config.get_active_fw net_ha_disabled (config_with [] [])
  = (Raised AttributeError,
     Machine (vars (config_with [] []))
       (out (config_with [] []) ++ [Request (Config.ha_state_request fw1 key1 None)])).
Proof.
  apply (get_active_fw_raises_on_unreadable_state net_ha_disabled (config_with [] [])
           fw1 key1 [(fw2, key2)]
           {| status_code := 200;
              text := "<response status='success'><result><enabled>no</enabled></result></response>";
              xml := Some (Elem "response" None
                             [Elem "result" None [Elem "enabled" (Some "no") []]]) |}
           AttributeError).
  - reflexivity.
  - reflexivity.
  - reflexivity.
  - right. eexists. repeat split; reflexivity.
Defined.

(** ** The configuration methods: which of them can raise *)

Ltac returned :=
  unfold returned_after; cbn [vars out] in *;
  rewrite ?requests_sent_app in *; count_in requests_sent;
  repeat split; try congruence; try lia.

(** X16.  The interface, zone, security-policy and source-NAT methods never
    raise, with or without an active firewall and whatever the firewall
    answers: each returns after at most one request and assigns
    nothing. *)
Theorem config_methods_never_raise (net : network) (m : machine Config.state) :
  wp (Config.act_fw_int_config net) (returned_after 1 m) m /\
  wp (Config.act_fw_zone_config net) (returned_after 1 m) m /\
  wp (Config.act_fw_security_policy_config net) (returned_after 1 m) m /\
  wp (Config.act_fw_source_nat_config net) (returned_after 1 m) m.
Proof.
  split; [|split; [|split]].
  - unfold Config.act_fw_int_config, Config.active_fw. wp_steps; returned.
  - unfold Config.act_fw_zone_config, Config.active_fw. wp_steps; returned.
  - unfold Config.act_fw_security_policy_config, Config.active_fw.
    wp_steps; returned.
  - unfold Config.act_fw_source_nat_config, Config.active_fw.
    wp_steps; returned.
Qed.

(** X17.  [act_fw_route_config] raises exactly when there is no active
    firewall: with one, it returns after at most two requests whatever the
    firewall answers; with none, it raises [IndexError] before any
    request. *)
Theorem act_fw_route_config_raises_only_without_active_fw
  (net : network) (m : machine Config.state) :
  wp (Config.act_fw_route_config net)
    (fun r m' =>
       vars m' = vars m /\
       (requests_sent (out m') <= requests_sent (out m) + 2)%nat /\
       match r with
       | Ok _ => Config.active_fw_list (vars m) <> []
       | Raised e =>
           e = IndexError /\ Config.active_fw_list (vars m) = [] /\ out m' = out m
       | OutOfFuel => False
       end) m.
Proof.
  unfold Config.act_fw_route_config, Config.active_fw.
  wp_steps; cbn [vars out] in *;
    rewrite ?requests_sent_app in *; count_in requests_sent;
    repeat split; try congruence; try lia.
Qed.

Section ConfigCommitRaises.
Variable net : network.
Implicit Types m : machine Config.state.

(** The polling loop reads the object and assigns nothing. *)
Lemma poll_keeps_vars (fuel : nat) :
  forall m, wp (Config.poll net fuel) (always (fun m' => vars m' = vars m)) m.
Proof.
  induction fuel as [|fuel IH]; intros m; cbn [Config.poll];
    unfold Config.read_jobid, Config.active_fw;
    wp_steps;
    try (eapply wp_mono; [|apply IH]; cbn beta; intros ? ? Hrest);
    unfold always in *; cbn [vars out] in *; congruence.
Qed.

(** Step 1 with an active firewall: its handler can format its
    message, so it returns; at most the commit request was sent. *)
Lemma start_commit_returns m :
  Config.active_fw_list (vars m) <> [] ->
  wp (Config.start_commit net)
    (fun r m' =>
       (exists f, r = Ok f) /\
       Config.active_fw_list (vars m') = Config.active_fw_list (vars m) /\
       (requests_sent (out m') <= requests_sent (out m) + 1)%nat) m.
Proof.
  intros Hactive.
  unfold Config.start_commit, Config.commit_failed, Config.active_fw.
  wp_steps;
    cbn [vars out Config.active_fw_list Config.set_jobid] in *;
    rewrite ?requests_sent_app; count_in requests_sent;
    try congruence;
    (split; [eexists; reflexivity|split; [reflexivity|lia]]).
Qed.

(** Step 2 with an active firewall: whatever ends the loop is caught
    and logged. *)
Lemma poll_caught (fuel : nat) m :
  Config.active_fw_list (vars m) <> [] ->
  wp (try_except any_exception (Config.poll net fuel)
        (Config.commit_failed ERROR))
    (never_raises (fun _ => True)) m.
Proof.
  intros Hactive. apply wp_try_except.
  eapply wp_mono; [|apply poll_keeps_vars].
  intros [[]|e|] m' Hvars; unfold always in Hvars; cbn beta iota.
  - exact I.
  - unfold any_exception, Config.commit_failed. rewrite <- Hvars in Hactive.
    wp_steps; [exact I|congruence].
  - exact I.
Qed.
End ConfigCommitRaises.

(** X18.  With an active firewall, [commit_changes] of the configuration class
    can raise only by reading its unbound local [jobid]: the exception is
    [UnboundLocalError], and at most the commit request was sent.  Every
    other failure, in the commit or in the polling, is caught and
    logged. *)
Theorem config_commit_changes_raises_only_unbound_jobid
  (net : network) (fuel : nat) (m : machine Config.state) :
  Config.active_fw_list (vars m) <> [] ->
  wp (Config.commit_changes net fuel)
    (fun r m' =>
       forall e, r = Raised e ->
         e = UnboundLocalError /\
         (requests_sent (out m') <= requests_sent (out m) + 1)%nat) m.
Proof.
  intros Hactive. unfold Config.commit_changes.
  apply wp_bind, wp_assign. cbn beta iota.
  apply wp_bind.
  eapply wp_mono; [|apply start_commit_returns; exact Hactive].
  intros r m1 ([f ->] & Hlist & Hq). cbn [vars out Config.active_fw_list
    Config.set_jobid] in Hlist, Hq.
  destruct f.
  - unfold Config.read_jobid. apply wp_bind, wp_bind, wp_read. cbn beta iota.
    destruct (Config.jobid (vars m1)) as [j|].
    + apply wp_ret. cbn beta iota. destruct (negb (truthy j)).
      * apply wp_emit. discriminate.
      * eapply wp_mono; [|apply poll_caught; congruence].
        intros [[]|e|] m2 Hr e' He'; try discriminate. contradiction.
    + apply wp_raise. intros e' He'. injection He' as <-. auto.
  - apply wp_ret. discriminate.
Qed.

Lemma config_commit_changes_raises_only_unbound_jobid_witness :
  wp (Config.commit_changes net_commit_times_out 1)
    (fun r m' =>
       forall e, r = Raised e ->
         e = UnboundLocalError /\
         (requests_sent (out m') <=
          requests_sent (out (config_with [fw1] [key1])) + 1)%nat)
    (config_with [fw1] [key1]).
Proof.
  apply (config_commit_changes_raises_only_unbound_jobid
           net_commit_times_out 1 (config_with [fw1] [key1])).
  discriminate.
Defined.

(** ** [commit_changes] of the configuration class: the polling loop *)

Section ConfigPoll.
Variable net : network.
Implicit Types m : machine Config.state.

Lemma poll_S (fuel : nat) m :
  Config.poll net (S fuel) m =
  (j <-- Config.read_jobid ;;
   if truthy j then
     dh <-- Config.active_fw ;;
     let host := host (fst dh) in
     job_response <-- http_get net (Config.job_request (fst dh) (snd dh) j) ;;
     if (status_code job_response =? 200)%Z then
       root <-- fromstring job_response ;;
       match find_desc "job" root with
       | Some job =>
           let job_status := findtext "status" None job in
           let job_progress := findtext "progress" (Some "0") job in
           let job_result := findtext "result" (Some "") job in
           if opt_eqb job_status "ACT" then
             log INFO "Commit running for {self.active_fw_list[0]['host']}, progress {job_progress}% - job ID: {jobid}"
               [AStr host; AOpt job_progress; AOpt j] ;;;
             log INFO "logging job XML response for {self.active_fw_list[0]['host']}: {job_xml_response}"
               [AStr host; AStr (text job_response)] ;;;
             sleep 15 ;;;
             Config.poll net fuel
           else if opt_eqb job_status "FIN" then
             if opt_eqb job_result "OK" then
               log INFO "Commit completed successfully for {self.active_fw_list[0]['host']} - job ID: {jobid}"
                 [AStr host; AOpt j] ;;;
               log INFO "logging job XML response for {self.active_fw_list[0]['host']}: {job_xml_response}"
                 [AStr host; AStr (text job_response)] ;;;
               update act_fw_commit
             else
               log ERROR "Job {jobid} failed on {self.active_fw_list[0]['host']}: {job_result}"
                 [AOpt j; AStr host; AOpt job_result] ;;;
               log ERROR "logging job XML response for {self.active_fw_list[0]['host']}: {job_xml_response}"
                 [AStr host; AStr (text job_response)] ;;;
               Config.poll net fuel
           else Config.poll net fuel
       | None => Config.poll net fuel
       end
     else Config.poll net fuel
   else ret tt) m.
Proof. reflexivity. Qed.

Variables (d : Device) (ds : list Device) (h : Headers) (hs : list Headers).
Variable j : option string.

Ltac poll_to_reply Hm Hr :=
  destruct Hm as (Hd & Hh & Hj & Htruthy);
  rewrite poll_S;
  unfold Config.read_jobid, Config.active_fw, fromstring, index0,
    log, sleep, update, bind, read, ret, http_get, emit;
  rewrite Hj, Htruthy, Hd, Hh; cbn [fst snd vars out];
  rewrite Hr.

(** A query that finds the job running: the loop sleeps and goes on. *)
Lemma poll_running (fuel : nat) m (r : response) :
  polling d ds h hs j m ->
  net (requests_sent (out m)) (Config.job_request d h j) = Replies r ->
  job_running r ->
  exists tr,
    Config.poll net (S fuel) m
    = Config.poll net fuel (Machine (vars m) (out m ++ tr)) /\
    requests_sent tr = 1%nat /\ slept tr = 15%Z /\
    updates_of act_fw_commit tr = 0%nat.
Proof.
  intros Hm Hr (Hcode & root & job & Hxml & Hjob & Hstatus).
  poll_to_reply Hm Hr.
  rewrite Hcode, Hxml. change (200 =? 200)%Z with true. cbv beta iota.
  rewrite Hjob. cbv beta iota zeta. rewrite Hstatus.
  change (opt_eqb (Some "ACT") "ACT") with true. cbv beta iota.
  cbn [vars out]. rewrite <- !app_assoc. cbn [app].
  eexists. split; [reflexivity|]. repeat split; reflexivity.
Qed.

(** A query that finds the job failed: the loop goes on at once. *)
Lemma poll_failed (fuel : nat) m (r : response) :
  polling d ds h hs j m ->
  net (requests_sent (out m)) (Config.job_request d h j) = Replies r ->
  job_failed r ->
  exists tr,
    Config.poll net (S fuel) m
    = Config.poll net fuel (Machine (vars m) (out m ++ tr)) /\
    requests_sent tr = 1%nat /\ slept tr = 0%Z.
Proof.
  intros Hm Hr (Hcode & root & job & Hxml & Hjob & Hstatus & Hresult).
  poll_to_reply Hm Hr.
  rewrite Hcode, Hxml. change (200 =? 200)%Z with true. cbv beta iota.
  rewrite Hjob. cbv beta iota zeta. rewrite Hstatus, Hresult.
  change (opt_eqb (Some "FIN") "ACT") with false.
  change (opt_eqb (Some "FIN") "FIN") with true. cbv beta iota.
  cbn [vars out]. rewrite <- !app_assoc. cbn [app].
  eexists. split; [reflexivity|]. repeat split; reflexivity.
Qed.

(** A query that finds the job finished with result OK ends the
    loop. *)
Lemma poll_succeeded (fuel : nat) m (r : response) :
  polling d ds h hs j m ->
  net (requests_sent (out m)) (Config.job_request d h j) = Replies r ->
  job_succeeded r ->
  exists tr,
    Config.poll net (S fuel) m = (Ok tt, Machine (vars m) (out m ++ tr)) /\
    requests_sent tr = 1%nat /\ slept tr = 0%Z /\
    updates_of act_fw_commit tr = 1%nat.
Proof.
  intros Hm Hr (Hcode & root & job & Hxml & Hjob & Hstatus & Hresult).
  poll_to_reply Hm Hr.
  rewrite Hcode, Hxml. change (200 =? 200)%Z with true. cbv beta iota.
  rewrite Hjob. cbv beta iota zeta. rewrite Hstatus, Hresult.
  change (opt_eqb (Some "FIN") "ACT") with false.
  change (opt_eqb (Some "FIN") "FIN") with true.
  change (opt_eqb (Some "OK") "OK") with true. cbv beta iota.
  cbn [vars out]. rewrite <- !app_assoc. cbn [app].
  eexists. split; [reflexivity|]. repeat split; reflexivity.
Qed.

Lemma polling_out m (tr : list event) :
  polling d ds h hs j m -> polling d ds h hs j (Machine (vars m) (out m ++ tr)).
Proof. auto. Qed.

(** The loop while the job is found failed at every query. *)
Lemma poll_spins (fuel : nat) :
  forall m,
    polling d ds h hs j m ->
    (forall k, exists r,
       net k (Config.job_request d h j) = Replies r /\ job_failed r) ->
    exists m',
      Config.poll net fuel m = (OutOfFuel, m') /\
      vars m' = vars m /\
      requests_sent (out m') = (requests_sent (out m) + fuel)%nat /\
      slept (out m') = slept (out m).
Proof.
  induction fuel as [|fuel IH]; intros m Hm Hnet.
  - exists m. split; [|repeat split; lia].
    destruct Hm as (Hd & Hh & Hj & Htruthy). cbn [Config.poll].
    unfold Config.read_jobid, bind, read, ret. rewrite Hj, Htruthy.
    reflexivity.
  - destruct (Hnet (requests_sent (out m))) as (r & Hr & Hfailed).
    destruct (poll_failed fuel m r Hm Hr Hfailed) as (tr & Hstep & Hq & Hs).
    destruct (IH (Machine (vars m) (out m ++ tr)) (polling_out m tr Hm) Hnet)
      as (m' & Hrun & Hv & Hq' & Hs').
    exists m'. rewrite Hstep, Hrun. cbn [vars out] in Hv, Hq', Hs'.
    rewrite requests_sent_app, Hq in Hq'. rewrite slept_app, Hs in Hs'.
    repeat split; auto; lia.
Qed.

(** The loop when the job is found running [k] times and then finished
    with result OK. *)
Lemma poll_completes (k : nat) :
  forall m fuel,
    polling d ds h hs j m ->
    (forall q, (q < k)%nat -> exists r,
       net (requests_sent (out m) + q) (Config.job_request d h j) = Replies r /\
       job_running r) ->
    (exists r,
       net (requests_sent (out m) + k) (Config.job_request d h j) = Replies r /\
       job_succeeded r) ->
    (k < fuel)%nat ->
    exists m',
      Config.poll net fuel m = (Ok tt, m') /\
      vars m' = vars m /\
      requests_sent (out m') = (requests_sent (out m) + k + 1)%nat /\
      slept (out m') = (slept (out m) + 15 * Z.of_nat k)%Z /\
      updates_of act_fw_commit (out m') =
        (updates_of act_fw_commit (out m) + 1)%nat.
Proof.
  induction k as [|k IH]; intros m fuel Hm Hrunning Hdone Hfuel;
    (destruct fuel as [|fuel]; [lia|]).
  - destruct Hdone as (r & Hr & Hok). rewrite Nat.add_0_r in Hr.
    destruct (poll_succeeded fuel m r Hm Hr Hok) as (tr & Hstep & Hq & Hs & Hu).
    eexists. split; [exact Hstep|]. cbn [vars out].
    rewrite requests_sent_app, slept_app, updates_of_app, Hq, Hs, Hu.
    repeat split; lia.
  - destruct (Hrunning 0%nat ltac:(lia)) as (r & Hr & Hrun).
    rewrite Nat.add_0_r in Hr.
    destruct (poll_running fuel m r Hm Hr Hrun) as (tr & Hstep & Hq & Hs & Hu).
    destruct (IH (Machine (vars m) (out m ++ tr)) fuel (polling_out m tr Hm))
      as (m' & Hrest & Hv & Hq' & Hs' & Hu').
    + intros q Hlt. cbn [out]. rewrite requests_sent_app, Hq.
      replace (requests_sent (out m) + 1 + q)%nat
        with (requests_sent (out m) + S q)%nat by lia.
      apply Hrunning. lia.
    + cbn [out]. rewrite requests_sent_app, Hq.
      replace (requests_sent (out m) + 1 + k)%nat
        with (requests_sent (out m) + S k)%nat by lia.
      exact Hdone.
    + lia.
    + exists m'. rewrite Hstep, Hrest. cbn [vars out] in Hv, Hq', Hs', Hu'.
      rewrite requests_sent_app, Hq in Hq'. rewrite slept_app, Hs in Hs'.
      rewrite updates_of_app, Hu in Hu'.
      repeat split; auto; lia.
Qed.
End ConfigPoll.

Section ConfigCommit.
Variable net : network.
Variables (d : Device) (ds : list Device) (h : Headers) (hs : list Headers).
Variable m : machine Config.state.
Hypothesis Hd : Config.active_fw_list (vars m) = d :: ds.
Hypothesis Hh : Config.active_fw_headers (vars m) = h :: hs.

(** Step 1 when the commit is queued: the loop is entered. *)
Lemma commit_changes_queued (fuel : nat) (rc : response) (j : option string) :
  net (requests_sent (out m)) (Config.commit_request d h) = Replies rc ->
  commit_queued rc j ->
  exists m1,
    Config.commit_changes net fuel m =
    try_except any_exception (Config.poll net fuel) (Config.commit_failed ERROR) m1 /\
    polling d ds h hs j m1 /\
    requests_sent (out m1) = S (requests_sent (out m)) /\
    slept (out m1) = slept (out m) /\
    updates_of act_fw_commit (out m1) = updates_of act_fw_commit (out m).
Proof.
  intros Hr (Hcode & root & result & Hxml & Hresult & Hjob & Htruthy).
  unfold Config.commit_changes, Config.start_commit, Config.read_jobid,
    Config.active_fw, fromstring, index0, log.
  unfold bind at 1. unfold assign at 1. unfold bind at 1.
  unfold try_except at 1, bind, read, ret, http_get, assign, emit.
  cbn [vars out Config.active_fw_list Config.active_fw_headers Config.set_jobid].
  rewrite Hd, Hh. cbn [fst snd vars out]. rewrite Hr, Hcode, Hxml.
  change (200 =? 200)%Z with true. cbv beta iota.
  rewrite Hresult. cbv beta iota zeta. rewrite Hjob, Htruthy.
  cbn [vars out Config.jobid Config.set_jobid negb]. rewrite Htruthy.
  cbn [negb]. cbv beta iota.
  eexists. split; [reflexivity|]. unfold polling.
  cbn [vars out Config.active_fw_list Config.active_fw_headers
       Config.jobid Config.set_jobid].
  rewrite !requests_sent_app, !slept_app, !updates_of_app.
  count_in requests_sent. count_in slept. count_in (updates_of act_fw_commit).
  repeat split; auto; lia.
Qed.
End ConfigCommit.

(** X19.  A job that has failed is polled for ever.  When the commit is queued
    and every query finds the job finished with a result other than OK,
    [commit_changes] of the configuration class never returns: with any
    fuel it is still polling, one query per turn of the loop, and it has
    not slept at all. *)
Theorem config_commit_changes_spins_on_failed_job
  (net : network) (d : Device) (ds : list Device) (h : Headers)
  (hs : list Headers) (m : machine Config.state) (rc : response)
  (j : option string) (fuel : nat) :
  Config.active_fw_list (vars m) = d :: ds ->
  Config.active_fw_headers (vars m) = h :: hs ->
  net (requests_sent (out m)) (Config.commit_request d h) = Replies rc ->
  commit_queued rc j ->
  (forall k, exists r,
     net k (Config.job_request d h j) = Replies r /\ job_failed r) ->
  exists m',
    Config.commit_changes net fuel m = (OutOfFuel, m') /\
    requests_sent (out m') = (requests_sent (out m) + 1 + fuel)%nat /\
    slept (out m') = slept (out m).
Proof.
  intros Hd Hh Hr Hqueued Hfailed.
  destruct (commit_changes_queued net d ds h hs m Hd Hh fuel rc j Hr Hqueued)
    as (m1 & Hrun & Hpoll & Hq & Hs & _).
  destruct (poll_spins net d ds h hs j fuel m1 Hpoll Hfailed)
    as (m' & Hspin & _ & Hq' & Hs').
  exists m'. rewrite Hrun. unfold try_except. rewrite Hspin.
  repeat split; lia.
Qed.

Lemma config_commit_changes_spins_on_failed_job_witness :
  exists m',
    Config.commit_changes net_jobs_failed 5 (config_with [fw1] [key1])
    = (OutOfFuel, m') /\
    requests_sent (out m') =
      (requests_sent (out (config_with [fw1] [key1])) + 1 + 5)%nat /\
    slept (out m') = slept (out (config_with [fw1] [key1])).
Proof.
  apply (config_commit_changes_spins_on_failed_job net_jobs_failed
           fw1 [] key1 [] (config_with [fw1] [key1])
           {| status_code := 200;
              text := "<response status='success' code='19'>...</response>";
              xml := Some (commit_doc "7") |}
           (Some "7") 5).
  - reflexivity.
  - reflexivity.
  - reflexivity.
  - split; [reflexivity|]. do 2 eexists. repeat split; reflexivity.
  - intros k. eexists. split; [reflexivity|]. split; [reflexivity|].
    do 2 eexists. repeat split; reflexivity.
Defined.

(** X20.  A running job is waited for.  When the commit is queued, the first
    [k] queries find the job running and the next one finds it finished
    with result OK, [commit_changes] of the configuration class returns
    after [k + 1] queries: it has slept 15 after each of the [k] queries
    that found the job running, and has updated its progress bar once. *)
Theorem config_commit_changes_waits_for_running_job
  (net : network) (d : Device) (ds : list Device) (h : Headers)
  (hs : list Headers) (m : machine Config.state) (rc : response)
  (j : option string) (k fuel : nat) :
  Config.active_fw_list (vars m) = d :: ds ->
  Config.active_fw_headers (vars m) = h :: hs ->
  net (requests_sent (out m)) (Config.commit_request d h) = Replies rc ->
  commit_queued rc j ->
  (forall q, (q < k)%nat -> exists r,
     net (S (requests_sent (out m)) + q) (Config.job_request d h j) = Replies r /\
     job_running r) ->
  (exists r,
     net (S (requests_sent (out m)) + k) (Config.job_request d h j) = Replies r /\
     job_succeeded r) ->
  (k < fuel)%nat ->
  exists m',
    Config.commit_changes net fuel m = (Ok tt, m') /\
    requests_sent (out m') = (requests_sent (out m) + k + 2)%nat /\
    slept (out m') = (slept (out m) + 15 * Z.of_nat k)%Z /\
    updates_of act_fw_commit (out m') =
      (updates_of act_fw_commit (out m) + 1)%nat.
Proof.
  intros Hd Hh Hr Hqueued Hrunning Hdone Hfuel.
  destruct (commit_changes_queued net d ds h hs m Hd Hh fuel rc j Hr Hqueued)
    as (m1 & Hrun & Hpoll & Hq & Hs & Hu).
  rewrite <- Hq in Hrunning, Hdone.
  destruct (poll_completes net d ds h hs j k m1 fuel Hpoll Hrunning Hdone Hfuel)
    as (m' & Hend & _ & Hq' & Hs' & Hu').
  exists m'. rewrite Hrun. unfold try_except. rewrite Hend.
  repeat split; lia.
Qed.

Lemma config_commit_changes_waits_for_running_job_witness :
  exists m',
    Config.commit_changes net_job_runs_twice 3 (config_with [fw1] [key1])
    = (Ok tt, m') /\
    requests_sent (out m') =
      (requests_sent (out (config_with [fw1] [key1])) + 2 + 2)%nat /\
    slept (out m') = (slept (out (config_with [fw1] [key1])) + 15 * Z.of_nat 2)%Z /\
    updates_of act_fw_commit (out m') =
      (updates_of act_fw_commit (out (config_with [fw1] [key1])) + 1)%nat.
Proof.
  apply (config_commit_changes_waits_for_running_job net_job_runs_twice
           fw1 [] key1 [] (config_with [fw1] [key1])
           {| status_code := 200;
              text := "<response status='success' code='19'>...</response>";
              xml := Some (commit_doc "7") |}
           (Some "7") 2 3).
  - reflexivity.
  - reflexivity.
  - reflexivity.
  - split; [reflexivity|]. do 2 eexists. repeat split; reflexivity.
  - intros q Hq. destruct q as [|[|q]]; [| |lia];
      (eexists; split; [reflexivity|]; split; [reflexivity|];
       do 2 eexists; repeat split; reflexivity).
  - eexists. split; [reflexivity|]. split; [reflexivity|].
    do 2 eexists. repeat split; reflexivity.
  - lia.
Defined.

(** X21.  A commit that is not queued ends the method.  When the reply to the
    commit request has a status other than 200, or no [result], or no job
    id, [commit_changes] of the configuration class records one error and
    returns after that one request, for any fuel: no job is queried. *)
Theorem config_commit_changes_returns_without_job
  (net : network) (d : Device) (ds : list Device) (h : Headers)
  (hs : list Headers) (m : machine Config.state) (rc : response) (fuel : nat) :
  Config.active_fw_list (vars m) = d :: ds ->
  Config.active_fw_headers (vars m) = h :: hs ->
  net (requests_sent (out m)) (Config.commit_request d h) = Replies rc ->
  commit_not_queued rc ->
  exists m' t args,
    Config.commit_changes net fuel m = (Ok tt, m') /\
    out m' = out m ++ [Request (Config.commit_request d h); Log ERROR t args].
Proof.
  intros Hd Hh Hr Hnot.
  unfold Config.commit_changes, Config.start_commit, Config.read_jobid,
    Config.active_fw, fromstring, index0, log.
  unfold bind at 1. unfold assign at 1. unfold bind at 1.
  unfold try_except at 1, bind, read, ret, http_get, assign, emit.
  cbn [vars out Config.active_fw_list Config.active_fw_headers Config.set_jobid].
  rewrite Hd, Hh. cbn [fst snd vars out]. rewrite Hr.
  destruct Hnot as [Hcode|(Hcode & root & Hxml & Hresult)].
  - apply Z.eqb_neq in Hcode. rewrite Hcode. cbn [vars out].
    do 3 eexists. split; [reflexivity|]. cbn [out].
    rewrite <- app_assoc. reflexivity.
  - rewrite Hcode, Hxml. change (200 =? 200)%Z with true. cbv beta iota.
    destruct (find_desc "result" root) as [result|].
    + cbv beta iota zeta. rewrite Hresult. cbn [vars out].
      do 3 eexists. split; [reflexivity|]. cbn [out].
      rewrite <- app_assoc. reflexivity.
    + cbn [vars out].
      do 3 eexists. split; [reflexivity|]. cbn [out].
      rewrite <- app_assoc. reflexivity.
Qed.

Lemma config_commit_changes_returns_without_job_witness :
  exists m' t args,
    Config.commit_changes net_second_commit_refused 0 (config_with [fw2] [key2])
    = (Ok tt, m') /\
    out m' = out (config_with [fw2] [key2]) ++
             [Request (Config.commit_request fw2 key2); Log ERROR t args].
Proof.
  apply (config_commit_changes_returns_without_job net_second_commit_refused
           fw2 [] key2 [] (config_with [fw2] [key2])
           {| status_code := 500; text := ""; xml := None |} 0).
  - reflexivity.
  - reflexivity.
  - reflexivity.
  - left. discriminate.
Defined.

(** ** [wait_for_sync_completion] and [force_sync_config]: their bounds *)

Section SyncBounds.
Variable net : network.
Implicit Types m : machine Config.state.

Lemma checks_bounded_refl m : checks_bounded 0 m m.
Proof. unfold checks_bounded. repeat split; lia. Qed.

Ltac bounded :=
  unfold checks_bounded in *; cbn [vars out length] in *;
  rewrite ?requests_sent_app, ?slept_app, ?triggers_sent_app in *;
  count_in requests_sent; count_in slept; count_in triggers_sent;
  repeat match goal with H : _ /\ _ |- _ => destruct H end;
  repeat split; try congruence; try lia.

(** The loop over the checks that are left. *)
Lemma wait_loop_bounded (n : nat) (d : Device) (checks : list nat) :
  forall m,
    wp (Config.wait_loop net n d checks)
      (fun r m' => r <> OutOfFuel /\ checks_bounded (length checks) m m') m.
Proof.
  induction checks as [|check rest IH]; intros m; cbn [Config.wait_loop].
  - apply wp_ret. split; [discriminate|apply checks_bounded_refl].
  - wp_steps;
      try (eapply wp_mono; [|apply IH]; cbn beta; intros ? ? [? Hrest]);
      (split; [try discriminate; assumption|]);
      bounded.
Qed.

Lemma wait_for_sync_completion_bounded m :
  wp (Config.wait_for_sync_completion net)
    (fun r m' => r = Ok tt /\ checks_bounded Config.max_checks m m') m.
Proof.
  unfold Config.wait_for_sync_completion.
  apply wp_try_except. apply wp_bind, wp_read. cbn beta iota.
  apply wp_bind, wp_index0.
  - intros d ds Hd. eapply wp_mono; [|apply wait_loop_bounded].
    intros [[]|e|] m' [Hfuel Hb]; cbn beta iota;
      rewrite length_seq in Hb.
    + auto.
    + unfold any_exception. apply wp_emit. split; [reflexivity|]. bounded.
    + congruence.
  - intros Hd. unfold any_exception. apply wp_emit.
    split; [reflexivity|]. unfold Config.max_checks. bounded.
Qed.
End SyncBounds.

(** X22.  [wait_for_sync_completion] never raises and is bounded, whatever the
    firewall answers: it assigns nothing, sends at most 8 requests, sleeps
    at most 120 seconds, sleeps 15 before every request that it sends (the
    first one too), and never triggers a synchronisation. *)
Theorem wait_for_sync_completion_is_bounded
  (net : network) (m : machine Config.state) :
  wp (Config.wait_for_sync_completion net)
    (fun r m' =>
       r = Ok tt /\ vars m' = vars m /\
       (requests_sent (out m') <= requests_sent (out m) + 8)%nat /\
       (slept (out m') <= slept (out m) + 120)%Z /\
       (slept (out m) + 15 * Z.of_nat (requests_sent (out m'))
        <= slept (out m') + 15 * Z.of_nat (requests_sent (out m)))%Z /\
       triggers_sent (out m') = triggers_sent (out m)) m.
Proof.
  eapply wp_mono; [|apply wait_for_sync_completion_bounded].
  intros r m' [-> (Hv & Hq & Hs & Hb & Ht)].
  unfold Config.max_checks in *. repeat split; auto; lia.
Qed.

(** X23.  [force_sync_config] never raises and is bounded as well: it assigns
    nothing, triggers at most one synchronisation, sends at most 10
    requests (the state query, the trigger, 8 checks) and sleeps at most
    120 seconds. *)
Theorem force_sync_config_is_bounded
  (net : network) (m : machine Config.state) :
  wp (Config.force_sync_config net)
    (fun r m' =>
       r = Ok tt /\ vars m' = vars m /\
       (requests_sent (out m') <= requests_sent (out m) + 10)%nat /\
       (slept (out m') <= slept (out m) + 120)%Z /\
       (triggers_sent (out m') <= triggers_sent (out m) + 1)%nat) m.
Proof.
  unfold Config.force_sync_config, Config.active_fw.
  wp_steps;
    try (eapply wp_mono; [|apply wait_for_sync_completion_bounded];
         cbn beta; intros ? ? [-> Hb]; cbn beta iota; wp_steps);
    unfold checks_bounded, Config.max_checks in *; cbn [vars out] in *;
    rewrite ?requests_sent_app, ?slept_app, ?triggers_sent_app in *;
    count_in requests_sent; count_in slept; count_in triggers_sent;
    repeat match goal with H : _ /\ _ |- _ => destruct H end;
    repeat split; try congruence; try lia.
Qed.

(** ** [wait_for_sync_completion] and [force_sync_config]: where they stop *)

Section WaitStops.
Variable net : network.
Variable d : Device.
Variable h : Headers.
Implicit Types m : machine Config.state.

(** The checks that go on are passed; the loop is then at the checks
    that are left. *)
Lemma wait_loop_skips (n : nat) (l1 l2 : list nat) :
  forall m (hs : list Headers),
    Config.active_fw_headers (vars m) = h :: hs ->
    (forall k, (k < length l1)%nat ->
       sync_pending (net (requests_sent (out m) + k)
                       (Config.ha_state_request d h None))) ->
    exists tr,
      Config.wait_loop net n d (l1 ++ l2) m =
      Config.wait_loop net n d l2 (Machine (vars m) (out m ++ tr)) /\
      requests_sent tr = length l1 /\
      slept tr = (15 * Z.of_nat (length l1))%Z.
Proof.
  induction l1 as [|check l1 IH]; intros m hs Hh Hpending.
  - exists []. rewrite app_nil_r. destruct m. repeat split.
  - destruct (wait_check_pending net d h n check (l1 ++ l2) m hs Hh)
      as (tr1 & Hstep & Hq1 & Hs1 & _).
    { specialize (Hpending 0%nat). rewrite Nat.add_0_r in Hpending.
      apply Hpending. cbn [length]. lia. }
    destruct (IH (Machine (vars m) (out m ++ tr1)) hs Hh)
      as (tr2 & Hrest & Hq2 & Hs2).
    { intros k Hk. cbn [out]. rewrite requests_sent_app, Hq1.
      replace (requests_sent (out m) + 1 + k)%nat
        with (requests_sent (out m) + S k)%nat by lia.
      apply Hpending. cbn [length]. lia. }
    exists (tr1 ++ tr2). cbn [app]. rewrite Hstep, Hrest. cbn [vars out].
    rewrite app_assoc, requests_sent_app, slept_app, Hq1, Hq2, Hs1, Hs2.
    cbn [length]. repeat split; lia.
Qed.

(** A check that finds the pair synchronised ends the loop. *)
Lemma wait_check_synchronized (n check : nat) (rest : list nat) m
  (hs : list Headers) :
  Config.active_fw_headers (vars m) = h :: hs ->
  synchronized (net (requests_sent (out m)) (Config.ha_state_request d h None)) ->
  Config.wait_loop net n d (check :: rest) m =
  (Ok tt,
   Machine (vars m)
     (out m ++
      [Sleep 15; Request (Config.ha_state_request d h None);
       Log INFO " Sync check {check + 1}/{max_checks}: Status = {current_state}"
         [ANat (check + 1); ANat n; AOpt (Some "synchronized")]] ++
      [Log INFO "Running Config synchronization completed successfully!" []])).
Proof.
  intros Hh Hsync. cbn [Config.wait_loop].
  unfold fromstring, index0, sleep, log, bind, read, ret, http_get, emit.
  cbn [vars out]. rewrite Hh. cbn [vars out].
  rewrite requests_sent_app. count_in requests_sent. rewrite Nat.add_0_r.
  destruct (net (requests_sent (out m)) (Config.ha_state_request d h None))
    as [resp|e]; [|contradiction].
  destruct Hsync as (Hcode & root & Hxml & Hstate).
  rewrite Hcode, Hxml. change (200 =? 200)%Z with true. cbv beta iota zeta.
  rewrite Hstate.
  change (opt_eqb (Some "synchronized") "synchronized") with true.
  cbv beta iota. cbn [vars out]. rewrite <- !app_assoc. reflexivity.
Qed.
End WaitStops.

(** X24.  [wait_for_sync_completion] stops at the first check that finds the
    pair synchronised.  When the first [k] checks go on and check [k + 1]
    reads "synchronized", with [k < 8], the method has made [k + 1]
    checks, slept 15 before each, and its last record is that of the
    completed synchronisation; the checks that are left are not made. *)
Theorem wait_for_sync_completion_stops_when_synchronized
  (net : network) (m : machine Config.state)
  (d : Device) (ds : list Device) (h : Headers) (hs : list Headers) (k : nat) :
  Config.active_fw_list (vars m) = d :: ds ->
  Config.active_fw_headers (vars m) = h :: hs ->
  (k < 8)%nat ->
  (forall q, (q < k)%nat ->
     sync_pending (net (requests_sent (out m) + q)
                     (Config.ha_state_request d h None))) ->
  synchronized (net (requests_sent (out m) + k)
                  (Config.ha_state_request d h None)) ->
  exists tr,
    Config.wait_for_sync_completion net m
    = (Ok tt,
       Machine (vars m)
         (out m ++ tr ++
          [Log INFO "Running Config synchronization completed successfully!" []])) /\
    requests_sent tr = (k + 1)%nat /\
    slept tr = (15 * Z.of_nat (k + 1))%Z.
Proof.
  intros Hd Hh Hk Hpending Hsync.
  unfold Config.wait_for_sync_completion, try_except.
  rewrite bind_read, Hd. unfold bind at 1, index0, ret.
  unfold Config.max_checks at 2.
  replace 8%nat with (k + S (7 - k))%nat by lia.
  rewrite List.seq_app. cbn [seq].
  destruct (wait_loop_skips net d h Config.max_checks (seq 0 k)
              ((0 + k)%nat :: seq (S (0 + k)) (7 - k)) m hs Hh)
    as (tr & Hskip & Hq & Hs).
  { rewrite length_seq. exact Hpending. }
  rewrite length_seq in Hq, Hs.
  rewrite Hskip.
  rewrite (wait_check_synchronized net d h Config.max_checks (0 + k)
             (seq (S (0 + k)) (7 - k)) (Machine (vars m) (out m ++ tr)) hs Hh).
  - cbn [vars out].
    exists (tr ++
            [Sleep 15; Request (Config.ha_state_request d h None);
             Log INFO " Sync check {check + 1}/{max_checks}: Status = {current_state}"
               [ANat (0 + k + 1); ANat Config.max_checks;
                AOpt (Some "synchronized")]]).
    split.
    + rewrite <- !app_assoc. reflexivity.
    + rewrite requests_sent_app, slept_app, Hq, Hs.
      count_in requests_sent. count_in slept. split; lia.
  - cbn [out]. rewrite requests_sent_app, Hq. exact Hsync.
Qed.

Lemma wait_for_sync_completion_stops_when_synchronized_witness :
  exists tr,
    Config.wait_for_sync_completion net_synced_at_third_check
      (config_with [fw1] [key1])
    = (Ok tt,
       Machine (vars (config_with [fw1] [key1]))
         (out (config_with [fw1] [key1]) ++ tr ++
          [Log INFO "Running Config synchronization completed successfully!" []])) /\
    requests_sent tr = (2 + 1)%nat /\
    slept tr = (15 * Z.of_nat (2 + 1))%Z.
Proof.
  apply (wait_for_sync_completion_stops_when_synchronized
           net_synced_at_third_check (config_with [fw1] [key1])
           fw1 [] key1 [] 2).
  - reflexivity.
  - reflexivity.
  - lia.
  - intros q Hq. destruct q as [|[|q]]; [| |lia];
      (right; eexists; split; reflexivity).
  - split; [reflexivity|]. eexists. split; reflexivity.
Defined.

(** X25.  When the pair is not synchronised and the firewall refuses to start
    the synchronisation (a status other than 200), [force_sync_config]
    records the refusal and does not wait; it updates its progress bar all
    the same. *)
Theorem force_sync_config_counts_refused_trigger_as_done
  (net : network) (m : machine Config.state)
  (d : Device) (ds : list Device) (h : Headers) (hs : list Headers)
  (r_state r_sync : response) (root : Element) :
  Config.active_fw_list (vars m) = d :: ds ->
  Config.active_fw_headers (vars m) = h :: hs ->
  net (requests_sent (out m)) (Config.ha_state_request d h (Some 30%Z))
    = Replies r_state ->
  status_code r_state = 200%Z ->
  xml r_state = Some root ->
  findtext_desc_child "group" "running-sync" root = Some "not synchronized" ->
  net (S (requests_sent (out m))) (Config.sync_request d h) = Replies r_sync ->
  status_code r_sync <> 200%Z ->
  Config.force_sync_config net m
  = (Ok tt,
     Machine (vars m)
       (out m ++
        [Request (Config.ha_state_request d h (Some 30%Z));
         Log INFO "Response: {response_sync.status_code}" [AInt 200];
         Request (Config.sync_request d h);
         Log ERROR "Failed to initiate configuration sync on {self.active_fw_list[0]['host']}: {response_sync.status_code}"
           [AStr (host d); AInt (status_code r_sync)];
         Log ERROR "Response: {response_sync.text}" [AStr (text r_sync)];
         Update act_fw_check_sync 1])).
Proof.
  intros Hd Hh Hstate Hcode Hxml Hsync Htrigger Hrefused.
  unfold Config.force_sync_config, Config.active_fw, try_except,
    fromstring, index0, log, update, bind, read, ret, http_get, emit.
  rewrite Hd, Hh. cbn [fst snd vars out]. rewrite Hstate. cbn [vars out].
  rewrite Hcode, Hxml. change (200 =? 200)%Z with true. cbv beta iota zeta.
  rewrite Hsync.
  change (opt_eqb (Some "not synchronized") "synchronized") with false.
  change (opt_eqb (Some "not synchronized") "synchronization in progress")
    with false.
  change (opt_eqb (Some "not synchronized") "not synchronized") with true.
  cbv beta iota. cbn [vars out]. rewrite Hh. cbn [vars out].
  rewrite !requests_sent_app. count_in requests_sent.
  rewrite Nat.add_0_r, Nat.add_1_r, Htrigger.
  apply Z.eqb_neq in Hrefused. rewrite Hrefused.
  cbv beta iota. cbn [vars out]. rewrite <- !app_assoc. reflexivity.
Qed.

Lemma force_sync_config_counts_refused_trigger_as_done_witness :
  Config.force_sync_config net_sync_refused (config_with [fw1] [key1])
  = (Ok tt,
     Machine (vars (config_with [fw1] [key1]))
       (out (config_with [fw1] [key1]) ++
        [Request (Config.ha_state_request fw1 key1 (Some 30%Z));
         Log INFO "Response: {response_sync.status_code}" [AInt 200];
         Request (Config.sync_request fw1 key1);
         Log ERROR "Failed to initiate configuration sync on {self.active_fw_list[0]['host']}: {response_sync.status_code}"
           [AStr (host fw1);
            AInt (status_code
                    {| status_code := 403; text := "<response status='error'/>";
                       xml := None |})];
         Log ERROR "Response: {response_sync.text}"
           [AStr (text {| status_code := 403; text := "<response status='error'/>";
                          xml := None |})];
         Update act_fw_check_sync 1])).
Proof.
  apply (force_sync_config_counts_refused_trigger_as_done
           net_sync_refused (config_with [fw1] [key1]) fw1 [] key1 []
           {| status_code := 200; text := "<response status='success'>...</response>";
              xml := Some (ha_doc "active" "not synchronized") |}
           {| status_code := 403; text := "<response status='error'/>"; xml := None |}
           (ha_doc "active" "not synchronized"));
    try reflexivity.
  discriminate.
Defined.

(** ** [main]: how far a run gets *)

(** X26.  From the HA object, [main] can reach its [except] clause through
    [get_api_key] only: when the calls of step 3 raise, it is
    [get_api_key] that raised.  [enable_HA_interfaces] and
    [ha_configuration] catch whatever happens in them. *)
Theorem configure_ha_raises_only_in_get_api_key
  (net : network) (format : string -> list (string * string) -> string + exn)
  (fuel : nat) (f : Main.loaded) (m : machine HA.state) :
  wp (Main.configure_ha net format fuel f)
    (fun r _ => forall e, r = Raised e -> fst (HA.get_api_key net m) = Raised e) m.
Proof.
  unfold Main.configure_ha. apply wp_bind. unfold wp at 1.
  destruct (HA.get_api_key net m) as [[keys|e|] m1]; cbn [fst snd];
    [|congruence|discriminate].
  apply wp_bind.
  eapply wp_mono; [|apply enable_then_commit].
  intros [[]|e|] m2 Hr; cbn beta iota; [|contradiction|discriminate].
  apply wp_bind.
  eapply wp_mono; [|apply configure_then_commit].
  intros [[]|e|] m3 Hr'; cbn beta iota; [|contradiction|discriminate].
  apply wp_ret. discriminate.
Qed.

(** X27.  A key request that [get_api_key] does not survive ends the whole
    run.  When the request of device [i] ends in an exception that is not
    a [RequestException] (or in a reply with status 200 and no key), and
    the requests before it let the loop go on, [main] records "An
    unexpected error occurred" and returns: the [i + 1] key requests are
    the only requests of the run. *)
Theorem main_ends_when_key_request_aborts
  (net : network) (format : string -> list (string * string) -> string + exn)
  (fuel : nat) (f : Main.loaded) (i : nat) (d : Device) (e : exn) :
  Main.pa_credentials f !! i = Some d ->
  (forall q d', (q < i)%nat -> Main.pa_credentials f !! q = Some d' ->
     keygen_goes_on net q d') ->
  keygen_outcome_at net i d = KeyAborts e ->
  exists tr,
    Main.main net format fuel f = (Ok tt, tr ++ [Main.unexpected e]) /\
    requests_sent tr = S i.
Proof.
  intros Hi Hbefore Hat.
  destruct (get_api_key_loop_aborts net (Main.pa_credentials f)
              (HA.init (Main.pa_credentials f)) i d e Hi Hbefore Hat)
    as [Hr Hn].
  unfold Main.main, Main.configure_ha, HA.get_api_key.
  unfold bind at 1. rewrite bind_read.
  change (HA.pa_credentials (vars (HA.init (Main.pa_credentials f))))
    with (Main.pa_credentials f).
  unfold bind at 1.
  destruct (for_each (Main.pa_credentials f) (HA.get_api_key_device net)
              (HA.init (Main.pa_credentials f))) as [[[]|e0|] m1];
    cbn [fst snd] in Hr, Hn; try discriminate.
  injection Hr as ->. exists (out m1). split; [reflexivity|exact Hn].
Qed.

Lemma main_ends_when_key_request_aborts_witness :
  exists tr,
    Main.main net_keygen_without_key format_verbatim 3 loaded_pair
    = (Ok tt, tr ++ [Main.unexpected IndexError]) /\
    requests_sent tr = 1%nat.
Proof.
  apply (main_ends_when_key_request_aborts net_keygen_without_key
           format_verbatim 3 loaded_pair 0 fw1 IndexError).
  - reflexivity.
  - intros q d' Hq. lia.
  - vm_compute. reflexivity.
Defined.

(** X28.  Without an active firewall the run ends at the route configuration.
    When the HA phase returns and no device reports the state "active",
    [get_active_fw] returns with empty lists; the interface and the zone
    configuration each record an [IndexError] and return; the route
    configuration raises it; and [main] records "An unexpected error
    occurred".  The state queries are the only requests of the
    configuration phase: no setting, no commit and no synchronisation is
    sent. *)
Theorem main_stops_at_route_config_without_active_fw
  (net : network) (format : string -> list (string * string) -> string + exn)
  (fuel : nat) (f : Main.loaded) (keys : list Headers) (m : machine HA.state) :
  Main.configure_ha net format fuel f (HA.init (Main.pa_credentials f))
    = (Ok keys, m) ->
  (forall q d h, zip (Main.pa_credentials f) keys !! q = Some (d, h) ->
     not_active (net (requests_sent (out m) + q)
                   (Config.ha_state_request d h None))) ->
  exists tr,
    Main.main net format fuel f
    = (Ok tt,
       out m ++ tr ++
       [Log INFO "Active firewall: {self.active_fw_list}" [ADevices []];
        Log ERROR "Error in interface configuration process: {e}" [AExn IndexError];
        Log ERROR "Error configuring zones: {e}" [AExn IndexError];
        Main.unexpected IndexError]) /\
    requests_sent tr = length (zip (Main.pa_credentials f) keys).
Proof.
  intros Hha Hnone.
  unfold Main.main. rewrite Hha.
  pose (c := Machine
               (vars (Config.init (Main.pa_credentials f) keys
                        (Main.pa_interface_tmp f) (Main.pa_zones_tmp f)
                        (Main.pa_route_settings_tmp f) (Main.pa_static_routes_tmp f)
                        (Main.pa_security_policy_tmp f) (Main.pa_source_nat_tmp f)))
               (out m)).
  destruct (find_active_skips net (zip (Main.pa_credentials f) keys) [] c)
    as (tr & Hskip & Hq); [exact Hnone|].
  rewrite app_nil_r in Hskip.
  exists tr. split; [|exact Hq].
  fold c. unfold Main.apply_configuration.
  unfold bind at 1. unfold Config.get_active_fw, try_except.
  rewrite bind_read. unfold bind at 1.
  change (zip (Config.pa_credentials (vars c)) (Config.api_keys_list (vars c)))
    with (zip (Main.pa_credentials f) keys).
  rewrite Hskip. cbn [Config.find_active].
  unfold bind, read, ret, log, emit. cbn [vars out].
  unfold c.
  lazy [Config.act_fw_int_config Config.act_fw_zone_config
        Config.act_fw_route_config Config.active_fw try_except bind read
        index0 raise ret log emit any_exception vars out Config.init
        Config.active_fw_list Config.active_fw_headers].
  rewrite <- !app_assoc. reflexivity.
Qed.

Lemma main_stops_at_route_config_without_active_fw_witness :
  exists tr,
    Main.main net_deploy_passive format_verbatim 2 loaded_pair
    = (Ok tt,
       out (snd (Main.configure_ha net_deploy_passive format_verbatim 2 loaded_pair
                   (HA.init (Main.pa_credentials loaded_pair)))) ++ tr ++
       [Log INFO "Active firewall: {self.active_fw_list}" [ADevices []];
        Log ERROR "Error in interface configuration process: {e}" [AExn IndexError];
        Log ERROR "Error configuring zones: {e}" [AExn IndexError];
        Main.unexpected IndexError]) /\
    requests_sent tr =
      length (zip (Main.pa_credentials loaded_pair)
                [HA.xml_headers "KEY-OF-192.168.1.1";
                 HA.xml_headers "KEY-OF-192.168.1.2"]).
Proof.
  apply (main_stops_at_route_config_without_active_fw net_deploy_passive
           format_verbatim 2 loaded_pair
           [HA.xml_headers "KEY-OF-192.168.1.1"; HA.xml_headers "KEY-OF-192.168.1.2"]
           (snd (Main.configure_ha net_deploy_passive format_verbatim 2 loaded_pair
                   (HA.init (Main.pa_credentials loaded_pair))))).
  - vm_compute. reflexivity.
  - intros q d h _. right. do 2 eexists. repeat split; reflexivity.
Defined.
